(** * lehrerdb: timetable resolution, lesson overrides and assessment scoring

    A shallow embedding of the domain logic of [webapp.py]: the week view's
    timetable resolution ([_handle_home]), the lesson status handlers
    ([_post_lesson_update_status], [_post_lesson_uncancel]), the grade
    computation ([_calculate_student_performance_grade]) and the CSV import
    of results ([_post_performance_import]).  Around them: the timetable
    conflict check, the handlers that create, delete and grade assessments
    and send their CSV template, the default grade scale, [html_escape],
    the class and subject look-ups, and the handlers for students and
    attendance.

    Tables are lists of rows in rowid order.  A [SELECT] without [ORDER BY]
    is read in that order, so [fetchone] is the head of the filtered table.
    Python floats and SQLite REAL values are IEEE 754 binary64 numbers,
    modelled by [spec_float] at precision 53. *)

From Stdlib Require Import ZArith String Ascii List Lia Bool.
From Stdlib Require Import Floats.SpecFloat.
From stdpp Require Import gmap strings list.

Local Open Scope string_scope.
Local Open Scope Z_scope.
Local Open Scope list_scope.

(** ** SQLite TEXT comparison

    The columns [timetable.day] and [timetable.date] have the default
    BINARY collation: texts are compared byte by byte, a proper prefix
    sorting first.  This is [String.compare]. *)
Module Text.

Definition lt (a b : string) : Prop := String.compare a b = Lt.
Definition le (a b : string) : Prop := String.compare a b <> Gt.

End Text.

(** ** The tables

    One record per table of [ensure_schema_migrations], with the columns in
    declaration order.  A nullable column is an [option]; INTEGER columns
    are [Z], TEXT columns are [string], REAL columns are [spec_float]. *)

Module Schema.

(** [timetable]: a row with [t_date = None] is a weekly template row, a row
    with a date is an override for that day. *)
Record timetable_row := {
  t_id : Z;
  t_class_id : option Z;
  t_period : Z;
  t_is_double : Z;
  t_slot : Z;
  t_day : string;
  t_time_range : option string;
  t_date : option string;
  t_status : option string;
  t_subject_id : option Z;
  t_room : option string;
  t_course_id : option Z
}.

Record class_row := {
  c_id : Z;
  c_name : string;
  c_teacher_id : option Z
}.

Record course_row := {
  co_id : Z;
  co_name : string;
  co_class_id : option Z;
  co_leader_id : option Z
}.

Record subject_row := {
  s_id : Z;
  s_name : string;
  s_short : option string
}.

Record grade_scale_row := {
  gs_id : Z;
  gs_name : string;
  gs_definition : string
}.

Record performance_query_row := {
  pq_id : Z;
  pq_type : string;
  pq_description : option string;
  pq_subject_id : option Z;
  pq_class_id : option Z;
  pq_course_id : option Z;
  pq_date : string;
  pq_grade_scale_id : option Z;
  pq_max_op_points : option spec_float
}.

Record performance_task_row := {
  pt_id : Z;
  pt_performance_id : Z;
  pt_number : Z;
  pt_max_points : spec_float
}.

(** [op_points], [zp_points] and [grade_override] are nullable REAL columns.
    [None] stands for NULL. *)
Record performance_result_row := {
  pr_id : Z;
  pr_performance_id : Z;
  pr_student_id : Z;
  pr_op_points : option spec_float;
  pr_zp_points : option spec_float;
  pr_grade_override : option spec_float;
  pr_comment : option string;
  pr_op_is_edited : option Z;
  pr_zp_is_edited : option Z
}.

Record performance_task_result_row := {
  ptr_id : Z;
  ptr_performance_id : Z;
  ptr_student_id : Z;
  ptr_task_number : Z;
  ptr_points : spec_float;
  ptr_is_edited : option Z
}.

Record change_log_row := {
  cl_id : Z;
  cl_timestamp : string;
  cl_action : option string;
  cl_table_name : option string;
  cl_record_id : option Z;
  cl_field_name : option string;
  cl_old_value : option string;
  cl_new_value : option string;
  cl_comment : option string
}.

Record db := {
  classes : list class_row;
  courses : list course_row;
  subjects : list subject_row;
  timetable : list timetable_row;
  grade_scales : list grade_scale_row;
  performance_queries : list performance_query_row;
  performance_tasks : list performance_task_row;
  performance_results : list performance_result_row;
  performance_task_results : list performance_task_result_row;
  change_log : list change_log_row
}.

(** The rowid SQLite gives to an inserted row of an [INTEGER PRIMARY KEY]
    table: one more than the largest rowid in use, 1 for an empty table. *)
Definition next_rowid {A : Type} (key : A -> Z) (table : list A) : Z :=
  match table with
  | [] => 1
  | r :: rest => 1 + fold_right Z.max (key r) (map key rest)
  end.

(** The integers SQLite stores and accepts as statement parameters: 64
    bits, signed.  Binding a Python [int] outside this range raises
    [OverflowError]. *)
Definition in_int64 (n : Z) : bool :=
  (- 2 ^ 63 <=? n) && (n <=? 2 ^ 63 - 1).

(** [c = ?] on a nullable column: NULL equals nothing. *)
Definition eq_int (c : option Z) (v : Z) : bool :=
  match c with Some x => (x =? v)%Z | None => false end.

Definition eq_text (c : option string) (v : string) : bool :=
  match c with Some x => String.eqb x v | None => false end.

(** [c < ?] on a nullable TEXT column. *)
Definition lt_text (c : option string) (v : string) : bool :=
  match c with Some x => String.ltb x v | None => false end.

Definition is_null {A : Type} (c : option A) : bool :=
  match c with Some _ => false | None => true end.

(** Python truth value of an integer column. *)
Definition truthy (n : Z) : bool := negb (n =? 0)%Z.

Definition set_timetable (d : db) (t : list timetable_row) : db :=
  {| classes := classes d; courses := courses d; subjects := subjects d;
     timetable := t;
     grade_scales := grade_scales d;
     performance_queries := performance_queries d;
     performance_tasks := performance_tasks d;
     performance_results := performance_results d;
     performance_task_results := performance_task_results d;
     change_log := change_log d |}.

Definition set_results (d : db) (r : list performance_result_row)
    (tr : list performance_task_result_row) : db :=
  {| classes := classes d; courses := courses d; subjects := subjects d;
     timetable := timetable d;
     grade_scales := grade_scales d;
     performance_queries := performance_queries d;
     performance_tasks := performance_tasks d;
     performance_results := r;
     performance_task_results := tr;
     change_log := change_log d |}.

Definition set_change_log (d : db) (l : list change_log_row) : db :=
  {| classes := classes d; courses := courses d; subjects := subjects d;
     timetable := timetable d;
     grade_scales := grade_scales d;
     performance_queries := performance_queries d;
     performance_tasks := performance_tasks d;
     performance_results := performance_results d;
     performance_task_results := performance_task_results d;
     change_log := l |}.

End Schema.

(** ** Python values: exceptions, texts and floats

    A Python [str] is modelled by its bytes; the functions below follow the
    built-in methods on ASCII text.  Characters outside ASCII are ordinary
    characters here: they are neither white space, nor digits, nor line
    breaks. *)

Module Py.

Inductive exn :=
| ValueError
| TypeError
| OverflowError
| IntegrityError
| ProgrammingError.

(** The outcome of a computation that may raise. *)
Inductive result (A : Type) :=
| Ok (a : A)
| Raise (e : exn).

Arguments Ok {A} a.
Arguments Raise {A} e.

Definition bind {A B : Type} (m : result A) (k : A -> result B) : result B :=
  match m with
  | Ok a => k a
  | Raise e => Raise e
  end.

Notation "'let*' x ':=' m 'in' k" := (bind m (fun x => k))
  (at level 10, x name, m at level 100, k at level 200).

(** *** str *)

Definition code (c : ascii) : N := N_of_ascii c.

(** [str.isspace] on ASCII: tab, line feed, vertical tab, form feed,
    carriage return, the separators 0x1c to 0x1f, and the space. *)
Definition isspace (c : ascii) : bool :=
  ((9 <=? code c) && (code c <=? 13) || (28 <=? code c) && (code c <=? 32))%N.

Fixpoint lstrip (s : string) : string :=
  match s with
  | String c rest => if isspace c then lstrip rest else s
  | EmptyString => s
  end.

Fixpoint rstrip (s : string) : string :=
  match s with
  | EmptyString => EmptyString
  | String c rest =>
      match rstrip rest with
      | EmptyString => if isspace c then EmptyString else String c EmptyString
      | r => String c r
      end
  end.

(** [s.strip()] *)
Definition strip (s : string) : string := rstrip (lstrip s).

(** [s.split(sep)] for a one-character separator: always at least one
    field, empty fields are kept. *)
Fixpoint split (sep : ascii) (s : string) : list string :=
  match s with
  | EmptyString => [EmptyString]
  | String c rest =>
      if Ascii.eqb c sep then EmptyString :: split sep rest
      else
        match split sep rest with
        | first :: others => String c first :: others
        | [] => [String c EmptyString]
        end
  end.

(** The ASCII line boundaries of [str.splitlines]: line feed, vertical tab,
    form feed, carriage return, and the separators 0x1c, 0x1d, 0x1e. *)
Definition is_linebreak (c : ascii) : bool :=
  ((10 <=? code c) && (code c <=? 13) || (28 <=? code c) && (code c <=? 30))%N.

(** [s.splitlines()]: a carriage return followed by a line feed is one
    boundary; there is no empty last line after a final boundary. *)
Fixpoint splitlines (s : string) : list string :=
  match s with
  | EmptyString => []
  | String c rest =>
      if is_linebreak c then
        EmptyString ::
        (if (code c =? 13)%N then
           match rest with
           | String c2 rest2 =>
               if (code c2 =? 10)%N then splitlines rest2 else splitlines rest
           | EmptyString => splitlines rest
           end
         else splitlines rest)
      else
        match splitlines rest with
        | first :: others => String c first :: others
        | [] => [String c EmptyString]
        end
  end.

(** The line feed, as a text. *)
Definition newline : string := String (ascii_of_N 10) "".

(** [s.startswith(p)] *)
Definition startswith (p s : string) : bool := String.prefix p s.

(** Truth value of a text: the empty text is false. *)
Definition nonempty (s : string) : bool :=
  match s with EmptyString => false | String _ _ => true end.

(** Truth value of [data.get(key)]: a missing key gives [None]. *)
Definition present (v : option string) : bool :=
  match v with Some s => nonempty s | None => false end.

(** *** Number syntax *)

Definition digit_value (c : ascii) : option Z :=
  if ((48 <=? code c) && (code c <=? 57))%N then Some (Z.of_N (code c) - 48)
  else None.

Definition is_underscore (c : ascii) : bool := (code c =? 95)%N.

(** After a digit: the rest of [digit (["_"] digit)*], and what follows. *)
Fixpoint read_digits (s : string) : list Z * string :=
  match s with
  | EmptyString => ([], s)
  | String c rest =>
      match digit_value c with
      | Some d => let '(ds, r) := read_digits rest in (d :: ds, r)
      | None =>
          if is_underscore c then
            match rest with
            | String c2 rest2 =>
                match digit_value c2 with
                | Some d => let '(ds, r) := read_digits rest2 in (d :: ds, r)
                | None => ([], s)
                end
            | EmptyString => ([], s)
            end
          else ([], s)
      end
  end.

(** [digitpart]: at least one digit. *)
Definition read_digitpart (s : string) : option (list Z * string) :=
  match s with
  | String c rest =>
      match digit_value c with
      | Some d => let '(ds, r) := read_digits rest in Some (d :: ds, r)
      | None => None
      end
  | EmptyString => None
  end.

Definition decimal (ds : list Z) : Z :=
  fold_left (fun acc d => 10 * acc + d) ds 0.

(** An optional sign: [true] for minus. *)
Definition read_sign (s : string) : bool * string :=
  match s with
  | String c rest =>
      if (code c =? 45)%N then (true, rest)
      else if (code c =? 43)%N then (false, rest)
      else (false, s)
  | EmptyString => (false, s)
  end.

(** [int(s)] in base ten: white space around, a sign, digits with single
    underscores between them.  [None] is [ValueError]. *)
Definition int (s : string) : option Z :=
  let '(neg, body) := read_sign (strip s) in
  match read_digitpart body with
  | Some (ds, EmptyString) => Some (if neg then - decimal ds else decimal ds)
  | _ => None
  end.

(** [str(n)] for an [int]: decimal digits, a minus sign for a negative
    number. *)
Fixpoint decimal_digits (fuel : nat) (n : Z) (acc : string) : string :=
  match fuel with
  | O => acc
  | S fuel' =>
      let acc' := String (ascii_of_N (Z.to_N (48 + n mod 10))) acc in
      if n / 10 =? 0 then acc' else decimal_digits fuel' (n / 10) acc'
  end.

Definition str_of_int (n : Z) : string :=
  if n <? 0 then
    String.append "-" (decimal_digits (S (Z.to_nat (Z.log2 (- n)))) (- n) "")
  else decimal_digits (S (Z.to_nat (Z.log2 n))) n "".

End Py.

(** ** Python floats

    A [float] is an IEEE 754 binary64 number: [spec_float] with precision 53
    and exponent bound 1024, rounding to nearest, ties to even. *)

Module Float.

Import Py.

Definition prec : Z := 53.
Definition emax : Z := 1024.

Definition add : spec_float -> spec_float -> spec_float := SFadd prec emax.
Definition mul : spec_float -> spec_float -> spec_float := SFmul prec emax.
Definition div : spec_float -> spec_float -> spec_float := SFdiv prec emax.

(** [x == y], [x < y], [x <= y]: false on NaN, the two zeros are equal. *)
Definition eqb : spec_float -> spec_float -> bool := SFeqb.
Definition ltb : spec_float -> spec_float -> bool := SFltb.
Definition leb : spec_float -> spec_float -> bool := SFleb.

Definition zero : spec_float := S754_zero false.

(** The float nearest to an integer. *)
Definition of_Z (n : Z) : spec_float := binary_normalize prec emax n 0 false.

Definition two : spec_float := of_Z 2.
Definition hundred : spec_float := of_Z 100.

Definition is_nan (x : spec_float) : bool :=
  match x with S754_nan => true | _ => false end.

(** [float(n)] for an [int], as in [n / 2.0]: an integer beyond the
    largest float raises [OverflowError]. *)
Definition of_int (n : Z) : result spec_float :=
  match of_Z n with
  | S754_infinity _ => Raise OverflowError
  | x => Ok x
  end.

(** [m / 2^k] rounded to the nearest integer, ties to the even one. *)
Definition div_pow2_half_even (m : Z) (k : Z) : Z :=
  let q := m / 2 ^ k in
  let r := m mod 2 ^ k in
  let half := 2 ^ (k - 1) in
  if r <? half then q
  else if half <? r then q + 1
  else if Z.even q then q else q + 1.

(** [round(x)]: the nearest integer, ties to even; an infinity raises
    [OverflowError], NaN raises [ValueError]. *)
Definition round (x : spec_float) : result Z :=
  match x with
  | S754_zero _ => Ok 0
  | S754_infinity _ => Raise OverflowError
  | S754_nan => Raise ValueError
  | S754_finite s m e =>
      let n := if 0 <=? e then Z.pos m * 2 ^ e
               else div_pow2_half_even (Z.pos m) (- e) in
      Ok (if s then - n else n)
  end.

(** *** [float(s)] for a text *)

Definition lower (c : ascii) : ascii :=
  if ((65 <=? code c) && (code c <=? 90))%N
  then ascii_of_N (code c + 32) else c.

Fixpoint lowercase (s : string) : string :=
  match s with
  | EmptyString => EmptyString
  | String c rest => String (lower c) (lowercase rest)
  end.

(** The correctly rounded float of [(-1)^neg * m * 10^e]. *)
Definition of_decimal (neg : bool) (m : Z) (e : Z) : spec_float :=
  if m =? 0 then S754_zero neg
  else if 0 <=? e then
    binary_normalize prec emax ((if neg then - m else m) * 10 ^ e) 0 false
  else
    let '(q, e', l) := SFdiv_core_binary prec emax m 0 (10 ^ (- e)) 0 in
    binary_round_aux prec emax neg q e' l.

(** [number ::= [digitpart] "." digitpart | digitpart ["."]]: the digits
    before and after the point, and what follows. *)
Definition read_number (s : string) : option (list Z * list Z * string) :=
  match read_digitpart s with
  | Some (ip, String c rest) =>
      if (code c =? 46)%N then
        match read_digitpart rest with
        | Some (fp, r) => Some (ip, fp, r)
        | None => Some (ip, [], rest)
        end
      else Some (ip, [], String c rest)
  | Some (ip, EmptyString) => Some (ip, [], EmptyString)
  | None =>
      match s with
      | String c rest =>
          if (code c =? 46)%N then
            match read_digitpart rest with
            | Some (fp, r) => Some ([], fp, r)
            | None => None
            end
          else None
      | EmptyString => None
      end
  end.

(** [exponent ::= ("e" | "E") [sign] digitpart], optional, then the end of
    the text. *)
Definition read_exponent (s : string) : option Z :=
  match s with
  | EmptyString => Some 0
  | String c rest =>
      if (code (lower c) =? 101)%N then
        let '(neg, body) := read_sign rest in
        match read_digitpart body with
        | Some (ds, EmptyString) =>
            Some (if neg then - decimal ds else decimal ds)
        | _ => None
        end
      else None
  end.

(** [float(s)]: white space around, a sign, then [inf], [infinity] or [nan]
    in any case, or a decimal number.  [None] is [ValueError]. *)
Definition of_string (s : string) : option spec_float :=
  let '(neg, body) := read_sign (strip s) in
  let word := lowercase body in
  if String.eqb word "inf" || String.eqb word "infinity"
  then Some (S754_infinity neg)
  else if String.eqb word "nan" then Some S754_nan
  else
    match read_number body with
    | Some (ip, fp, rest) =>
        match read_exponent rest with
        | Some ex =>
            Some (of_decimal neg (decimal (ip ++ fp))
                    (ex - Z.of_nat (length fp)))
        | None => None
        end
    | None => None
    end.

(** The exact value of a finite float as a fraction: numerator over a
    power of two. *)
Definition numerator (x : spec_float) : Z :=
  match x with
  | S754_finite s m e => (if s then - Z.pos m else Z.pos m) * 2 ^ Z.max 0 e
  | _ => 0
  end.

Definition denominator (x : spec_float) : Z :=
  match x with
  | S754_finite _ _ e => 2 ^ Z.max 0 (- e)
  | _ => 1
  end.

(** [n] is an integer nearest to [num / den], the even one when two
    integers are equally near. *)
Definition nearest_even (num den n : Z) : Prop :=
  2 * Z.abs (n * den - num) <= den /\
  (2 * Z.abs (n * den - num) = den -> Z.even n = true).

(** The integer [p] with the sign [s]: [true] for minus. *)
Definition signed (s : bool) (p : positive) : Z :=
  if s then Z.neg p else Z.pos p.

(** The floats of the format: a finite float has a mantissa of at most 53
    bits at the least exponent that holds it. *)
Definition valid (x : spec_float) : bool := valid_binary prec emax x.

End Float.

(** ** Request handlers: what is sent and what is raised *)

Module Http.

Import Schema.

Inductive response :=
| Html (status : Z) (body : string)
| SeeOther (url : string).

(** What a handler leaves behind: the committed data base, the responses
    written to the client, and the exception that left the handler, if any. *)
Record outcome := {
  db_after : db;
  sent : list response;
  raised : option Py.exn
}.

(** [_log_change]: one row more in [change_log].  The time stamp is the
    column's default, the clock's text [now]. *)
Definition _log_change (d : db) (now : string) (table_name : string)
    (record_id : option Z) (field_name old_value new_value action : string)
    (comment : option string) : db :=
  set_change_log d
    (change_log d ++
     [{| cl_id := next_rowid cl_id (change_log d);
         cl_timestamp := now;
         cl_action := Some action;
         cl_table_name := Some table_name;
         cl_record_id := record_id;
         cl_field_name := Some field_name;
         cl_old_value := Some old_value;
         cl_new_value := Some new_value;
         cl_comment := comment |}]).

End Http.

(** ** Timetable resolution: the week view of [_handle_home] *)

Module Resolution.

Import Schema.

(** [SCHEDULE_PATTERN]: the periods and breaks of a school day. *)
Inductive pattern_slot :=
| PeriodSlot (period : Z) (label : string)
| BreakSlot (minutes : Z) (label : string).

Definition SCHEDULE_PATTERN : list pattern_slot :=
  [ PeriodSlot 1 "1- 08:00-08:45";
    PeriodSlot 2 "2- 08:45-09:30";
    BreakSlot 25 "Pause 25min";
    PeriodSlot 3 "3- 09:55-10:40";
    PeriodSlot 4 "4- 10:40-11:25";
    BreakSlot 20 "Pause 20min";
    PeriodSlot 5 "5- 11:45-12:30";
    PeriodSlot 6 "6- 12:30-13:15";
    BreakSlot 45 "Pause 45min";
    PeriodSlot 8 "8- 14:00-14:45";
    PeriodSlot 9 "9- 14:45-15:30" ].

Definition day_labels : list string :=
  ["Montag"; "Dienstag"; "Mittwoch"; "Donnerstag"; "Freitag"].

(** [[slot['period'] for slot in pattern if 'period' in slot]] *)
Fixpoint periods_of (pattern : list pattern_slot) : list Z :=
  match pattern with
  | [] => []
  | PeriodSlot p _ :: rest => p :: periods_of rest
  | BreakSlot _ _ :: rest => periods_of rest
  end.

Definition period_list : list Z := periods_of SCHEDULE_PATTERN.

(** [ORDER BY t.date DESC]: NULL sorts below every text.  The sort is a
    stable insertion sort, rows of equal date stay in rowid order. *)
Definition date_ltb (a b : option string) : bool :=
  match a, b with
  | None, Some _ => true
  | Some x, Some y => String.ltb x y
  | _, None => false
  end.

Fixpoint insert_date_desc (r : timetable_row) (l : list timetable_row)
  : list timetable_row :=
  match l with
  | [] => [r]
  | h :: t =>
      if date_ltb (t_date r) (t_date h) then h :: insert_date_desc r t
      else r :: l
  end.

Definition order_by_date_desc (l : list timetable_row) : list timetable_row :=
  fold_right insert_date_desc [] l.

(** The three queries of the loop body.  Each joins [classes], [courses]
    and [subjects] by their primary keys with LEFT JOIN, which neither drops
    nor repeats a timetable row and only adds display names: the result is
    identified by its timetable row. *)

(** [WHERE t.date=? AND t.period=?] *)
Definition select_exact (tt : list timetable_row) (date_str : string)
    (period : Z) : option timetable_row :=
  head (List.filter
          (fun t => eq_text (t_date t) date_str && (t_period t =? period)%Z) tt).

(** [WHERE t.date IS NOT NULL AND t.date < ? AND t.day=? AND t.period=?
    ORDER BY t.date DESC LIMIT 1] *)
Definition select_past (tt : list timetable_row) (date_str day_name : string)
    (period : Z) : option timetable_row :=
  head (order_by_date_desc
          (List.filter
             (fun t => negb (is_null (t_date t)) && lt_text (t_date t) date_str
                       && String.eqb (t_day t) day_name
                       && (t_period t =? period)%Z) tt)).

(** [WHERE t.date IS NULL AND t.day=? AND t.period=?] *)
Definition select_template (tt : list timetable_row) (day_name : string)
    (period : Z) : option timetable_row :=
  head (List.filter
          (fun t => is_null (t_date t) && String.eqb (t_day t) day_name
                    && (t_period t =? period)%Z) tt).

(** [row = q1; if not row: row = q2; if not row: row = q3].  A fetched
    [sqlite3.Row] has twelve columns and is always true. *)
Definition select_own (tt : list timetable_row) (date_str day_name : string)
    (period : Z) : option timetable_row :=
  match select_exact tt date_str period with
  | Some row => Some row
  | None =>
      match select_past tt date_str day_name period with
      | Some row => Some row
      | None => select_template tt day_name period
      end
  end.

(** The state of the inner loop: the dictionary [schedule_entries], keyed by
    [(day_idx, period)], and [prev_period]. *)
Definition loop_state : Type := gmap (nat * Z) timetable_row * option Z.

(** One iteration of [for slot in SCHEDULE_PATTERN]. *)
Definition resolve_slot (tt : list timetable_row) (day_idx : nat)
    (date_str day_name : string) (st : loop_state) (slot : pattern_slot)
  : loop_state :=
  match slot with
  | BreakSlot _ _ => st
  | PeriodSlot period _ =>
      let '(schedule_entries, prev_period) := st in
      let row := select_own tt date_str day_name period in
      let row :=
        match row, prev_period with
        | None, Some prev =>
            match schedule_entries !! (day_idx, prev) with
            | Some prev_row =>
                if truthy (t_is_double prev_row) then
                  if String.eqb (t_day prev_row) day_name then Some prev_row
                  else None
                else None
            | None => None
            end
        | _, _ => row
        end in
      let schedule_entries :=
        match row with
        | Some r => <[(day_idx, period) := r]> schedule_entries
        | None => schedule_entries
        end in
      (schedule_entries, Some period)
  end.

(** The body of [for day_idx, date_str in enumerate(date_strs)], over a
    pattern. *)
Definition resolve_day_over (pattern : list pattern_slot)
    (tt : list timetable_row) (schedule_entries : gmap (nat * Z) timetable_row)
    (day_idx : nat) (date_str day_name : string)
  : gmap (nat * Z) timetable_row :=
  fst (fold_left (resolve_slot tt day_idx date_str day_name) pattern
         (schedule_entries, None)).

Definition resolve_day := resolve_day_over SCHEDULE_PATTERN.

(** The five date texts of the displayed week, Monday to Friday
    ([date_strs]).  They come from the clock and the [week] parameter; the
    calendar arithmetic is not part of the model. *)
Record week := {
  monday : string; tuesday : string; wednesday : string;
  thursday : string; friday : string
}.

Definition date_strs (w : week) : list string :=
  [monday w; tuesday w; wednesday w; thursday w; friday w].

Fixpoint enumerate_from {A : Type} (i : nat) (l : list A) : list (nat * A) :=
  match l with
  | [] => []
  | x :: rest => (i, x) :: enumerate_from (S i) rest
  end.

(** [schedule_entries] as [_handle_home] has it when the loops end.
    [day_labels[day_idx]] is in range, [date_strs] has five entries. *)
Definition _handle_home (tt : list timetable_row) (w : week)
  : gmap (nat * Z) timetable_row :=
  fold_left
    (fun schedule_entries '(day_idx, date_str) =>
       resolve_day tt schedule_entries day_idx date_str
         (nth day_idx day_labels ""))
    (enumerate_from 0 (date_strs w)) ∅.

(** The entry of [schedule_entries] for a day and a period. *)
Definition resolved (tt : list timetable_row) (w : week) (day_idx : nat)
    (P : Z) : option timetable_row :=
  _handle_home tt w !! (day_idx, P).

Definition day_date (w : week) (day_idx : nat) : string :=
  nth day_idx (date_strs w) "".

Definition day_name (day_idx : nat) : string := nth day_idx day_labels "".

(** [Q] is visited immediately before [P] in the pass over the pattern. *)
Definition precedes (Q P : Z) : Prop :=
  exists l l', period_list = l ++ Q :: P :: l'.

Definition first_period (P : Z) : Prop := exists l', period_list = P :: l'.

(** The rows matched by each [WHERE] clause. *)
Definition exact_row (tt : list timetable_row) (D : string) (P : Z)
    (r : timetable_row) : Prop :=
  In r tt /\ t_date r = Some D /\ t_period r = P.

Definition past_row (tt : list timetable_row) (D W : string) (P : Z)
    (r : timetable_row) : Prop :=
  In r tt /\ (exists d, t_date r = Some d /\ Text.lt d D) /\
  t_day r = W /\ t_period r = P.

Definition template_row (tt : list timetable_row) (W : string) (P : Z)
    (r : timetable_row) : Prop :=
  In r tt /\ t_date r = None /\ t_day r = W /\ t_period r = P.

(** [r] carries the greatest date among the past rows. *)
Definition latest_past_row (tt : list timetable_row) (D W : string) (P : Z)
    (r : timetable_row) : Prop :=
  past_row tt D W P r /\
  forall r' d d', past_row tt D W P r' ->
    t_date r = Some d -> t_date r' = Some d' -> Text.le d' d.

End Resolution.

(** ** Lesson status overrides *)

Module Lifecycle.

Import Schema Http.

Section Handlers.

(** [WHERE id = ?] receives the form's text.  SQLite converts it by the
    numeric affinity of the comparison before looking up the rowid; a text
    that is no number matches no row.  The conversion is a parameter. *)
Variable rowid_of_text : string -> option Z.

(** [SELECT * FROM timetable WHERE id=?] *)
Definition select_by_id (tt : list timetable_row) (timetable_id : string)
  : option timetable_row :=
  match rowid_of_text timetable_id with
  | Some z => head (List.filter (fun t => t_id t =? z) tt)
  | None => None
  end.

(** [col = ?] for a value of the template, [col IS NULL] for its NULL. *)
Definition null_aware_eq (col template_value : option Z) : bool :=
  match template_value with
  | Some v => eq_int col v
  | None => is_null col
  end.

(** The [WHERE] clause assembled from [where_parts]. *)
Definition override_matches (date : string) (template_entry t : timetable_row)
  : bool :=
  eq_text (t_date t) date
  && (t_period t =? t_period template_entry)
  && null_aware_eq (t_subject_id t) (t_subject_id template_entry)
  && null_aware_eq (t_class_id t) (t_class_id template_entry)
  && null_aware_eq (t_course_id t) (t_course_id template_entry).

Definition select_override (tt : list timetable_row) (date : string)
    (template_entry : timetable_row) : option timetable_row :=
  head (List.filter (override_matches date template_entry) tt).

Definition set_status (t : timetable_row) (status : string) : timetable_row :=
  {| t_id := t_id t; t_class_id := t_class_id t; t_period := t_period t;
     t_is_double := t_is_double t; t_slot := t_slot t; t_day := t_day t;
     t_time_range := t_time_range t; t_date := t_date t;
     t_status := Some status; t_subject_id := t_subject_id t;
     t_room := t_room t; t_course_id := t_course_id t |}.

(** [UPDATE timetable SET status=? WHERE id=?] *)
Definition update_status (tt : list timetable_row) (id : Z) (status : string)
  : list timetable_row :=
  map (fun t => if t_id t =? id then set_status t status else t) tt.

(** The row of the [INSERT]: the template's columns, the date and the
    status of the request, a new rowid. *)
Definition override_of (id : Z) (template_entry : timetable_row)
    (date status : string) : timetable_row :=
  {| t_id := id;
     t_class_id := t_class_id template_entry;
     t_period := t_period template_entry;
     t_is_double := t_is_double template_entry;
     t_slot := t_slot template_entry;
     t_day := t_day template_entry;
     t_time_range := t_time_range template_entry;
     t_date := Some date;
     t_status := Some status;
     t_subject_id := t_subject_id template_entry;
     t_room := t_room template_entry;
     t_course_id := t_course_id template_entry |}.

Definition insert_override (tt : list timetable_row)
    (template_entry : timetable_row) (date status : string)
  : list timetable_row :=
  tt ++ [override_of (next_rowid t_id tt) template_entry date status].

(** [_post_lesson_update_status].  When the entry is not found the handler
    closes the connection inside [with conn:], sends the 404 page, and the
    commit on leaving the block raises on the closed connection. *)
Definition _post_lesson_update_status (d : db)
    (date period timetable_id status : option string) : outcome :=
  match date, period, timetable_id, status with
  | Some date, Some period, Some timetable_id, Some status =>
      if Py.nonempty date && Py.nonempty period && Py.nonempty timetable_id
         && Py.nonempty status then
        match select_by_id (timetable d) timetable_id with
        | None =>
            {| db_after := d;
               sent := [Html 404
                          "<h1>404</h1><p>Original timetable entry not found.</p>"];
               raised := Some Py.ProgrammingError |}
        | Some template_entry =>
            let tt :=
              match select_override (timetable d) date template_entry with
              | Some existing_override =>
                  update_status (timetable d) (t_id existing_override) status
              | None => insert_override (timetable d) template_entry date status
              end in
            {| db_after := set_timetable d tt;
               sent := [SeeOther ("/?msg=Stunde+am+" ++ date ++ "+aktualisiert")];
               raised := None |}
        end
      else
        {| db_after := d;
           sent := [Html 400 "<h1>400</h1><p>Missing required form fields.</p>"];
           raised := None |}
  | _, _, _, _ =>
      {| db_after := d;
         sent := [Html 400 "<h1>400</h1><p>Missing required form fields.</p>"];
         raised := None |}
  end.

(** [DELETE FROM timetable WHERE id = ? AND date IS NOT NULL] *)
Definition delete_override (tt : list timetable_row) (timetable_id : string)
  : list timetable_row :=
  match rowid_of_text timetable_id with
  | Some z =>
      List.filter
        (fun t => negb ((t_id t =? z) && negb (is_null (t_date t)))) tt
  | None => tt
  end.

(** [_post_lesson_uncancel] *)
Definition _post_lesson_uncancel (d : db) (timetable_id : option string)
  : outcome :=
  match timetable_id with
  | Some timetable_id =>
      if Py.nonempty timetable_id then
        {| db_after :=
             set_timetable d (delete_override (timetable d) timetable_id);
           sent := [SeeOther "/?msg=Ausfall+wurde+rueckgaengig+gemacht."];
           raised := None |}
      else
        {| db_after := d;
           sent := [Html 400 "<h1>400</h1><p>Missing timetable_id.</p>"];
           raised := None |}
  | None =>
      {| db_after := d;
         sent := [Html 400 "<h1>400</h1><p>Missing timetable_id.</p>"];
         raised := None |}
  end.

End Handlers.

(** [_post_admin_timetable_delete]: the delete of the admin pages, which
    writes its log entry once the delete is committed. *)
Definition _post_admin_timetable_delete (d : db) (now : string)
    (id : option string) : outcome :=
  let text := match id with
              | Some s => if Py.nonempty s then s else "0"
              | None => "0"
              end in
  match Py.int text with
  | None => {| db_after := d; sent := []; raised := Some Py.ValueError |}
  | Some tid =>
      if tid <=? 0 then
        {| db_after := d;
           sent := [Html 400 "<h1>400</h1><p>Ungültige ID.</p>"];
           raised := None |}
      else if negb (in_int64 tid) then
        {| db_after := d; sent := []; raised := Some Py.OverflowError |}
      else
        let d1 := set_timetable d
                    (List.filter (fun t => negb (t_id t =? tid)) (timetable d)) in
        {| db_after := _log_change d1 now "timetable" (Some tid) "delete" "" ""
                         "manual" None;
           sent := [SeeOther "/admin/timetable"];
           raised := None |}
  end.

(** An answer that tells the caller the request was refused: an exception,
    or a page with an error status. *)
Definition rejected (o : outcome) : Prop :=
  raised o <> None \/
  exists status body, In (Html status body) (sent o) /\ 400 <= status.

End Lifecycle.

(** ** Assessment scoring: [_calculate_student_performance_grade] *)

Module Scoring.

Import Schema Py.

(** A band of a grade scale: label, lower bound, upper bound. *)
Definition band : Type := string * spec_float * spec_float.

(** One line of a scale definition: three fields separated by semicolons,
    the last two read by [float].  Any other line gives no band. *)
Definition parse_line (ln : string) : list band :=
  match map strip (split ";" ln) with
  | [g; lo; hi] =>
      match Float.of_string lo with
      | Some mi =>
          match Float.of_string hi with
          | Some ma => [(g, mi, ma)]
          | None => []
          end
      | None => []
      end
  | _ => []
  end.

(** [scale_def], the bands in the order of the lines. *)
Definition parse_scale (definition : string) : list band :=
  flat_map parse_line (splitlines definition).

(** The loop over [scale_def]: the label of the first band with
    [pct >= mi and pct < ma], the empty text when there is none. *)
Fixpoint lookup_grade (scale_def : list band) (pct : spec_float) : string :=
  match scale_def with
  | [] => ""
  | (g, mi, ma) :: rest =>
      if Float.leb mi pct && Float.ltb pct ma then g
      else lookup_grade rest pct
  end.

(** The built-in [sum] over floats: addition from the left, starting from
    the integer 0, which enters the first addition as [+0.0].  (From
    CPython 3.12 on the built-in compensates rounding errors; sums of
    numbers that add up exactly, as in the examples below, are the same.) *)
Definition sum (l : list spec_float) : spec_float :=
  fold_left Float.add l Float.zero.

(** [ORDER BY number]: stable insertion sort on the task number. *)
Fixpoint insert_task (t : performance_task_row) (l : list performance_task_row)
  : list performance_task_row :=
  match l with
  | [] => [t]
  | h :: rest =>
      if pt_number h <? pt_number t then h :: insert_task t rest
      else t :: l
  end.

Definition order_by_number (l : list performance_task_row)
  : list performance_task_row :=
  fold_right insert_task [] l.

(** [SELECT grade_scale_id FROM performance_queries WHERE id=?] *)
Definition select_performance (d : db) (performance_id : Z)
  : option performance_query_row :=
  head (List.filter (fun p => pq_id p =? performance_id)
          (performance_queries d)).

(** [SELECT number, max_points FROM performance_tasks
    WHERE performance_id=? ORDER BY number] *)
Definition select_tasks (d : db) (performance_id : Z)
  : list performance_task_row :=
  order_by_number
    (List.filter (fun t => pt_performance_id t =? performance_id)
       (performance_tasks d)).

(** [SELECT definition FROM grade_scales WHERE id=?] *)
Definition select_scale (d : db) (grade_scale_id : Z)
  : option grade_scale_row :=
  head (List.filter (fun s => gs_id s =? grade_scale_id) (grade_scales d)).

(** [SELECT op_points, zp_points, grade_override FROM performance_results
    WHERE performance_id=? AND student_id=?] *)
Definition select_result (d : db) (performance_id student_id : Z)
  : option performance_result_row :=
  head (List.filter
          (fun r => (pr_performance_id r =? performance_id)
                    && (pr_student_id r =? student_id))
          (performance_results d)).

(** [SELECT points FROM performance_task_results
    WHERE performance_id=? AND student_id=?] *)
Definition select_task_results (d : db) (performance_id student_id : Z)
  : list performance_task_result_row :=
  List.filter
    (fun r => (ptr_performance_id r =? performance_id)
              && (ptr_student_id r =? student_id))
    (performance_task_results d).

(** The grade of the returned dictionary: the label of a band, or the
    override, which is a number. *)
Inductive grade_value :=
| Label (g : string)
| Override (x : spec_float).

Record score := {
  total_points : spec_float;
  percentage : spec_float;
  grade : grade_value
}.

(** An addend of [task_sum + op + zp].  A NULL column is [None] in Python
    and the addition raises [TypeError]; the integer 0 of a missing result
    row adds as [+0.0]. *)
Definition addend (column : option spec_float) : result spec_float :=
  match column with
  | Some x => Ok x
  | None => Raise TypeError
  end.

(** [round(tot * 2.0) / 2.0] *)
Definition round_to_half (tot : spec_float) : result spec_float :=
  let* n := Float.round (Float.mul tot Float.two) in
  let* f := Float.of_int n in
  Ok (Float.div f Float.two).

(** [_calculate_student_performance_grade] for integer ids: [Ok None] is
    the return value [None].  The first query binds [performance_id], the
    query for the results is the first to bind [student_id]. *)
Definition _calculate_student_performance_grade (d : db)
    (performance_id student_id : Z) : result (option score) :=
  if negb (in_int64 performance_id) then Raise OverflowError else
  match select_performance d performance_id with
  | None => Ok None
  | Some performance =>
      match pq_grade_scale_id performance with
      | None => Ok None
      | Some grade_scale_id =>
          if negb (truthy grade_scale_id) then Ok None
          else
            let tasks := select_tasks d performance_id in
            let total_max := sum (map pt_max_points tasks) in
            if Float.eqb total_max Float.zero then Ok None
            else
              match select_scale d grade_scale_id with
              | None => Ok None
              | Some scale_row =>
                  let scale_def := parse_scale (gs_definition scale_row) in
                  match scale_def with
                  | [] => Ok None
                  | _ =>
                      if negb (in_int64 student_id) then Raise OverflowError
                      else
                      let results :=
                        select_result d performance_id student_id in
                      let task_results :=
                        select_task_results d performance_id student_id in
                      let op := match results with
                                | Some r => pr_op_points r
                                | None => Some Float.zero
                                end in
                      let zp := match results with
                                | Some r => pr_zp_points r
                                | None => Some Float.zero
                                end in
                      let override := match results with
                                      | Some r => pr_grade_override r
                                      | None => None
                                      end in
                      let task_sum := sum (map ptr_points task_results) in
                      let* op_value := addend op in
                      let* zp_value := addend zp in
                      let tot := Float.add (Float.add task_sum op_value)
                                   zp_value in
                      let* tot_rounded := round_to_half tot in
                      let pct := Float.mul (Float.div tot_rounded total_max)
                                   Float.hundred in
                      let grade := lookup_grade scale_def pct in
                      let final_grade := match override with
                                         | Some x => Override x
                                         | None => Label grade
                                         end in
                      Ok (Some {| total_points := tot_rounded;
                                  percentage := pct;
                                  grade := final_grade |})
                  end
              end
      end
  end.

(** [pct] lies in the band: [pct >= mi and pct < ma]. *)
Definition in_band (pct : spec_float) (b : band) : Prop :=
  let '(_, mi, ma) := b in
  Float.leb mi pct = true /\ Float.ltb pct ma = true.

(** [g] is the label of the first band, in the order of the list, that
    holds [pct]; the empty text when no band holds it. *)
Definition first_band (scale_def : list band) (pct : spec_float) (g : string)
  : Prop :=
  (exists before mi ma rest,
     scale_def = before ++ (g, mi, ma) :: rest /\
     in_band pct (g, mi, ma) /\
     forall b, In b before -> ~ in_band pct b) \/
  (g = "" /\ forall b, In b scale_def -> ~ in_band pct b).

(** [total] is a multiple of 0.5 nearest to [raw]: twice [total] is the
    integer [n], an integer nearest to twice [raw], the even one when two
    are equally near. *)
Definition nearest_half (raw total : spec_float) : Prop :=
  exists n,
    Float.nearest_even (2 * Float.numerator raw) (Float.denominator raw) n /\
    2 * Float.numerator total = n * Float.denominator total.

End Scoring.

(** ** CSV import of results: [_post_performance_import] *)

Module CsvImport.

Import Schema Py Http.

(** [float(s) if s else 0.0], with [ValueError] caught and replaced by
    [0.0]. *)
Definition float_or_zero (s : string) : spec_float :=
  if nonempty s then
    match Float.of_string s with
    | Some x => x
    | None => Float.zero
    end
  else Float.zero.

(** A float bound to a statement parameter: SQLite stores NaN as NULL. *)
Definition bind_real (x : spec_float) : option spec_float :=
  if Float.is_nan x then None else Some x.

(** [with conn:]: the writes of the block are committed when it ends
    normally and rolled back when it raises; the exception goes on. *)
Definition with_conn (d : db) (block : result db) : db * option exn :=
  match block with
  | Ok d' => (d', None)
  | Raise e => (d, Some e)
  end.

(** The two [DELETE] statements of the first block. *)
Definition delete_results (d : db) (perf_id : Z) : result db :=
  if in_int64 perf_id then
    Ok (set_results d
          (List.filter (fun r => negb (pr_performance_id r =? perf_id))
             (performance_results d))
          (List.filter (fun r => negb (ptr_performance_id r =? perf_id))
             (performance_task_results d)))
  else Raise OverflowError.

(** [INSERT INTO performance_results(performance_id, student_id,
    op_points, zp_points)]: the other columns take their defaults. *)
Definition insert_result (d : db) (perf_id student_id : Z)
    (op zp : spec_float) : result db :=
  if in_int64 student_id then
    Ok (set_results d
          (performance_results d ++
           [{| pr_id := next_rowid pr_id (performance_results d);
               pr_performance_id := perf_id;
               pr_student_id := student_id;
               pr_op_points := bind_real op;
               pr_zp_points := bind_real zp;
               pr_grade_override := None;
               pr_comment := None;
               pr_op_is_edited := Some 0;
               pr_zp_is_edited := Some 0 |}])
          (performance_task_results d))
  else Raise OverflowError.

(** [INSERT INTO performance_task_results(performance_id, student_id,
    task_number, points)]: [points] is [NOT NULL], a NaN bound as NULL
    fails the constraint. *)
Definition insert_task_result (d : db) (perf_id student_id task_number : Z)
    (pts : spec_float) : result db :=
  match bind_real pts with
  | None => Raise IntegrityError
  | Some points =>
      Ok (set_results d (performance_results d)
            (performance_task_results d ++
             [{| ptr_id := next_rowid ptr_id (performance_task_results d);
                 ptr_performance_id := perf_id;
                 ptr_student_id := student_id;
                 ptr_task_number := task_number;
                 ptr_points := points;
                 ptr_is_edited := Some 0 |}]))
  end.

(** [for i, val in enumerate(values, start=1)] *)
Fixpoint insert_values (d : db) (perf_id student_id : Z) (i : Z)
    (values : list string) : result db :=
  match values with
  | [] => Ok d
  | val :: rest =>
      let* d' := insert_task_result d perf_id student_id i (float_or_zero val) in
      insert_values d' perf_id student_id (i + 1) rest
  end.

(** The block of one CSV line. *)
Definition insert_line (d : db) (perf_id student_id : Z) (op zp : spec_float)
    (values : list string) : result db :=
  let* d' := insert_result d perf_id student_id op zp in
  insert_values d' perf_id student_id 1 values.

(** [[p.strip() for p in line.split(';')]] *)
Definition fields (line : string) : list string := map strip (split ";" line).

(** [parts[3:3+task_count]] *)
Definition task_fields (task_count : nat) (parts : list string) : list string :=
  firstn task_count (skipn 3 parts).

(** The field at [index] when [len(parts) > index], read by
    [float_or_zero]; [0.0] when the line is shorter. *)
Definition extra_points (parts : list string) (index : nat) : spec_float :=
  if (index + 1 <=? length parts)%nat then float_or_zero (nth index parts "")
  else Float.zero.

(** [for line in lines[1:]], with [imported_rows]. *)
Fixpoint import_lines (d : db) (perf_id : Z) (task_count : nat)
    (lines : list string) (imported_rows : Z) : db * Z * option exn :=
  match lines with
  | [] => (d, imported_rows, None)
  | line :: rest =>
      let parts := fields line in
      if (length parts <? 3)%nat then
        import_lines d perf_id task_count rest imported_rows
      else
        match Py.int (nth 0 parts "") with
        | None => import_lines d perf_id task_count rest imported_rows
        | Some student_id =>
            let values := task_fields task_count parts in
            let op := extra_points parts (3 + task_count) in
            let zp := extra_points parts (3 + task_count + 1) in
            match with_conn d (insert_line d perf_id student_id op zp values) with
            | (d', None) =>
                import_lines d' perf_id task_count rest (imported_rows + 1)
            | (d', Some e) => (d', imported_rows, Some e)
            end
        end
  end.

(** [[l.strip() for l in csv_data.strip().splitlines() if l.strip()]] *)
Definition csv_lines (csv_data : string) : list string :=
  map strip
    (List.filter (fun l => nonempty (strip l)) (splitlines (strip csv_data))).

(** The number of header fields that start with "Aufgabe". *)
Definition header_task_count (header_line : string) : nat :=
  length (List.filter (startswith "Aufgabe") (fields header_line)).

(** [a or b] for a text that may be NULL. *)
Definition or_text (a : option string) (b : string) : string :=
  match a with
  | Some s => if nonempty s then s else b
  | None => b
  end.

(** The comment of the log entry, from the assessment joined with its
    class, course and subject. *)
Definition import_comment (d : db) (perf_id : Z) : string :=
  match head (List.filter (fun p => pq_id p =? perf_id)
                (performance_queries d)) with
  | Some meta =>
      let class_name :=
        match pq_class_id meta with
        | Some id => option_map c_name
                       (head (List.filter (fun c => c_id c =? id) (classes d)))
        | None => None
        end in
      let course_name :=
        match pq_course_id meta with
        | Some id => option_map co_name
                       (head (List.filter (fun c => co_id c =? id) (courses d)))
        | None => None
        end in
      let subject :=
        match pq_subject_id meta with
        | Some id => head (List.filter (fun s => s_id s =? id) (subjects d))
        | None => None
        end in
      let group := or_text class_name (or_text course_name "") in
      let subj := or_text (match subject with
                           | Some s => s_short s
                           | None => None
                           end)
                    (or_text (option_map s_name subject) "") in
      strip (String.append "import; "
               (String.append (pq_type meta)
                  (String.append " " (String.append group
                     (String.append " " subj)))))
  | None => strip "import;   "
  end.

Definition bad_request (d : db) (body : string) : outcome :=
  {| db_after := d; sent := [Html 400 body]; raised := None |}.

(** [_post_performance_import].  [now] is the clock's text for the log
    entry. *)
Definition _post_performance_import (d : db) (now : string)
    (performance_id csv_data : option string) : outcome :=
  let perf_id_raw := or_text performance_id "0" in
  let csv_data := or_text csv_data "" in
  match Py.int perf_id_raw with
  | None => bad_request d "<h1>400</h1><p>Ungültige Abfrage-ID.</p>"
  | Some perf_id =>
      if negb (nonempty (strip csv_data)) then
        bad_request d "<h1>400</h1><p>Keine CSV-Daten übermittelt.</p>"
      else
        match csv_lines csv_data with
        | [] =>
            bad_request d
              "<h1>400</h1><p>CSV-Daten konnten nicht gelesen werden.</p>"
        | header_line :: body =>
            let task_count := header_task_count header_line in
            match with_conn d (delete_results d perf_id) with
            | (d1, Some e) =>
                {| db_after := d1; sent := []; raised := Some e |}
            | (d1, None) =>
                match import_lines d1 perf_id task_count body 0 with
                | (d2, _, Some e) =>
                    {| db_after := d2; sent := []; raised := Some e |}
                | (d2, imported_rows, None) =>
                    {| db_after :=
                         _log_change d2 now "performance_results"
                           (Some perf_id) "import" ""
                           (str_of_int imported_rows) "import"
                           (Some (import_comment d2 perf_id));
                       sent := [SeeOther (String.append "/performance?id="
                                            (str_of_int perf_id))];
                       raised := None |}
                end
            end
        end
  end.

End CsvImport.

(** ** The CSV as a list of students

    What the import loop reads from the lines, without the data base: the
    lines that name a student, with their points. *)

Module CsvStudents.

Import Schema Py CsvImport.

Record student := {
  st_id : Z;
  st_op : spec_float;
  st_zp : spec_float;
  st_points : list spec_float
}.

(** The student of a line; [None] for a line the loop skips. *)
Definition student_of_line (task_count : nat) (line : string)
  : option student :=
  let parts := fields line in
  if (length parts <? 3)%nat then None
  else
    match Py.int (nth 0 parts "") with
    | None => None
    | Some student_id =>
        Some {| st_id := student_id;
                st_op := extra_points parts (3 + task_count);
                st_zp := extra_points parts (3 + task_count + 1);
                st_points := map float_or_zero (task_fields task_count parts) |}
    end.

Fixpoint students (task_count : nat) (lines : list string) : list student :=
  match lines with
  | [] => []
  | line :: rest =>
      match student_of_line task_count line with
      | Some st => st :: students task_count rest
      | None => students task_count rest
      end
  end.

(** A student whose rows can be inserted: the id fits SQLite's integers and
    no task has NaN points. *)
Definition insertable (st : student) : bool :=
  in_int64 (st_id st) && forallb (fun x => negb (Float.is_nan x)) (st_points st).

(** The exception the block of a student raises. *)
Definition failure_of (st : student) : exn :=
  if in_int64 (st_id st) then IntegrityError else OverflowError.

(** The students before the first one that fails. *)
Fixpoint committed (studs : list student) : list student :=
  match studs with
  | [] => []
  | st :: rest => if insertable st then st :: committed rest else []
  end.

Fixpoint first_failure (studs : list student) : option exn :=
  match studs with
  | [] => None
  | st :: rest =>
      if insertable st then first_failure rest else Some (failure_of st)
  end.

(** The task results of a student: student id, task number from [i] on,
    points. *)
Fixpoint cells_from (student_id : Z) (i : Z) (points : list spec_float)
  : list (Z * Z * spec_float) :=
  match points with
  | [] => []
  | x :: rest => (student_id, i, x) :: cells_from student_id (i + 1) rest
  end.

Definition task_cells (studs : list student) : list (Z * Z * spec_float) :=
  flat_map (fun st => cells_from (st_id st) 1 (st_points st)) studs.

(** [r] is the result row of student [st] in assessment [perf_id], whatever
    its rowid. *)
Definition is_result_row (perf_id : Z) (st : student)
    (r : performance_result_row) : Prop :=
  pr_performance_id r = perf_id /\ pr_student_id r = st_id st /\
  pr_op_points r = bind_real (st_op st) /\
  pr_zp_points r = bind_real (st_zp st) /\
  pr_grade_override r = None /\ pr_comment r = None /\
  pr_op_is_edited r = Some 0 /\ pr_zp_is_edited r = Some 0.

(** [r] is the task result row of a cell, whatever its rowid. *)
Definition is_task_row (perf_id : Z) (cell : Z * Z * spec_float)
    (r : performance_task_result_row) : Prop :=
  let '(student_id, task_number, points) := cell in
  ptr_performance_id r = perf_id /\ ptr_student_id r = student_id /\
  ptr_task_number r = task_number /\ ptr_points r = points /\
  ptr_is_edited r = Some 0.

End CsvStudents.

(** ** A small timetable

    Rows in the shape [populate_default_timetable] and
    [_post_lesson_update_status] write them. *)

Module Sample.

Import Schema Resolution.

Definition template (id : Z) (day : string) (period : Z) (is_double : Z)
    (class subject : Z) (room : string) : timetable_row :=
  {| t_id := id; t_class_id := Some class; t_period := period;
     t_is_double := is_double; t_slot := period; t_day := day;
     t_time_range := None; t_date := None; t_status := None;
     t_subject_id := Some subject; t_room := Some room;
     t_course_id := None |}.

Definition override (id : Z) (day date : string) (period : Z) (is_double : Z)
    (class subject : Z) (room status : string) : timetable_row :=
  {| t_id := id; t_class_id := Some class; t_period := period;
     t_is_double := is_double; t_slot := period; t_day := day;
     t_time_range := None; t_date := Some date; t_status := Some status;
     t_subject_id := Some subject; t_room := Some room;
     t_course_id := None |}.

Definition week_of_2024_09_02 : week :=
  {| monday := "2024-09-02"; tuesday := "2024-09-03";
     wednesday := "2024-09-04"; thursday := "2024-09-05";
     friday := "2024-09-06" |}.

(** Monday: a double period at 1, a single lesson at 3, a double period
    at 5.  Tuesday: a double period at 5 and a lesson at 6. *)
Definition mon1 := template 1 "Montag" 1 1 1 1 "212".
Definition mon3 := template 2 "Montag" 3 0 2 2 "136".
Definition mon5 := template 3 "Montag" 5 1 3 3 "311".
Definition tue5 := template 4 "Dienstag" 5 1 4 4 "con4".
Definition tue6 := template 5 "Dienstag" 6 0 5 2 "136".

(** Overrides: period 1 cancelled on Monday 2024-08-26 and on Monday
    2024-09-02, period 3 cancelled on Monday 2024-08-19. *)
Definition mon1_aug26 := override 6 "Montag" "2024-08-26" 1 1 1 1 "212" "cancelled".
Definition mon1_sep02 := override 7 "Montag" "2024-09-02" 1 1 1 1 "212" "cancelled".
Definition mon3_aug19 := override 8 "Montag" "2024-08-19" 3 0 2 2 "136" "cancelled".

Definition templates : list timetable_row := [mon1; mon3; mon5; tue5; tue6].

Definition with_overrides : list timetable_row :=
  templates ++ [mon1_aug26; mon1_sep02; mon3_aug19].

(** An assessment with two tasks of ten points, one student (id 7) with
    8 and 7 points on the tasks, 2 extra points in [op_points] and none in
    [zp_points], graded on a scale with the given definition. *)
Definition assessment (override : option spec_float) (definition : string)
  : db :=
  {| classes := [{| c_id := 1; c_name := "5F"; c_teacher_id := None |}];
     courses := [];
     subjects := [{| s_id := 1; s_name := "Physik"; s_short := Some "PH" |}];
     timetable := [];
     grade_scales :=
       [{| gs_id := 1; gs_name := "Test"; gs_definition := definition |}];
     performance_queries :=
       [{| pq_id := 1; pq_type := "KA"; pq_description := None;
           pq_subject_id := Some 1; pq_class_id := Some 1;
           pq_course_id := None; pq_date := "2024-09-02";
           pq_grade_scale_id := Some 1;
           pq_max_op_points := Some Float.zero |}];
     performance_tasks :=
       [{| pt_id := 1; pt_performance_id := 1; pt_number := 1;
           pt_max_points := Float.of_Z 10 |};
        {| pt_id := 2; pt_performance_id := 1; pt_number := 2;
           pt_max_points := Float.of_Z 10 |}];
     performance_results :=
       [{| pr_id := 1; pr_performance_id := 1; pr_student_id := 7;
           pr_op_points := Some (Float.of_Z 2);
           pr_zp_points := Some Float.zero;
           pr_grade_override := override; pr_comment := None;
           pr_op_is_edited := Some 0; pr_zp_is_edited := Some 0 |}];
     performance_task_results :=
       [{| ptr_id := 1; ptr_performance_id := 1; ptr_student_id := 7;
           ptr_task_number := 1; ptr_points := Float.of_Z 8;
           ptr_is_edited := Some 0 |};
        {| ptr_id := 2; ptr_performance_id := 1; ptr_student_id := 7;
           ptr_task_number := 2; ptr_points := Float.of_Z 7;
           ptr_is_edited := Some 0 |}];
     change_log := [] |}.

(** Two CSV texts for that assessment.  In the second one the first task
    of student 8 reads "nan". *)
Definition csv_header : string :=
  "StudentID;Nachname;Vorname;Aufgabe1;Aufgabe2;OP;ZP".

Definition csv_good : string :=
  String.append csv_header
    (String.append Py.newline
       (String.append "7;Smith;John;9;6;1;0"
          (String.append Py.newline "8;Doe;Jane;5;3;0;0"))).

Definition csv_with_nan : string :=
  String.append csv_header
    (String.append Py.newline
       (String.append "7;Smith;John;9;6;1;0"
          (String.append Py.newline
             (String.append "8;Doe;Jane;nan;3;0;0"
                (String.append Py.newline "9;Jones;Peter;4;4;0;0"))))).

(** A data base that holds a timetable and nothing else. *)
Definition school (tt : list timetable_row) : db :=
  {| classes := []; courses := []; subjects := [];
     timetable := tt; grade_scales := []; performance_queries := [];
     performance_tasks := []; performance_results := [];
     performance_task_results := []; change_log := [] |}.

End Sample.

(** ** The conflict check of the timetable administration *)

Module Conflict.

Import Schema Py.

Section Check.

(** The parameters are the form's texts.  Compared with an INTEGER column a
    text is first converted by the column's numeric affinity; a text that
    is no integer equals no stored integer.  The conversion is a parameter,
    as in [Lifecycle]. *)
Variable integer_of_text : string -> option Z.

(** [col = ?] for a nullable INTEGER column and a text parameter. *)
Definition eq_param (col : option Z) (param : string) : bool :=
  match integer_of_text param with
  | Some v => eq_int col v
  | None => false
  end.

(** The clause added to [conflict_clauses] for a parameter that is given
    and not empty. *)
Definition clause (col : option Z) (param : option string) : bool :=
  match param with
  | Some s => if nonempty s then eq_param col s else false
  | None => false
  end.

(** [AND id != ?], added when [exclude_id] is given and not empty: a text
    that is no integer differs from every rowid. *)
Definition excluded (id : Z) (exclude_id : option string) : bool :=
  match exclude_id with
  | Some s =>
      if nonempty s then
        match integer_of_text s with
        | Some z => negb (id =? z)
        | None => true
        end
      else true
  | None => true
  end.

(** The [WHERE] clause of [base_query]. *)
Definition conflicts (day period class_id course_id exclude_id : option string)
    (t : timetable_row) : bool :=
  match day with Some s => String.eqb (t_day t) s | None => false end
  && match period with
     | Some s => eq_param (Some (t_period t)) s
     | None => false
     end
  && (clause (t_class_id t) class_id || clause (t_course_id t) course_id)
  && excluded (t_id t) exclude_id.

(** [_check_timetable_conflict]: [True] when a row is fetched. *)
Definition _check_timetable_conflict (tt : list timetable_row)
    (day period class_id course_id exclude_id : option string) : bool :=
  if negb (present class_id) && negb (present course_id) then false
  else
    match head (List.filter
                  (conflicts day period class_id course_id exclude_id) tt) with
    | Some _ => true
    | None => false
    end.

End Check.

End Conflict.

(** ** Assessments: grade scale, override and deletion *)

Module Assessments.

Import Schema Py Http Scoring CsvImport.

Definition set_queries (d : db) (q : list performance_query_row) : db :=
  {| classes := classes d; courses := courses d; subjects := subjects d;
     timetable := timetable d;
     grade_scales := grade_scales d;
     performance_queries := q;
     performance_tasks := performance_tasks d;
     performance_results := performance_results d;
     performance_task_results := performance_task_results d;
     change_log := change_log d |}.

Definition set_scales (d : db) (s : list grade_scale_row) : db :=
  {| classes := classes d; courses := courses d; subjects := subjects d;
     timetable := timetable d;
     grade_scales := s;
     performance_queries := performance_queries d;
     performance_tasks := performance_tasks d;
     performance_results := performance_results d;
     performance_task_results := performance_task_results d;
     change_log := change_log d |}.

(** An exception that leaves the handler before anything is sent. *)
Definition failed (d : db) (e : exn) : outcome :=
  {| db_after := d; sent := []; raised := Some e |}.

(** [str(v)] for an integer column that may be NULL. *)
Definition str_of_option_int (v : option Z) : string :=
  match v with
  | Some n => str_of_int n
  | None => "None"
  end.

(** [scale_id if scale_id>0 else None] *)
Definition positive_or_null (n : Z) : option Z :=
  if 0 <? n then Some n else None.

Definition set_grade_scale_id (p : performance_query_row) (v : option Z)
  : performance_query_row :=
  {| pq_id := pq_id p; pq_type := pq_type p;
     pq_description := pq_description p; pq_subject_id := pq_subject_id p;
     pq_class_id := pq_class_id p; pq_course_id := pq_course_id p;
     pq_date := pq_date p; pq_grade_scale_id := v;
     pq_max_op_points := pq_max_op_points p |}.

(** [_post_assign_grade_scale].  The first query binds [perf_id]; the
    [UPDATE] binds the scale id when it is positive. *)
Definition _post_assign_grade_scale (d : db) (now : string)
    (performance_id scale_id : option string) : outcome :=
  match Py.int (or_text performance_id "0"), Py.int (or_text scale_id "0") with
  | Some perf_id, Some scale_id =>
      if negb (in_int64 perf_id) then failed d OverflowError
      else
        let old_val :=
          match select_performance d perf_id with
          | Some old_row => pq_grade_scale_id old_row
          | None => None
          end in
        let new_val := positive_or_null scale_id in
        if match new_val with Some s => negb (in_int64 s) | None => false end
        then failed d OverflowError
        else
          let d1 :=
            set_queries d
              (map (fun p => if pq_id p =? perf_id
                             then set_grade_scale_id p new_val else p)
                 (performance_queries d)) in
          {| db_after :=
               _log_change d1 now "performance_queries" (Some perf_id)
                 "grade_scale_id" (str_of_option_int old_val)
                 (str_of_option_int new_val) "manual" None;
             sent := [SeeOther (String.append "/performance?id="
                                  (str_of_int perf_id))];
             raised := None |}
  | _, _ => bad_request d "<h1>400</h1><p>Ungültige IDs.</p>"
  end.

(** [_post_grade_scale_create] *)
Definition _post_grade_scale_create (d : db) (now : string)
    (name definition : option string) : outcome :=
  let name := strip (or_text name "") in
  let definition := strip (or_text definition "") in
  if negb (nonempty name) || negb (nonempty definition) then
    bad_request d "<h1>400</h1><p>Name und Definition erforderlich.</p>"
  else
    let d1 :=
      set_scales d
        (grade_scales d ++
         [{| gs_id := next_rowid gs_id (grade_scales d);
             gs_name := name; gs_definition := definition |}]) in
    {| db_after := _log_change d1 now "grade_scales" None "create" "" name
                     "manual" None;
       sent := [SeeOther "/grade_scales"];
       raised := None |}.

(** [_post_performance_delete]: the assessment's row is deleted.  The
    connection of [get_db_connection] does not switch foreign keys on, so
    the [ON DELETE CASCADE] clauses of the schema do not run. *)
Definition _post_performance_delete (d : db) (now : string)
    (id : option string) : outcome :=
  match Py.int (or_text id "0") with
  | None => bad_request d "<h1>400</h1><p>Ung&uuml;ltige ID.</p>"
  | Some pid =>
      if pid <=? 0 then bad_request d "<h1>400</h1><p>Ung&uuml;ltige ID.</p>"
      else if negb (in_int64 pid) then failed d OverflowError
      else
        let d1 :=
          set_queries d
            (List.filter (fun p => negb (pq_id p =? pid))
               (performance_queries d)) in
        {| db_after := _log_change d1 now "performance_queries" (Some pid)
                         "delete" "" "" "manual" (Some "LA gelöscht");
           sent := [SeeOther "/leistungsabfragen"];
           raised := None |}
  end.

Section Override.

(** [str(x)] for a float, the text of the log entry.  The digits Python
    prints are not part of the model: the conversion is a parameter. *)
Variable str_of_float : spec_float -> string.

Definition str_of_option_float (v : option spec_float) : string :=
  match v with
  | Some x => str_of_float x
  | None => "None"
  end.

(** [a != b] for two values that are floats or [None]. *)
Definition differs (a b : option spec_float) : bool :=
  match a, b with
  | None, None => false
  | Some x, Some y => negb (Float.eqb x y)
  | _, _ => true
  end.

Definition set_override (r : performance_result_row)
    (v : option spec_float) (comment : option string)
  : performance_result_row :=
  {| pr_id := pr_id r; pr_performance_id := pr_performance_id r;
     pr_student_id := pr_student_id r; pr_op_points := pr_op_points r;
     pr_zp_points := pr_zp_points r; pr_grade_override := v;
     pr_comment := comment; pr_op_is_edited := pr_op_is_edited r;
     pr_zp_is_edited := pr_zp_is_edited r |}.

(** [comment or None] *)
Definition text_or_null (s : string) : option string :=
  if nonempty s then Some s else None.

(** [_post_update_grade_override].  [override_val] is the float of the
    field, [None] for an empty field or a text that is no number; it is
    bound as NULL when it is NaN. *)
Definition _post_update_grade_override (d : db) (now : string)
    (performance_id student_id override comment : option string) : outcome :=
  match Py.int (or_text performance_id "0"), Py.int (or_text student_id "0") with
  | Some perf_id, Some student_id =>
      let override_raw := match override with Some s => s | None => "" end in
      let comment := strip (or_text comment "") in
      let override_val :=
        if nonempty override_raw then Float.of_string override_raw else None in
      if negb (in_int64 perf_id) || negb (in_int64 student_id)
      then failed d OverflowError
      else
        let old_row := select_result d perf_id student_id in
        let stored := match override_val with
                      | Some x => bind_real x
                      | None => None
                      end in
        let d1 :=
          set_results d
            (map (fun r => if (pr_performance_id r =? perf_id)
                              && (pr_student_id r =? student_id)
                           then set_override r stored (text_or_null comment)
                           else r)
               (performance_results d))
            (performance_task_results d) in
        let old_override := match old_row with
                            | Some r => pr_grade_override r
                            | None => None
                            end in
        let old_comment := match old_row with
                           | Some r => pr_comment r
                           | None => None
                           end in
        let d2 :=
          if differs override_val old_override
             || negb (String.eqb comment (or_text old_comment ""))
          then _log_change d1 now "performance_results" None "grade_override"
                 (str_of_option_float old_override)
                 (str_of_option_float override_val) "manual" (Some comment)
          else d1 in
        {| db_after := d2;
           sent := [SeeOther (String.append "/performance?id="
                                (str_of_int perf_id))];
           raised := None |}
  | _, _ => bad_request d "<h1>400</h1><p>Ungültige IDs.</p>"
  end.

End Override.

(** A score with another grade. *)
Definition with_grade (g : grade_value) (s : score) : score :=
  {| total_points := total_points s;
     percentage := percentage s;
     grade := g |}.

End Assessments.

(** ** The default grade scale of [ensure_schema_migrations] *)

Module Defaults.

Import Schema Py Scoring.

(** [sep.join(l)] *)
Fixpoint join (sep : string) (l : list string) : string :=
  match l with
  | [] => ""
  | [x] => x
  | x :: rest => String.append x (String.append sep (join sep rest))
  end.

(** [default_def]: eleven bands, from the best grade down. *)
Definition default_def : string :=
  join newline
    [ "1.0;93.0;100.1";
      "1.5;86.0;93.0";
      "2.0;79.0;86.0";
      "2.5;72.0;79.0";
      "3.0;65.0;72.0";
      "3.5;58.0;65.0";
      "4.0;51.0;58.0";
      "4.5;44.0;51.0";
      "5.0;31.5;44.0";
      "5.5;19.0;31.5";
      "6.0;0.0;19.0" ].

(** The default scale is inserted when [grade_scales] is empty. *)
Definition ensure_default_scale (d : db) : db :=
  match grade_scales d with
  | [] =>
      Assessments.set_scales d
        [{| gs_id := next_rowid gs_id (grade_scales d);
            gs_name := "Default (86/72/58/44/20, 0.5er)";
            gs_definition := default_def |}]
  | _ :: _ => d
  end.

(** A scale whose bands are listed from the top down without gaps: each
    band's lower bound is below its upper bound and is the upper bound of
    the band that follows. *)
Fixpoint descending (bands : list band) : bool :=
  match bands with
  | [] => true
  | (_, lo, hi) :: rest =>
      Float.ltb lo hi
      && match rest with
         | [] => true
         | (_, _, hi') :: _ => Float.eqb hi' lo
         end
      && descending rest
  end.

(** The upper bound of the first band and the lower bound of the last. *)
Definition ceiling (bands : list band) : option spec_float :=
  match bands with
  | [] => None
  | (_, _, hi) :: _ => Some hi
  end.

Fixpoint floor (bands : list band) : option spec_float :=
  match bands with
  | [] => None
  | [(_, lo, _)] => Some lo
  | _ :: rest => floor rest
  end.

End Defaults.

(** ** The order of the floats, by keys

    [SFcompare] orders the floats that are not NaN as it orders these
    triples of integers, lexicographically. *)

Module FloatOrder.

Definition key (x : spec_float) : Z * Z * Z :=
  match x with
  | S754_zero _ => (0, 0, 0)
  | S754_infinity s => (if s then -2 else 2, 0, 0)
  | S754_nan => (0, 0, 0)
  | S754_finite s m e => if s then (-1, - e, Z.neg m) else (1, e, Z.pos m)
  end.

Definition lt3 (a b : Z * Z * Z) : Prop :=
  let '(a1, a2, a3) := a in
  let '(b1, b2, b3) := b in
  a1 < b1 \/ (a1 = b1 /\ (a2 < b2 \/ (a2 = b2 /\ a3 < b3))).

End FloatOrder.

(** ** [html_escape] *)

Module Markup.

Import Py.

(** [s.replace(old, new)] for a one-character [old]. *)
Fixpoint replace (old : ascii) (new : string) (s : string) : string :=
  match s with
  | EmptyString => EmptyString
  | String c rest =>
      if Ascii.eqb c old then String.append new (replace old new rest)
      else String c (replace old new rest)
  end.

Definition amp : ascii := ascii_of_N 38.
Definition lt : ascii := ascii_of_N 60.
Definition gt : ascii := ascii_of_N 62.
Definition quot : ascii := ascii_of_N 34.
Definition apos : ascii := ascii_of_N 39.

(** [html.escape(s, quote=True)]: five replacements, the ampersand first. *)
Definition escape (s : string) : string :=
  replace apos "&#x27;"
    (replace quot "&quot;"
       (replace gt "&gt;"
          (replace lt "&lt;"
             (replace amp "&amp;" s)))).

(** [html_escape]; [None] gives the empty text. *)
Definition html_escape (text : option string) : string :=
  match text with
  | None => ""
  | Some t => replace apos "&#39;" (escape t)
  end.

(** What takes the place of a character. *)
Definition entity (c : ascii) : string :=
  if Ascii.eqb c amp then "&amp;"
  else if Ascii.eqb c lt then "&lt;"
  else if Ascii.eqb c gt then "&gt;"
  else if Ascii.eqb c quot then "&quot;"
  else if Ascii.eqb c apos then "&#x27;"
  else String c EmptyString.

Fixpoint entities (s : string) : string :=
  match s with
  | EmptyString => EmptyString
  | String c rest => String.append (entity c) (entities rest)
  end.

(** The characters that open or close markup or an attribute value. *)
Definition special (c : ascii) : bool :=
  Ascii.eqb c lt || Ascii.eqb c gt || Ascii.eqb c quot || Ascii.eqb c apos.

Fixpoint all_chars (p : ascii -> bool) (s : string) : bool :=
  match s with
  | EmptyString => true
  | String c rest => p c && all_chars p rest
  end.

End Markup.

(** ** Names of classes and courses *)

Module Groups.

Import Schema Py.

(** ASCII text: every code is below 128.  The functions of this module
    follow [str.upper], [str.isalpha] and the pattern classes of [re] on
    ASCII text. *)
Definition is_ascii (s : string) : bool :=
  Markup.all_chars (fun c => (code c <? 128)%N) s.

Definition is_digit (c : ascii) : bool :=
  ((48 <=? code c) && (code c <=? 57))%N.

Definition is_lower (c : ascii) : bool :=
  ((97 <=? code c) && (code c <=? 122))%N.

Definition is_upper (c : ascii) : bool :=
  ((65 <=? code c) && (code c <=? 90))%N.

(** [[A-Za-z]], and [ch.isalpha()]. *)
Definition is_letter (c : ascii) : bool := is_upper c || is_lower c.

(** [ch.upper()] *)
Definition upper (c : ascii) : ascii :=
  if is_lower c then ascii_of_N (code c - 32) else c.

Fixpoint map_chars (f : ascii -> ascii) (s : string) : string :=
  match s with
  | EmptyString => EmptyString
  | String c rest => String (f c) (map_chars f rest)
  end.

(** [s.upper()] *)
Definition uppercase (s : string) : string := map_chars upper s.

(** The longest prefix of characters that satisfy [p], and the rest. *)
Fixpoint span (p : ascii -> bool) (s : string) : string * string :=
  match s with
  | EmptyString => (EmptyString, EmptyString)
  | String c rest =>
      if p c then let '(a, b) := span p rest in (String c a, b)
      else (EmptyString, s)
  end.

(** [re.match(r"^(\d+)([A-Za-z]+)$", s)] for a text without a final line
    break: one digit or more, then one letter or more, to the end.  The
    two groups. *)
Definition match_grade_suffix (s : string) : option (string * string) :=
  let '(grade, suffix) := span is_digit s in
  if nonempty grade && nonempty suffix && Markup.all_chars is_letter suffix
  then Some (grade, suffix) else None.

(** [_normalize_group_name] *)
Definition _normalize_group_name (name : string) : string :=
  let name := strip name in
  if negb (nonempty name) then name
  else
    match match_grade_suffix (strip name) with
    | Some (grade, suffix) => String.append grade (uppercase suffix)
    | None => map_chars (fun ch => if is_letter ch then upper ch else ch) name
    end.

Definition set_classes (d : db) (c : list class_row) : db :=
  {| classes := c; courses := courses d; subjects := subjects d;
     timetable := timetable d;
     grade_scales := grade_scales d;
     performance_queries := performance_queries d;
     performance_tasks := performance_tasks d;
     performance_results := performance_results d;
     performance_task_results := performance_task_results d;
     change_log := change_log d |}.

Definition set_subjects (d : db) (s : list subject_row) : db :=
  {| classes := classes d; courses := courses d; subjects := s;
     timetable := timetable d;
     grade_scales := grade_scales d;
     performance_queries := performance_queries d;
     performance_tasks := performance_tasks d;
     performance_results := performance_results d;
     performance_task_results := performance_task_results d;
     change_log := change_log d |}.

(** [LOWER(name)=LOWER(?)]: SQLite's [LOWER] folds the ASCII letters. *)
Definition lower_eq (a b : string) : bool :=
  String.eqb (Float.lowercase a) (Float.lowercase b).

(** [get_or_create_class]: the id of the class, [None] for a blank name.
    [classes.name] is [UNIQUE]: an insert of a name that is stored raises
    [IntegrityError]. *)
Definition get_or_create_class (d : db) (name : option string)
  : result (db * option Z) :=
  let name := strip (match name with Some s => s | None => "" end) in
  if negb (nonempty name) then Ok (d, None)
  else
    let norm_name := _normalize_group_name name in
    match head (List.filter (fun c => lower_eq (c_name c) norm_name)
                  (classes d)) with
    | Some row => Ok (d, Some (c_id row))
    | None =>
        if existsb (fun c => String.eqb (c_name c) norm_name) (classes d)
        then Raise IntegrityError
        else
          let id := next_rowid c_id (classes d) in
          Ok (set_classes d
                (classes d ++
                 [{| c_id := id; c_name := norm_name; c_teacher_id := None |}]),
              Some id)
    end.

(** [s[:n]] *)
Fixpoint take (n : nat) (s : string) : string :=
  match n, s with
  | S n', String c rest => String c (take n' rest)
  | _, _ => EmptyString
  end.

(** [get_or_create_subject].  [subjects.name] and [subjects.short] are
    [UNIQUE]; a NULL [short] collides with nothing. *)
Definition get_or_create_subject (d : db) (name short : option string)
  : result (db * option Z) :=
  let name := strip (match name with Some s => s | None => "" end) in
  if negb (nonempty name) then Ok (d, None)
  else
    match head (List.filter (fun s => lower_eq (s_name s) name)
                  (subjects d)) with
    | Some row => Ok (d, Some (s_id row))
    | None =>
        let short_norm :=
          match short with
          | Some s =>
              if nonempty s then
                let u := uppercase (strip s) in
                if nonempty u then Some u else None
              else None
          | None => None
          end in
        let short_norm :=
          match short_norm with
          | Some u => u
          | None => take 8 (uppercase (strip name))
          end in
        if existsb (fun s => String.eqb (s_name s) name) (subjects d)
           || existsb (fun s => eq_text (s_short s) short_norm) (subjects d)
        then Raise IntegrityError
        else
          let id := next_rowid s_id (subjects d) in
          Ok (set_subjects d
                (subjects d ++
                 [{| s_id := id; s_name := name; s_short := Some short_norm |}]),
              Some id)
    end.

End Groups.

(** ** Students, and the CSV template of an assessment *)

Module Roster.

Import Schema Py.

(** [students] *)
Record student_row := {
  stu_id : Z;
  stu_first_name : string;
  stu_last_name : string;
  stu_class_id : Z;
  stu_course_id : option Z
}.

(** [ORDER BY last_name, first_name]: texts in byte order, the first name
    deciding between equal last names; a stable insertion sort. *)
Definition name_ltb (a b : student_row) : bool :=
  match String.compare (stu_last_name a) (stu_last_name b) with
  | Lt => true
  | Gt => false
  | Eq => String.ltb (stu_first_name a) (stu_first_name b)
  end.

Fixpoint insert_student (s : student_row) (l : list student_row)
  : list student_row :=
  match l with
  | [] => [s]
  | h :: rest =>
      if name_ltb h s then h :: insert_student s rest
      else s :: l
  end.

Definition order_by_name (l : list student_row) : list student_row :=
  fold_right insert_student [] l.

(** [SELECT id, last_name, first_name FROM students WHERE class_id=?
    ORDER BY last_name, first_name] *)
Definition students_of_class (students : list student_row) (class_id : Z)
  : list student_row :=
  order_by_name (List.filter (fun s => stu_class_id s =? class_id) students).

(** The same for [WHERE course_id=?]. *)
Definition students_of_course (students : list student_row) (course_id : Z)
  : list student_row :=
  order_by_name
    (List.filter (fun s => eq_int (stu_course_id s) course_id) students).

(** Three pupils: two of class 1, stored out of alphabetical order, and
    one of class 2. *)
Definition pupils : list student_row :=
  [{| stu_id := 7; stu_first_name := "John"; stu_last_name := "Smith";
      stu_class_id := 1; stu_course_id := None |};
   {| stu_id := 9; stu_first_name := "Peter"; stu_last_name := "Jones";
      stu_class_id := 2; stu_course_id := None |};
   {| stu_id := 8; stu_first_name := "Jane"; stu_last_name := "Doe";
      stu_class_id := 1; stu_course_id := None |}].

End Roster.

Module Templates.

Import Schema Py Http Scoring CsvImport Assessments Defaults Roster.

(** What a handler of this module sends: a page, or a CSV file as an
    attachment. *)
Inductive reply :=
| Page (status : Z) (body : string)
| CsvFile (filename content : string).

Record answer := {
  db_left : db;
  replies : list reply;
  exception : option exn
}.

(** [range(a, a + n)] *)
Fixpoint range_from (a : Z) (n : nat) : list Z :=
  match n with
  | O => []
  | S n' => a :: range_from (a + 1) n'
  end.

(** The header and the lines of the template: the student's id and name,
    an empty field for each task, for OP and for ZP. *)
Definition template_header (task_count : nat) : list string :=
  ["StudentID"; "Nachname"; "Vorname"]
  ++ map (fun i => String.append "Aufgabe" (str_of_int i))
       (range_from 1 task_count)
  ++ ["OP"; "ZP"].

Definition template_row (task_count : nat) (s : student_row) : list string :=
  [str_of_int (stu_id s); stu_last_name s; stu_first_name s]
  ++ repeat "" task_count ++ [""; ""].

Definition template_csv (task_count : nat) (stu_rows : list student_row)
  : string :=
  join newline
    (join ";" (template_header task_count)
     :: map (fun s => join ";" (template_row task_count s)) stu_rows).

Definition template_filename (pid : Z) : string :=
  String.append "leistungsabfrage_" (String.append (str_of_int pid) ".csv").

(** The students of an assessment: those of its class when the class id is
    given and not zero, else those of its course, else none. *)
Definition group_students (students : list student_row)
    (class_id course_id : option Z) : list student_row :=
  match class_id with
  | Some c =>
      if truthy c then students_of_class students c
      else
        match course_id with
        | Some k => if truthy k then students_of_course students k else []
        | None => []
        end
  | None =>
      match course_id with
      | Some k => if truthy k then students_of_course students k else []
      | None => []
      end
  end.

(** [_handle_performance_download]; [id] is [params.get('id', [None])[0]]. *)
Definition _handle_performance_download (d : db)
    (students : list student_row) (id : option string) : answer :=
  if negb (present id) then
    {| db_left := d; replies := [Page 400 "<h1>400</h1><p>Keine Abfrage-ID.</p>"];
       exception := None |}
  else
    match Py.int (or_text id "") with
    | None =>
        {| db_left := d;
           replies := [Page 400 "<h1>400</h1><p>Ungültige ID.</p>"];
           exception := None |}
    | Some pid =>
        if negb (in_int64 pid) then
          {| db_left := d; replies := []; exception := Some OverflowError |}
        else
          match select_performance d pid with
          | None =>
              {| db_left := d;
                 replies := [Page 404 "<h1>404</h1><p>Abfrage nicht gefunden.</p>"];
                 exception := None |}
          | Some row =>
              let task_count := length (select_tasks d pid) in
              let stu_rows :=
                group_students students (pq_class_id row) (pq_course_id row) in
              {| db_left := d;
                 replies := [CsvFile (template_filename pid)
                               (template_csv task_count stu_rows)];
                 exception := None |}
          end
    end.

(** [int(raw or '0')], 0 when the text is no integer. *)
Definition int_or_zero (raw : option string) : Z :=
  match Py.int (or_text raw "0") with
  | Some n => n
  | None => 0
  end.

(** The maximum points of the form: the numbers between the commas, parts
    that are blank or no number left out. *)
Definition parse_max_points (max_points_str : string) : list spec_float :=
  if nonempty max_points_str then
    flat_map
      (fun part =>
         let part := strip part in
         if nonempty part then
           match Float.of_string part with
           | Some x => [x]
           | None => []
           end
         else [])
      (split "," max_points_str)
  else [].

(** [while len(max_points_list) < task_count: append(0.0)] *)
Definition pad (task_count : nat) (l : list spec_float) : list spec_float :=
  l ++ repeat Float.zero (task_count - length l).

Definition set_tasks (d : db) (q : list performance_query_row)
    (t : list performance_task_row) : db :=
  {| classes := classes d; courses := courses d; subjects := subjects d;
     timetable := timetable d;
     grade_scales := grade_scales d;
     performance_queries := q;
     performance_tasks := t;
     performance_results := performance_results d;
     performance_task_results := performance_task_results d;
     change_log := change_log d |}.

(** [INSERT INTO performance_tasks(performance_id, number, max_points)];
    [max_points] is [NOT NULL]. *)
Definition insert_task_row (d : db) (perf_id number : Z) (maxp : spec_float)
  : result db :=
  if negb (in_int64 number) then Raise OverflowError
  else
    match bind_real maxp with
    | None => Raise IntegrityError
    | Some max_points =>
        Ok (set_tasks d (performance_queries d)
              (performance_tasks d ++
               [{| pt_id := next_rowid pt_id (performance_tasks d);
                   pt_performance_id := perf_id;
                   pt_number := number;
                   pt_max_points := max_points |}]))
    end.

(** [for i in range(1, task_count+1)], from [i] on. *)
Fixpoint insert_tasks (d : db) (perf_id i : Z) (max_points : list spec_float)
  : result db :=
  match max_points with
  | [] => Ok d
  | maxp :: rest =>
      let* d' := insert_task_row d perf_id i maxp in
      insert_tasks d' perf_id (i + 1) rest
  end.

Definition fits (v : option Z) : bool :=
  match v with
  | Some n => in_int64 n
  | None => true
  end.

(** The block of [_post_performance_create]: the assessment and its
    tasks, in one transaction. *)
Definition create_rows (d : db) (type_ description date : string)
    (subject_id class_id course_id : Z) (max_op_points : spec_float)
    (task_count : nat) (max_points_list : list spec_float) : result (db * Z) :=
  let subject := positive_or_null subject_id in
  let class := positive_or_null class_id in
  let course := positive_or_null course_id in
  if negb (fits subject && fits class && fits course)
  then Raise OverflowError
  else
    let perf_id := next_rowid pq_id (performance_queries d) in
    let d1 :=
      set_tasks d
        (performance_queries d ++
         [{| pq_id := perf_id;
             pq_type := if nonempty type_ then type_ else "Andere";
             pq_description := text_or_null description;
             pq_subject_id := subject;
             pq_class_id := class;
             pq_course_id := course;
             pq_date := date;
             pq_grade_scale_id := None;
             pq_max_op_points := bind_real max_op_points |}])
        (performance_tasks d) in
    let* d2 := insert_tasks d1 perf_id 1 (firstn task_count max_points_list) in
    Ok (d2, perf_id).

(** [_post_performance_create] *)
Definition _post_performance_create (d : db) (students : list student_row)
    (now : string)
    (type_ description date subject_id class_id course_id max_op_points
       task_count max_points : option string) : answer :=
  let type_ := strip (or_text type_ "") in
  let description := strip (or_text description "") in
  let date := strip (or_text date "") in
  let subject_id := int_or_zero subject_id in
  let class_id := int_or_zero class_id in
  let course_id := int_or_zero course_id in
  let max_op_points :=
    match Float.of_string (or_text max_op_points "0") with
    | Some x => x
    | None => Float.zero
    end in
  let task_count := Z.to_nat (Z.max 0 (int_or_zero task_count)) in
  let max_points_list :=
    pad task_count (parse_max_points (strip (or_text max_points ""))) in
  match create_rows d type_ description date subject_id class_id course_id
          max_op_points task_count max_points_list with
  | Raise e => {| db_left := d; replies := []; exception := Some e |}
  | Ok (d2, perf_id) =>
      let comment :=
        text_or_null
          (strip (String.append type_ (String.append " " description))) in
      let d3 := _log_change d2 now "performance_queries" (Some perf_id)
                  "create" "" "" "manual" comment in
      let stu_rows :=
        if 0 <? class_id then students_of_class students class_id
        else if 0 <? course_id then students_of_course students course_id
        else [] in
      {| db_left := d3;
         replies := [CsvFile (template_filename perf_id)
                       (template_csv task_count stu_rows)];
         exception := None |}
  end.

(** A name that takes one field of one line: ASCII, without a semicolon
    and without a line boundary. *)
Definition plain_name (s : string) : bool :=
  Markup.all_chars
    (fun c => (code c <? 128)%N && negb (Ascii.eqb c ";")
              && negb (is_linebreak c)) s.

(** What the import reads from the template row of a student: the id, and
    zero for every task, for OP and for ZP. *)
Definition blank (task_count : nat) (s : student_row) : CsvStudents.student :=
  {| CsvStudents.st_id := stu_id s;
     CsvStudents.st_op := Float.zero;
     CsvStudents.st_zp := Float.zero;
     CsvStudents.st_points := repeat Float.zero task_count |}.

End Templates.

(** ** Decimal digits as texts *)

Module Digits.

(** The character of a digit, and the text of a list of digits. *)
Definition digit_char (d : Z) : ascii := ascii_of_N (Z.to_N (48 + d)).

Fixpoint text_of (ds : list Z) : string :=
  match ds with
  | [] => EmptyString
  | d :: rest => String (digit_char d) (text_of rest)
  end.

Definition is_digit_value (d : Z) : Prop := 0 <= d <= 9.

(** A digit is no white space, no sign, no separator and no line break. *)
Definition plain_char (c : ascii) : bool :=
  negb (Py.isspace c) && negb (Py.is_linebreak c) && negb (Ascii.eqb c ";")
  && negb (Py.code c =? 45)%N && negb (Py.code c =? 43)%N
  && (Py.code c <? 128)%N.

(** Texts without a semicolon, without a line boundary, without white
    space. *)
Definition no_semicolon (s : string) : bool :=
  Markup.all_chars (fun c => negb (Ascii.eqb c ";")) s.

Definition no_break (s : string) : bool :=
  Markup.all_chars (fun c => negb (Py.is_linebreak c)) s.

Definition no_space (s : string) : bool :=
  Markup.all_chars (fun c => negb (Py.isspace c)) s.

(** The last character of the text is no white space. *)
Fixpoint ends_well (s : string) : bool :=
  match s with
  | EmptyString => false
  | String c EmptyString => negb (Py.isspace c)
  | String _ rest => ends_well rest
  end.

End Digits.

(** ** Students and attendance

    The handlers that write the tables [students] and
    [attendance_records].  The two tables stand beside the data base of
    the other handlers. *)

Module Pupils.

Import Schema Py Http CsvImport Roster.

(** [attendance_records]; [period] is the column added by
    [ensure_schema_migrations]. *)
Record attendance_row := {
  at_id : Z;
  at_student_id : Z;
  at_date : string;
  at_period : option Z;
  at_status : string;
  at_absent_minutes : Z;
  at_late_minutes : Z
}.

Record store := {
  main : db;
  students : list student_row;
  attendance_records : list attendance_row
}.

Record effect := {
  store_after : store;
  responses : list response;
  error : option exn
}.

Definition set_students (s : store) (l : list student_row) : store :=
  {| main := main s; students := l;
     attendance_records := attendance_records s |}.

Definition set_attendance (s : store) (l : list attendance_row) : store :=
  {| main := main s; students := students s; attendance_records := l |}.

(** [self._log_change(...)] *)
Definition log (s : store) (now table_name : string) (record_id : option Z)
    (field_name old_value new_value action : string)
    (comment : option string) : store :=
  {| main := _log_change (main s) now table_name record_id field_name
               old_value new_value action comment;
     students := students s;
     attendance_records := attendance_records s |}.

(** [return self._send_html(body, status=status)] before any write. *)
Definition page (s : store) (status : Z) (body : string) : effect :=
  {| store_after := s; responses := [Html status body]; error := None |}.

(** An exception that leaves the handler: the block is rolled back. *)
Definition fail (s : store) (e : exn) : effect :=
  {| store_after := s; responses := []; error := Some e |}.

(** [s.isdigit()] *)
Definition isdigit (s : string) : bool :=
  nonempty s && Markup.all_chars Groups.is_digit s.

(** [int(raw) if raw.isdigit() else 0] *)
Definition int_if_digits (raw : string) : result Z :=
  if isdigit raw then
    match Py.int raw with
    | Some n => Ok n
    | None => Raise ValueError
    end
  else Ok 0.

(** [course_id or None], as the column and as the text of the log. *)
Definition nonzero_or_null (n : Z) : option Z :=
  if n =? 0 then None else Some n.

(** [_post_student_create] *)
Definition _post_student_create (s : store) (now : string)
    (first_name last_name class_id course_id : option string) : effect :=
  let first := strip (or_text first_name "") in
  let last := strip (or_text last_name "") in
  match int_if_digits (or_text class_id "0") with
  | Raise e => fail s e
  | Ok class_id =>
      match int_if_digits (or_text course_id "0") with
      | Raise e => fail s e
      | Ok course_id =>
          if negb (nonempty first && nonempty last && (0 <? class_id)) then
            page s 400 "<h1>400</h1><p>Pflichtfelder fehlen.</p>"
          else if negb (in_int64 class_id && in_int64 course_id) then
            fail s OverflowError
          else
            let s1 :=
              set_students s
                (students s ++
                 [{| stu_id := next_rowid stu_id (students s);
                     stu_first_name := first;
                     stu_last_name := last;
                     stu_class_id := class_id;
                     stu_course_id := nonzero_or_null course_id |}]) in
            {| store_after :=
                 log s1 now "students" None "create" ""
                   (String.append first (String.append " " last))
                   "manual" None;
               responses := [SeeOther "/students"];
               error := None |}
      end
  end.

(** [_post_student_delete]: the student's row is deleted, and no row of
    another table. *)
Definition _post_student_delete (s : store) (now : string)
    (id : option string) : effect :=
  match Py.int (or_text id "0") with
  | None => fail s ValueError
  | Some sid =>
      if sid <=? 0 then page s 400 "<h1>400</h1><p>ID fehlt.</p>"
      else if negb (in_int64 sid) then fail s OverflowError
      else
        let s1 :=
          set_students s
            (List.filter (fun r => negb (stu_id r =? sid)) (students s)) in
        {| store_after :=
             log s1 now "students" (Some sid) "delete" "" "" "manual" None;
           responses := [SeeOther "/students"];
           error := None |}
  end.

(** [UPDATE students SET class_id=?, course_id=? WHERE id=?] *)
Definition enroll (student_id class_id : Z) (course_id : option Z)
    (r : student_row) : student_row :=
  if stu_id r =? student_id then
    {| stu_id := stu_id r; stu_first_name := stu_first_name r;
       stu_last_name := stu_last_name r;
       stu_class_id := class_id; stu_course_id := course_id |}
  else r.

Definition class_exists (d : db) (class_id : Z) : bool :=
  existsb (fun c => c_id c =? class_id) (classes d).

Definition course_exists (d : db) (course_id : Z) : bool :=
  existsb (fun c => co_id c =? course_id) (courses d).

(** [_post_enroll_update] *)
Definition _post_enroll_update (s : store) (now : string)
    (student_id class_id course_id next : option string) : effect :=
  match Py.int (or_text student_id "0") with
  | None => fail s ValueError
  | Some student_id =>
      match Py.int (or_text class_id "0") with
      | None => fail s ValueError
      | Some class_id =>
          match int_if_digits (or_text course_id "0") with
          | Raise e => fail s e
          | Ok course_id =>
              let next_url := or_text next "/" in
              let done :=
                let s1 :=
                  set_students s
                    (map (enroll student_id class_id
                            (nonzero_or_null course_id)) (students s)) in
                {| store_after :=
                     log s1 now "students" (Some student_id) "enroll" ""
                       (String.append "class="
                          (String.append (str_of_int class_id)
                             (String.append ";course="
                                (match nonzero_or_null course_id with
                                 | Some k => str_of_int k
                                 | None => "None"
                                 end))))
                       "manual" None;
                   responses := [SeeOther next_url];
                   error := None |} in
              if (student_id <=? 0) || (class_id <=? 0) then
                page s 400 "<h1>400</h1><p>Ung&uuml;ltige Daten.</p>"
              else if negb (in_int64 class_id) then fail s OverflowError
              else if negb (class_exists (main s) class_id) then
                page s 400 "<h1>400</h1><p>Klasse existiert nicht.</p>"
              else if course_id =? 0 then
                if negb (in_int64 student_id) then fail s OverflowError
                else done
              else if negb (in_int64 course_id) then fail s OverflowError
              else if negb (course_exists (main s) course_id) then
                page s 400 "<h1>400</h1><p>Kurs existiert nicht.</p>"
              else if negb (in_int64 student_id) then fail s OverflowError
              else done
          end
      end
  end.

(** Every student's class is a stored class and every student's course,
    if any, a stored course. *)
Definition referenced (s : store) : bool :=
  forallb
    (fun r =>
       class_exists (main s) (stu_class_id r)
       && match stu_course_id r with
          | Some k => course_exists (main s) k
          | None => true
          end)
    (students s).

Section AttendanceForm.

(** [LESSON_MINUTES], read from the environment when the module is
    loaded, and [str(e)], the text of an exception. *)
Variable LESSON_MINUTES : Z.
Variable message : exn -> string.

(** [int(raw or '0')], 0 for a text that is no integer. *)
Definition int_or_0 (raw : option string) : Z :=
  match Py.int (or_text raw "0") with
  | Some n => n
  | None => 0
  end.

(** [int(raw) if raw != '' else 0], 0 for a text that is no integer; a
    missing field reads as the empty text. *)
Definition units (raw : option string) : Z :=
  match raw with
  | Some t =>
      if nonempty t then
        match Py.int t with
        | Some n => n
        | None => 0
        end
      else 0
  | None => 0
  end.

(** The [INSERT] of the form: integers beyond 64 bits cannot be bound,
    and the column [status] takes 'present' and 'absent' only. *)
Definition insert_attendance (s : store) (student_id : Z) (date status : string)
    (absent_minutes late_minutes : Z) : result (store * Z) :=
  if negb (in_int64 student_id && in_int64 absent_minutes
           && in_int64 late_minutes)
  then Raise OverflowError
  else if negb (String.eqb status "present" || String.eqb status "absent")
  then Raise IntegrityError
  else
    let rec_id := next_rowid at_id (attendance_records s) in
    Ok (set_attendance s
          (attendance_records s ++
           [{| at_id := rec_id;
               at_student_id := student_id;
               at_date := date;
               at_period := None;
               at_status := status;
               at_absent_minutes := absent_minutes;
               at_late_minutes := late_minutes |}]),
        rec_id).

(** [_post_attendance_create] *)
Definition _post_attendance_create (s : store) (now : string)
    (student_id date status absent_units absent_minutes late_minutes
       : option string) : effect :=
  match Py.int (or_text student_id "0") with
  | None => page s 400 "<h1>400</h1><p>Ungültige Sch&uuml;ler-ID.</p>"
  | Some student_id =>
      let date := strip (or_text date "") in
      let status := Float.lowercase (strip (or_text status "present")) in
      let abs_units := units absent_units in
      let absent_minutes_input := int_or_0 absent_minutes in
      let absent_minutes :=
        Z.max 0 (Z.max absent_minutes_input (abs_units * LESSON_MINUTES)) in
      let late_minutes := Z.max 0 (int_or_0 late_minutes) in
      let db_status := if String.eqb status "late" then "present" else status in
      let db_abs := if String.eqb status "absent" then absent_minutes else 0 in
      let db_late := if String.eqb status "late" then late_minutes else 0 in
      match insert_attendance s student_id date db_status db_abs db_late with
      | Raise e =>
          page s 500
            (String.append "<h1>500</h1><p>Fehler beim Speichern: "
               (String.append (Markup.html_escape (Some (message e))) "</p>"))
      | Ok (s1, rec_id) =>
          {| store_after :=
               log s1 now "attendance_records" (Some rec_id) "create" ""
                 (String.append status
                    (String.append ";abs="
                       (String.append (str_of_int db_abs)
                          (String.append ";late=" (str_of_int db_late)))))
                 "manual" None;
             responses :=
               [SeeOther
                  (String.append "/student?id="
                     (String.append (str_of_int student_id)
                        "&msg=Anwesenheit+eingetragen"))];
             error := None |}
      end
  end.

End AttendanceForm.

End Pupils.

(** ** The order on texts *)

Module TextFacts.

Import Text.

Lemma ascii_compare_refl (a : ascii) : Ascii.compare a a = Eq.
Proof. unfold Ascii.compare. apply N.compare_refl. Qed.

Lemma ascii_compare_lt_trans (a b c : ascii) :
  Ascii.compare a b = Lt -> Ascii.compare b c = Lt -> Ascii.compare a c = Lt.
Proof.
  unfold Ascii.compare. rewrite !N.compare_lt_iff. apply N.lt_trans.
Qed.

Lemma compare_refl (s : string) : String.compare s s = Eq.
Proof.
  induction s as [|a s IH]; simpl; [reflexivity|].
  now rewrite ascii_compare_refl.
Qed.

Lemma compare_eq (s1 s2 : string) : String.compare s1 s2 = Eq <-> s1 = s2.
Proof.
  split; [apply String.compare_eq_iff|intros ->; apply compare_refl].
Qed.

Lemma compare_lt_trans (s1 s2 s3 : string) :
  String.compare s1 s2 = Lt -> String.compare s2 s3 = Lt ->
  String.compare s1 s3 = Lt.
Proof.
  revert s2 s3. induction s1 as [|a s1 IH]; intros [|b s2] [|c s3]; simpl;
    try congruence.
  destruct (Ascii.compare a b) eqn:Hab; try discriminate.
  - apply Ascii.compare_eq_iff in Hab. subst b.
    destruct (Ascii.compare a c); try congruence. apply IH.
  - intros _. destruct (Ascii.compare b c) eqn:Hbc; try discriminate.
    + apply Ascii.compare_eq_iff in Hbc. subst c. now rewrite Hab.
    + now rewrite (ascii_compare_lt_trans _ _ _ Hab Hbc).
Qed.

Lemma compare_gt_lt (s1 s2 : string) :
  String.compare s1 s2 = Gt <-> String.compare s2 s1 = Lt.
Proof.
  rewrite (String.compare_antisym s2 s1).
  destruct (String.compare s1 s2); simpl; split; congruence.
Qed.

Lemma lt_irrefl (s : string) : ~ lt s s.
Proof. unfold lt. now rewrite compare_refl. Qed.

Lemma lt_trans (a b c : string) : lt a b -> lt b c -> lt a c.
Proof. apply compare_lt_trans. Qed.

Lemma le_refl (s : string) : le s s.
Proof. unfold le. now rewrite compare_refl. Qed.

Lemma le_lteq (a b : string) : le a b <-> lt a b \/ a = b.
Proof.
  unfold le, lt. rewrite <- compare_eq.
  destruct (String.compare a b); split; intros; auto; try congruence.
  destruct H; congruence.
Qed.

Lemma le_trans (a b c : string) : le a b -> le b c -> le a c.
Proof.
  rewrite !le_lteq. intros [Hab| ->] [Hbc| ->]; auto.
  left. eapply lt_trans; eauto.
Qed.

Lemma le_lt_trans (a b c : string) : le a b -> lt b c -> lt a c.
Proof.
  rewrite le_lteq. intros [Hab| ->] Hbc; auto. eapply lt_trans; eauto.
Qed.

Lemma not_lt_le (a b : string) : ~ lt a b <-> le b a.
Proof.
  unfold lt, le. rewrite compare_gt_lt. tauto.
Qed.

Lemma ltb_lt (a b : string) : String.ltb a b = true <-> lt a b.
Proof.
  unfold String.ltb, lt. destruct (String.compare a b); split; congruence.
Qed.

End TextFacts.

(** ** What the queries return *)

Module ResolutionFacts.

Import Schema Resolution.

Lemma head_filter_Some {A : Type} (f : A -> bool) (l : list A) (x : A) :
  head (List.filter f l) = Some x -> In x l /\ f x = true.
Proof.
  induction l as [|a l IH]; simpl; [discriminate|].
  destruct (f a) eqn:Hfa; simpl.
  - intros [= ->]. auto.
  - intros H. destruct (IH H). auto.
Qed.

Lemma head_filter_None {A : Type} (f : A -> bool) (l : list A) :
  head (List.filter f l) = None -> forall x, In x l -> f x = false.
Proof.
  induction l as [|a l IH]; simpl; [tauto|].
  destruct (f a) eqn:Hfa; simpl; [discriminate|].
  intros H x [<-|Hx]; auto.
Qed.

Lemma head_filter_is_Some {A : Type} (f : A -> bool) (l : list A) (x : A) :
  In x l -> f x = true -> exists y, head (List.filter f l) = Some y.
Proof.
  intros Hin Hf. destruct (head (List.filter f l)) as [y|] eqn:E; eauto.
  rewrite (head_filter_None f l E x Hin) in Hf. discriminate.
Qed.

Lemma exact_filter (D : string) (P : Z) (r : timetable_row) :
  eq_text (t_date r) D && (t_period r =? P)%Z = true <->
  t_date r = Some D /\ t_period r = P.
Proof.
  rewrite andb_true_iff, Z.eqb_eq. unfold eq_text.
  destruct (t_date r) as [d|]; [rewrite String.eqb_eq|]; split;
    intros [H1 H2]; split; congruence.
Qed.

Lemma past_filter (D W : string) (P : Z) (r : timetable_row) :
  negb (is_null (t_date r)) && lt_text (t_date r) D
    && String.eqb (t_day r) W && (t_period r =? P)%Z = true <->
  (exists d, t_date r = Some d /\ Text.lt d D) /\ t_day r = W /\ t_period r = P.
Proof.
  rewrite !andb_true_iff, Z.eqb_eq, String.eqb_eq. unfold lt_text, is_null.
  destruct (t_date r) as [d|]; simpl.
  - rewrite TextFacts.ltb_lt. split.
    + intros [[[_ H1] H2] H3]. eauto.
    + intros [[d' [[= <-] H1]] [H2 H3]]. auto.
  - split.
    + intros [[[H _] _] _]. discriminate.
    + intros [[d' [[=] _]] _].
Qed.

Lemma template_filter (W : string) (P : Z) (r : timetable_row) :
  is_null (t_date r) && String.eqb (t_day r) W && (t_period r =? P)%Z = true <->
  t_date r = None /\ t_day r = W /\ t_period r = P.
Proof.
  rewrite !andb_true_iff, Z.eqb_eq, String.eqb_eq. unfold is_null.
  destruct (t_date r); intuition congruence.
Qed.

Lemma select_exact_Some tt D P r :
  select_exact tt D P = Some r -> exact_row tt D P r.
Proof.
  intros H. apply head_filter_Some in H as [Hin Hf].
  apply exact_filter in Hf. split; auto.
Qed.

Lemma select_exact_None tt D P :
  select_exact tt D P = None -> forall r, ~ exact_row tt D P r.
Proof.
  intros H r [Hin Hr]. apply exact_filter in Hr.
  pose proof (head_filter_None _ _ H r Hin) as Hf. simpl in Hf. congruence.
Qed.

Lemma select_exact_is_Some tt D P r :
  exact_row tt D P r -> exists r', select_exact tt D P = Some r'.
Proof.
  intros [Hin Hr]. apply exact_filter in Hr.
  eapply head_filter_is_Some; eauto.
Qed.

Lemma select_template_Some tt W P r :
  select_template tt W P = Some r -> template_row tt W P r.
Proof.
  intros H. apply head_filter_Some in H as [Hin Hf].
  apply template_filter in Hf. split; auto.
Qed.

Lemma select_template_None tt W P :
  select_template tt W P = None -> forall r, ~ template_row tt W P r.
Proof.
  intros H r [Hin Hr]. apply template_filter in Hr.
  pose proof (head_filter_None _ _ H r Hin) as Hf. simpl in Hf. congruence.
Qed.

Lemma select_template_is_Some tt W P r :
  template_row tt W P r -> exists r', select_template tt W P = Some r'.
Proof.
  intros [Hin Hr]. apply template_filter in Hr.
  eapply head_filter_is_Some; eauto.
Qed.

(** The sort keeps the rows and puts a row of greatest date first. *)
Lemma insert_date_desc_In r l x :
  In x (insert_date_desc r l) <-> x = r \/ In x l.
Proof.
  induction l as [|h t IH]; simpl; [intuition|].
  destruct (date_ltb (t_date r) (t_date h)); simpl; rewrite ?IH; intuition.
Qed.

Lemma order_by_date_desc_In l x : In x (order_by_date_desc l) <-> In x l.
Proof.
  induction l as [|h t IH]; simpl; [tauto|].
  rewrite insert_date_desc_In, IH. intuition.
Qed.

Lemma date_ltb_trans a b c :
  date_ltb a b = true -> date_ltb b c = true -> date_ltb a c = true.
Proof.
  destruct a as [a|], b as [b|], c as [c|]; simpl; try congruence.
  rewrite !TextFacts.ltb_lt. apply TextFacts.lt_trans.
Qed.

Lemma date_ltb_irrefl a : date_ltb a a = false.
Proof.
  destruct a as [a|]; simpl; [|reflexivity].
  destruct (String.ltb a a) eqn:E; [|reflexivity].
  apply TextFacts.ltb_lt in E. now apply TextFacts.lt_irrefl in E.
Qed.

Lemma date_ltb_total a b :
  date_ltb a b = false -> date_ltb b a = false -> a = b.
Proof.
  destruct a as [a|], b as [b|]; simpl; try congruence.
  intros H1 H2. f_equal. apply TextFacts.compare_eq.
  unfold String.ltb in *. rewrite (String.compare_antisym b a) in H2.
  destruct (String.compare a b); simpl in *; congruence.
Qed.

Lemma date_ltb_false_trans a b c :
  date_ltb a b = false -> date_ltb b c = false -> date_ltb a c = false.
Proof.
  intros Hab Hbc. destruct (date_ltb a c) eqn:Hac; [|reflexivity].
  destruct (date_ltb b a) eqn:Hba.
  - now rewrite (date_ltb_trans _ _ _ Hba Hac) in Hbc.
  - rewrite (date_ltb_total _ _ Hab Hba) in Hac. congruence.
Qed.

(** [top l r]: [r] heads [l] and no row of [l] has a greater date. *)
Definition top (l : list timetable_row) (r : timetable_row) : Prop :=
  head l = Some r /\ forall x, In x l -> date_ltb (t_date r) (t_date x) = false.

Lemma insert_date_desc_top r l h :
  top l h ->
  top (insert_date_desc r l)
      (if date_ltb (t_date r) (t_date h) then h else r).
Proof.
  intros [Hh Hmax]. destruct l as [|h' t]; [discriminate|].
  simpl in Hh. injection Hh as ->. simpl.
  destruct (date_ltb (t_date r) (t_date h)) eqn:E; split; simpl; auto.
  - intros x [<-|Hx]; [apply Hmax; now left|].
    apply insert_date_desc_In in Hx as [->|Hx].
    + destruct (date_ltb (t_date h) (t_date r)) eqn:E'; [|reflexivity].
      pose proof (date_ltb_trans _ _ _ E E') as C.
      rewrite date_ltb_irrefl in C. discriminate.
    + apply Hmax. now right.
  - intros x [<-|Hx]; [apply date_ltb_irrefl|].
    eapply date_ltb_false_trans; [exact E|]. now apply Hmax.
Qed.

Lemma order_by_date_desc_top l :
  l <> [] -> exists r, top (order_by_date_desc l) r.
Proof.
  induction l as [|a l IH]; [congruence|]. intros _.
  destruct l as [|b l].
  - exists a. split; simpl; [reflexivity|].
    intros x [<-|[]]. apply date_ltb_irrefl.
  - destruct IH as [h Hh]; [discriminate|].
    exists (if date_ltb (t_date a) (t_date h) then h else a).
    apply (insert_date_desc_top a (order_by_date_desc (b :: l)) h Hh).
Qed.

Lemma order_by_date_desc_head l r :
  head (order_by_date_desc l) = Some r ->
  In r l /\ forall x, In x l -> date_ltb (t_date r) (t_date x) = false.
Proof.
  intros H. destruct l as [|a l]; [discriminate|].
  destruct (order_by_date_desc_top (a :: l)) as [r' [Hr' Hmax]]; [discriminate|].
  rewrite H in Hr'. injection Hr' as <-. split.
  - apply order_by_date_desc_In. destruct (order_by_date_desc (a :: l));
      [discriminate|]. simpl in H. injection H as ->. now left.
  - intros x Hx. apply Hmax. now apply order_by_date_desc_In.
Qed.

Lemma select_past_Some tt D W P r :
  select_past tt D W P = Some r -> latest_past_row tt D W P r.
Proof.
  intros H. apply order_by_date_desc_head in H as [Hin Hmax].
  apply filter_In in Hin as [Hin Hf]. apply past_filter in Hf.
  split; [split; auto|].
  intros r' d d' [Hin' Hr'] Hd Hd'.
  assert (Hx : In r' (List.filter
             (fun t => negb (is_null (t_date t)) && lt_text (t_date t) D
                       && String.eqb (t_day t) W && (t_period t =? P)%Z) tt)).
  { apply filter_In. split; [assumption|]. now apply past_filter. }
  apply Hmax in Hx. rewrite Hd, Hd' in Hx. simpl in Hx.
  apply TextFacts.not_lt_le. intros Hlt. apply TextFacts.ltb_lt in Hlt. congruence.
Qed.

Lemma select_past_None tt D W P :
  select_past tt D W P = None -> forall r, ~ past_row tt D W P r.
Proof.
  unfold select_past. intros H r [Hin Hr]. apply past_filter in Hr.
  assert (Hx : In r (order_by_date_desc (List.filter
             (fun t => negb (is_null (t_date t)) && lt_text (t_date t) D
                       && String.eqb (t_day t) W && (t_period t =? P)%Z) tt))).
  { apply order_by_date_desc_In, filter_In. auto. }
  destruct (order_by_date_desc _); [destruct Hx|discriminate].
Qed.

Lemma select_past_is_Some tt D W P r :
  past_row tt D W P r -> exists r', select_past tt D W P = Some r'.
Proof.
  intros Hr. destruct (select_past tt D W P) as [r'|] eqn:E; eauto.
  exfalso. eapply select_past_None; eauto.
Qed.

End ResolutionFacts.

(** ** What one pass over the day's pattern stores *)

Module PassFacts.

Import Schema Resolution ResolutionFacts.

Section Day.

Variable tt : list timetable_row.
Variable day_idx : nat.
Variables date_str day_name : string.

(** The row taken over from the preceding period's entry. *)
Definition inherit_from (entries : gmap (nat * Z) timetable_row)
    (prev : option Z) : option timetable_row :=
  match prev with
  | Some q =>
      match entries !! (day_idx, q) with
      | Some prev_row =>
          if truthy (t_is_double prev_row) && String.eqb (t_day prev_row) day_name
          then Some prev_row else None
      | None => None
      end
  | None => None
  end.

Definition resolve_period (st : loop_state) (P : Z) : loop_state :=
  resolve_slot tt day_idx date_str day_name st (PeriodSlot P "").

Lemma resolve_period_eq st P :
  resolve_period st P =
  (match select_own tt date_str day_name P with
   | Some r => <[(day_idx, P) := r]> (fst st)
   | None =>
       match inherit_from (fst st) (snd st) with
       | Some r => <[(day_idx, P) := r]> (fst st)
       | None => fst st
       end
   end, Some P).
Proof.
  destruct st as [entries prev]. unfold resolve_period, resolve_slot. simpl.
  destruct (select_own tt date_str day_name P) as [r|]; [reflexivity|].
  destruct prev as [q|]; simpl; [|reflexivity].
  destruct (entries !! (day_idx, q)) as [r|]; [|reflexivity].
  destruct (truthy (t_is_double r)); simpl; [|reflexivity].
  destruct (String.eqb (t_day r) day_name); reflexivity.
Qed.

Lemma fold_pattern (pattern : list pattern_slot) (st : loop_state) :
  fold_left (resolve_slot tt day_idx date_str day_name) pattern st =
  fold_left resolve_period (periods_of pattern) st.
Proof.
  revert st. induction pattern as [|[p lbl|m lbl] rest IH]; intros st; simpl;
    auto.
Qed.

Definition run (ps : list Z) (e0 : gmap (nat * Z) timetable_row) : loop_state :=
  fold_left resolve_period ps (e0, None).

Lemma run_snoc ps P e0 : run (ps ++ [P]) e0 = resolve_period (run ps e0) P.
Proof. unfold run. now rewrite fold_left_app. Qed.

Lemma run_prev ps e0 : snd (run ps e0) = last ps.
Proof.
  destruct ps as [|p ps] using rev_ind; [reflexivity|].
  rewrite run_snoc, resolve_period_eq, last_snoc. reflexivity.
Qed.

Lemma run_other ps e0 (k : nat * Z) :
  fst k <> day_idx \/ ~ In (snd k) ps -> fst (run ps e0) !! k = e0 !! k.
Proof.
  induction ps as [|p ps IH] using rev_ind; intros Hk; [reflexivity|].
  assert (Hne : (day_idx, p) <> k).
  { intros <-. simpl in Hk. destruct Hk as [Hk|Hk]; [congruence|].
    apply Hk, in_or_app. right. now left. }
  assert (Hk' : fst k <> day_idx \/ ~ In (snd k) ps).
  { destruct Hk as [Hk|Hk]; [now left|right].
    intros Hin. apply Hk, in_or_app. now left. }
  rewrite run_snoc, resolve_period_eq. simpl.
  destruct (select_own tt date_str day_name p).
  - rewrite lookup_insert_ne; auto.
  - destruct (inherit_from _ _); [rewrite lookup_insert_ne|]; auto.
Qed.

(** The row a period resolves to, given the periods visited before it,
    nearest first: its own row, else the preceding period's row if that row
    is a double period of this day. *)
Fixpoint chain (rev_prefix : list Z) : option timetable_row :=
  match rev_prefix with
  | [] => None
  | P :: before =>
      match select_own tt date_str day_name P with
      | Some r => Some r
      | None =>
          match chain before with
          | Some r =>
              if truthy (t_is_double r) && String.eqb (t_day r) day_name
              then Some r else None
          | None => None
          end
      end
  end.

Lemma run_chain ps e0 :
  (forall P, e0 !! (day_idx, P) = None) -> List.NoDup ps ->
  forall l P l', ps = l ++ P :: l' ->
    fst (run ps e0) !! (day_idx, P) = chain (P :: rev l).
Proof.
  intros He0. induction ps as [|x ps IH] using rev_ind; intros Hnd l P l' Hps.
  { destruct l; discriminate. }
  assert (Hnd' : List.NoDup ps).
  { apply NoDup_app_remove_r in Hnd. exact Hnd. }
  assert (Hx : ~ In x ps).
  { intros Hin. apply NoDup_remove_2 in Hnd. rewrite app_nil_r in Hnd.
    contradiction. }
  rewrite run_snoc, resolve_period_eq. cbn [fst snd].
  induction l' as [|y l' _] using rev_ind.
  - apply app_inj_tail in Hps as [-> ->]. cbn [chain].
    destruct (select_own tt date_str day_name P) as [r|];
      [now rewrite lookup_insert_eq|].
    assert (Hinh : inherit_from (fst (run l e0)) (snd (run l e0)) =
                   match chain (rev l) with
                   | Some r =>
                       if truthy (t_is_double r) && String.eqb (t_day r) day_name
                       then Some r else None
                   | None => None
                   end).
    { rewrite run_prev. induction l as [|q l0 _] using rev_ind; [reflexivity|].
      rewrite last_snoc, rev_unit. unfold inherit_from.
      rewrite (IH Hnd' l0 q [] eq_refl). reflexivity. }
    rewrite Hinh. destruct (chain (rev l)) as [r|].
    + destruct (truthy (t_is_double r) && String.eqb (t_day r) day_name);
        [now rewrite lookup_insert_eq|].
      rewrite run_other; auto.
    + rewrite run_other; auto.
  - rewrite app_comm_cons, app_assoc in Hps.
    apply app_inj_tail in Hps as [-> ->].
    assert (HPx : (day_idx, y) <> (day_idx, P)).
    { intros [= ->]. apply Hx, in_or_app. right. now left. }
    rewrite <- (IH Hnd' l P l' eq_refl).
    destruct (select_own tt date_str day_name y).
    + now rewrite lookup_insert_ne.
    + destruct (inherit_from _ _); [now rewrite lookup_insert_ne|reflexivity].
Qed.

Lemma resolve_day_over_other pattern e0 (k : nat * Z) :
  fst k <> day_idx \/ ~ In (snd k) (periods_of pattern) ->
  resolve_day_over pattern tt e0 day_idx date_str day_name !! k = e0 !! k.
Proof.
  intros Hk. unfold resolve_day_over. rewrite fold_pattern.
  now apply run_other.
Qed.

Lemma resolve_day_over_chain pattern e0 l P l' :
  (forall Q, e0 !! (day_idx, Q) = None) ->
  List.NoDup (periods_of pattern) ->
  periods_of pattern = l ++ P :: l' ->
  resolve_day_over pattern tt e0 day_idx date_str day_name !! (day_idx, P)
  = chain (P :: rev l).
Proof.
  intros He0 Hnd Hps. unfold resolve_day_over. rewrite fold_pattern.
  now apply (run_chain _ e0 He0 Hnd l P l').
Qed.

End Day.

Lemma period_list_NoDup : List.NoDup period_list.
Proof.
  unfold period_list. simpl.
  repeat (constructor; [simpl; intuition lia|]). constructor.
Qed.

End PassFacts.

(** ** The week view, period by period *)

Module WeekFacts.

Import Schema Resolution ResolutionFacts PassFacts.

Lemma handle_home_days tt w :
  _handle_home tt w =
  resolve_day tt
    (resolve_day tt
       (resolve_day tt
          (resolve_day tt
             (resolve_day tt ∅ 0 (monday w) "Montag")
             1 (tuesday w) "Dienstag")
          2 (wednesday w) "Mittwoch")
       3 (thursday w) "Donnerstag")
    4 (friday w) "Freitag".
Proof. reflexivity. Qed.

Ltac skip_other_days :=
  repeat (rewrite resolve_day_over_other by (left; simpl; lia)).

Lemma resolved_chain tt w i l P l' :
  (i < 5)%nat -> period_list = l ++ P :: l' ->
  resolved tt w i P = chain tt (day_date w i) (day_name i) (P :: rev l).
Proof.
  intros Hi Hps. unfold resolved. rewrite handle_home_days.
  unfold resolve_day.
  destruct i as [|[|[|[|[|i]]]]]; try lia; skip_other_days;
    (rewrite (resolve_day_over_chain _ _ _ _ SCHEDULE_PATTERN _ l P l');
     [reflexivity
     |intros Q; skip_other_days; apply lookup_empty
     |apply period_list_NoDup
     |exact Hps]).
Qed.

Lemma resolved_first tt w i P :
  (i < 5)%nat -> first_period P ->
  resolved tt w i P = select_own tt (day_date w i) (day_name i) P.
Proof.
  intros Hi [l' Hps]. rewrite (resolved_chain tt w i [] P l' Hi Hps). simpl.
  now destruct (select_own _ _ _ _).
Qed.

Lemma resolved_step tt w i Q P :
  (i < 5)%nat -> precedes Q P ->
  resolved tt w i P =
  match select_own tt (day_date w i) (day_name i) P with
  | Some r => Some r
  | None =>
      match resolved tt w i Q with
      | Some r =>
          if truthy (t_is_double r) && String.eqb (t_day r) (day_name i)
          then Some r else None
      | None => None
      end
  end.
Proof.
  intros Hi (l & l' & Hps).
  rewrite (resolved_chain tt w i l Q (P :: l') Hi Hps).
  rewrite (resolved_chain tt w i (l ++ [Q]) P l' Hi).
  - rewrite rev_unit. reflexivity.
  - now rewrite <- app_assoc.
Qed.

Lemma in_period_list_cases P :
  In P period_list -> first_period P \/ exists Q, precedes Q P.
Proof.
  intros HP. apply in_split in HP as (l & l' & Hps).
  destruct l as [|q l _] using rev_ind.
  - left. now exists l'.
  - right. exists q, l, l'. now rewrite Hps, <- app_assoc.
Qed.

Lemma precedes_unique Q Q' P : precedes Q P -> precedes Q' P -> Q = Q'.
Proof.
  unfold precedes, period_list. simpl.
  intros (l & l' & H) (m & m' & H').
  repeat (destruct l as [|? l]; simpl in H; try discriminate H);
    injection H as <- <-;
    repeat (destruct m as [|? m]; simpl in H'; try discriminate H');
    injection H' as; lia.
Qed.

Lemma first_not_preceded Q P : first_period P -> ~ precedes Q P.
Proof.
  unfold precedes, first_period, period_list. simpl.
  intros (l' & H) (m & m' & H').
  injection H as <- <-.
  repeat (destruct m as [|? m]; simpl in H'; try discriminate H');
    injection H' as; lia.
Qed.

(** Every query asks for the period it is given. *)
Lemma select_own_period tt D W P r :
  select_own tt D W P = Some r -> t_period r = P.
Proof.
  unfold select_own.
  destruct (select_exact tt D P) as [r1|] eqn:E1.
  { intros [= <-]. now apply select_exact_Some in E1 as (_ & _ & H). }
  destruct (select_past tt D W P) as [r2|] eqn:E2.
  { intros [= <-]. now apply select_past_Some in E2 as [(_ & _ & _ & H) _]. }
  intros E3. now apply select_template_Some in E3 as (_ & _ & _ & H).
Qed.

Lemma chain_period tt D W rp r :
  chain tt D W rp = Some r -> In (t_period r) rp.
Proof.
  revert r. induction rp as [|P before IH]; intros r; simpl; [discriminate|].
  destruct (select_own tt D W P) as [r1|] eqn:E.
  - intros [= <-]. left. symmetry. eapply select_own_period; eauto.
  - destruct (chain tt D W before) as [r2|]; [|discriminate].
    destruct (truthy (t_is_double r2) && String.eqb (t_day r2) W);
      [|discriminate].
    intros [= <-]. right. now apply IH.
Qed.

Lemma truthy_true n : truthy n = true <-> n <> 0.
Proof. unfold truthy. rewrite negb_true_iff, Z.eqb_neq. tauto. Qed.

Lemma inherit_test r W :
  truthy (t_is_double r) && String.eqb (t_day r) W = true <->
  t_is_double r <> 0 /\ t_day r = W.
Proof. now rewrite andb_true_iff, truthy_true, String.eqb_eq. Qed.

Lemma select_exact_none tt D P :
  (forall r, ~ exact_row tt D P r) -> select_exact tt D P = None.
Proof.
  intros Hno. destruct (select_exact tt D P) as [r|] eqn:E; [|reflexivity].
  apply select_exact_Some in E. now apply Hno in E.
Qed.

Lemma select_past_none tt D W P :
  (forall r, ~ past_row tt D W P r) -> select_past tt D W P = None.
Proof.
  intros Hno. destruct (select_past tt D W P) as [r|] eqn:E; [|reflexivity].
  apply select_past_Some in E as [E _]. now apply Hno in E.
Qed.

Lemma select_template_none tt W P :
  (forall r, ~ template_row tt W P r) -> select_template tt W P = None.
Proof.
  intros Hno. destruct (select_template tt W P) as [r|] eqn:E; [|reflexivity].
  apply select_template_Some in E. now apply Hno in E.
Qed.

Lemma select_own_none tt D W P :
  (forall r, ~ exact_row tt D P r) -> (forall r, ~ past_row tt D W P r) ->
  (forall r, ~ template_row tt W P r) -> select_own tt D W P = None.
Proof.
  intros H1 H2 H3. unfold select_own.
  now rewrite select_exact_none, select_past_none, select_template_none.
Qed.

Lemma resolved_own tt w i P r :
  (i < 5)%nat -> In P period_list ->
  select_own tt (day_date w i) (day_name i) P = Some r ->
  resolved tt w i P = Some r.
Proof.
  intros Hi HP Hr. destruct (in_period_list_cases P HP) as [Hf|[Q HQ]].
  - now rewrite resolved_first.
  - rewrite (resolved_step tt w i Q P Hi HQ). now rewrite Hr.
Qed.

(** The row a period resolves to belongs to that period or to an earlier
    one, never to the period that follows. *)
Lemma resolved_period_before tt w i Q P r :
  (i < 5)%nat -> precedes Q P -> resolved tt w i Q = Some r ->
  t_period r <> P.
Proof.
  intros Hi (l & l' & Hps) Hr HP.
  rewrite (resolved_chain tt w i l Q (P :: l') Hi Hps) in Hr.
  apply chain_period in Hr. rewrite HP in Hr.
  pose proof period_list_NoDup as Hnd. rewrite Hps in Hnd.
  replace (l ++ Q :: P :: l') with ((l ++ [Q]) ++ P :: l') in Hnd
    by now rewrite <- app_assoc.
  apply NoDup_remove_2 in Hnd. apply Hnd.
  apply in_or_app. left. apply in_or_app.
  destruct Hr as [->|Hr]; [right; now left|left; now apply in_rev].
Qed.

End WeekFacts.

(** ** Facts about the override handlers *)

Module LifecycleFacts.

Import Schema Http Lifecycle ResolutionFacts.

Lemma null_aware_eq_iff (col v : option Z) :
  null_aware_eq col v = true <-> col = v.
Proof.
  unfold null_aware_eq, eq_int, is_null.
  destruct v as [v|], col as [c|]; try rewrite Z.eqb_eq;
    split; congruence.
Qed.

(** The NULL-aware match on date, period, subject, class and course. *)
Lemma override_matches_iff (date : string) (T t : timetable_row) :
  override_matches date T t = true <->
  t_date t = Some date /\ t_period t = t_period T /\
  t_subject_id t = t_subject_id T /\ t_class_id t = t_class_id T /\
  t_course_id t = t_course_id T.
Proof.
  unfold override_matches.
  rewrite !andb_true_iff, !null_aware_eq_iff, Z.eqb_eq.
  unfold eq_text. destruct (t_date t) as [x|].
  - rewrite String.eqb_eq. intuition congruence.
  - intuition congruence.
Qed.

Lemma override_matches_set_status date T t status :
  override_matches date T (set_status t status) = override_matches date T t.
Proof. reflexivity. Qed.

Lemma override_matches_override_of date T id status :
  override_matches date T (override_of id T date status) = true.
Proof. apply override_matches_iff. simpl. auto. Qed.

Lemma set_status_twice t status :
  set_status (set_status t status) status = set_status t status.
Proof. reflexivity. Qed.

Lemma override_of_set_status id T date status :
  set_status (override_of id T date status) status
  = override_of id T date status.
Proof. reflexivity. Qed.

(** The new rowid is above every rowid in use. *)
Lemma fold_max_bounds {A : Type} (key : A -> Z) (b : Z) (rest : list A) :
  b <= fold_right Z.max b (map key rest) /\
  forall x, In x rest -> key x <= fold_right Z.max b (map key rest).
Proof.
  induction rest as [|y rest [IH1 IH2]]; simpl; [split; [lia|tauto]|].
  split; [lia|]. intros x [<-|Hx]; [lia|]. specialize (IH2 x Hx). lia.
Qed.

Lemma next_rowid_above {A : Type} (key : A -> Z) (table : list A) (x : A) :
  In x table -> key x < next_rowid key table.
Proof.
  destruct table as [|r rest]; [intros []|].
  unfold next_rowid. destruct (fold_max_bounds key (key r) rest) as [H1 H2].
  intros [<-|Hx]; [lia|]. specialize (H2 x Hx). lia.
Qed.

Lemma next_rowid_fresh (tt : list timetable_row) :
  ~ In (next_rowid t_id tt) (map t_id tt).
Proof.
  intros H. apply in_map_iff in H as (x & Hx & Hin).
  pose proof (next_rowid_above t_id tt x Hin). lia.
Qed.

(** With distinct rowids, an update by rowid rewrites one row in place. *)
Lemma update_status_in_place tt r status :
  List.NoDup (map t_id tt) -> In r tt ->
  exists l1 l2, tt = l1 ++ r :: l2 /\
    update_status tt (t_id r) status = l1 ++ set_status r status :: l2.
Proof.
  intros Hnd Hin. apply in_split in Hin as (l1 & l2 & ->).
  exists l1, l2. split; [reflexivity|].
  rewrite map_app in Hnd. simpl in Hnd.
  pose proof (NoDup_remove_2 _ _ _ Hnd) as Hnot.
  assert (Hid : forall l, (forall x, In x l -> t_id x <> t_id r) ->
                          update_status l (t_id r) status = l).
  { induction l as [|x l IH]; intros Hl; [reflexivity|]. simpl.
    destruct (Z.eqb_spec (t_id x) (t_id r)) as [E|_].
    - exfalso. apply (Hl x); [now left|exact E].
    - f_equal. apply IH. intros y Hy. apply Hl. now right. }
  unfold update_status in *. rewrite map_app. simpl.
  rewrite Z.eqb_refl. f_equal; [|f_equal]; apply Hid; intros x Hx E;
    apply Hnot, in_or_app; [left|right]; apply in_map_iff; eauto.
Qed.

Lemma update_status_ids tt id status :
  map t_id (update_status tt id status) = map t_id tt.
Proof.
  unfold update_status. rewrite map_map. apply map_ext.
  intros t. now destruct (t_id t =? id).
Qed.

Lemma update_status_twice tt id status :
  update_status (update_status tt id status) id status
  = update_status tt id status.
Proof.
  unfold update_status. rewrite map_map. apply map_ext. intros t.
  destruct (t_id t =? id) eqn:E; simpl; now rewrite E.
Qed.

Lemma update_status_absent tt id status :
  ~ In id (map t_id tt) -> update_status tt id status = tt.
Proof.
  intros Hid. unfold update_status. rewrite <- (map_id tt) at 2.
  apply map_ext_in. intros t Ht.
  destruct (Z.eqb_spec (t_id t) id) as [E|_]; [|reflexivity].
  exfalso. apply Hid, in_map_iff. eauto.
Qed.

(** A filter that a function on rows respects commutes with mapping it. *)
Lemma filter_map_commute {A : Type} (p : A -> bool) (f : A -> A) (l : list A) :
  (forall x, p (f x) = p x) ->
  List.filter p (map f l) = map f (List.filter p l).
Proof.
  intros Hp. induction l as [|a l IH]; simpl; [reflexivity|].
  rewrite Hp. destruct (p a); simpl; now rewrite IH.
Qed.

Lemma head_map {A B : Type} (f : A -> B) (l : list A) :
  head (map f l) = option_map f (head l).
Proof. now destruct l. Qed.

Lemma filter_update_status (p : timetable_row -> bool) tt id status :
  (forall t, p (set_status t status) = p t) ->
  List.filter p (update_status tt id status)
  = update_status (List.filter p tt) id status.
Proof.
  intros Hp. unfold update_status. apply filter_map_commute.
  intros t. destruct (t_id t =? id); [apply Hp|reflexivity].
Qed.

Lemma head_filter_nil {A : Type} (p : A -> bool) (l : list A) :
  head (List.filter p l) = None -> List.filter p l = [].
Proof. now destruct (List.filter p l). Qed.

End LifecycleFacts.

(** ** Facts about the floats: operations that are exact *)

Module FloatFacts.

Import Py Float.

Lemma iter_pos_iter {A : Type} (f : A -> A) (p : positive) (x : A) :
  SpecFloat.iter_pos f p x = Pos.iter f x p.
Proof.
  revert x. induction p as [p IH|p IH|]; intros x; simpl.
  - rewrite !IH. rewrite <- Pos.iter_swap. f_equal. now rewrite <- Pos.iter_swap.
  - now rewrite !IH.
  - reflexivity.
Qed.

Lemma pos_shift (m p : positive) :
  Z.pos m * 2 ^ Z.pos p = Z.pos (Pos.iter xO m p).
Proof.
  induction p as [|p IH] using Pos.peano_ind.
  - simpl. lia.
  - rewrite Pos2Z.inj_succ, Z.pow_succ_r by lia.
    rewrite Pos.iter_succ. rewrite (Pos2Z.inj_xO (Pos.iter xO m p)), <- IH. lia.
Qed.

Lemma digits_shift (m p : positive) :
  Z.pos (digits2_pos (Pos.iter xO m p)) = Z.pos (digits2_pos m) + Z.pos p.
Proof.
  induction p as [|p IH] using Pos.peano_ind.
  - simpl. lia.
  - rewrite Pos.iter_succ. simpl digits2_pos.
    rewrite Pos2Z.inj_succ, IH. lia.
Qed.

Lemma shr_shift (m p : positive) :
  SpecFloat.iter_pos shr_1 p
    {| shr_m := Z.pos (Pos.iter xO m p); shr_r := false; shr_s := false |}
  = {| shr_m := Z.pos m; shr_r := false; shr_s := false |}.
Proof.
  rewrite iter_pos_iter.
  induction p as [|p IH] using Pos.peano_ind.
  - reflexivity.
  - rewrite Pos.iter_succ_r. rewrite (Pos.iter_succ p positive xO m).
    simpl shr_1. exact IH.
Qed.

(** Rounding a mantissa that is [m] followed by [k] zero bits, when [m]
    is canonical at the exponent raised by [k], gives [m] back. *)
Lemma binary_round_aux_exact (s : bool) (M m : positive) (ex k : Z) :
  0 <= k -> Z.pos M = Z.pos m * 2 ^ k ->
  fexp prec emax (Z.pos (digits2_pos m) + (ex + k)) = ex + k ->
  binary_round_aux prec emax s (Z.pos M) ex loc_Exact
  = if ex + k <=? emax - prec then S754_finite s m (ex + k)
    else S754_infinity s.
Proof.
  intros Hk HM Hcanon. unfold binary_round_aux, shr_fexp.
  assert (Hshift : fexp prec emax (Zdigits2 (Z.pos M) + ex) - ex = k).
  { simpl Zdigits2. destruct k as [|p|p]; [| |lia].
    - rewrite Z.pow_0_r, Z.mul_1_r in HM. injection HM as ->.
      rewrite Z.add_0_r in Hcanon. rewrite Hcanon. lia.
    - rewrite pos_shift in HM. injection HM as ->.
      rewrite digits_shift.
      replace (Z.pos (digits2_pos m) + Z.pos p + ex)
        with (Z.pos (digits2_pos m) + (ex + Z.pos p)) by lia.
      rewrite Hcanon. lia. }
  rewrite Hshift. simpl shr_record_of_loc.
  assert (Hshr : shr {| shr_m := Z.pos M; shr_r := false; shr_s := false |} ex k
                 = ({| shr_m := Z.pos m; shr_r := false; shr_s := false |},
                    ex + k)).
  { destruct k as [|p|p]; [| |lia].
    - rewrite Z.pow_0_r, Z.mul_1_r in HM. injection HM as ->.
      simpl. now rewrite Z.add_0_r.
    - rewrite pos_shift in HM. injection HM as ->.
      unfold shr. now rewrite shr_shift. }
  rewrite Hshr. simpl loc_of_shr_record. simpl round_nearest_even.
  simpl shr_m. simpl Zdigits2. rewrite Hcanon, Z.sub_diag. simpl shr.
  reflexivity.
Qed.

Lemma two_eq : two = S754_finite false 4503599627370496 (-51).
Proof. reflexivity. Qed.

Lemma fexp_eq (x : Z) : fexp prec emax x = Z.max (x - 53) (-1074).
Proof. reflexivity. Qed.

(** What validity says about a finite float. *)
Lemma valid_finite (s : bool) (m : positive) (e : Z) :
  valid_binary prec emax (S754_finite s m e) = true ->
  e <= 971 /\
  ((Z.pos (digits2_pos m) = 53 /\ -1074 <= e) \/
   (Z.pos (digits2_pos m) < 53 /\ e = -1074)).
Proof.
  unfold valid_binary, bounded, canonical_mantissa.
  rewrite andb_true_iff, Z.eqb_eq, Z.leb_le, fexp_eq.
  change (emax - prec) with 971. lia.
Qed.

Lemma canonical_normal (m : positive) (e : Z) :
  Z.pos (digits2_pos m) = 53 -> -1074 <= e ->
  fexp prec emax (Z.pos (digits2_pos m) + e) = e.
Proof. intros -> He. rewrite fexp_eq. lia. Qed.

(** Doubling is exact, up to overflow. *)
Lemma mul_two_exact (s : bool) (m : positive) (e : Z) :
  valid_binary prec emax (S754_finite s m e) = true ->
  mul (S754_finite s m e) two
  = if Z.pos (digits2_pos m) =? 53
    then if e + 1 <=? 971 then S754_finite s m (e + 1) else S754_infinity s
    else S754_finite s m~0 e.
Proof.
  intros Hv. apply valid_finite in Hv as [Hmax Hcases].
  rewrite two_eq. unfold mul, SFmul. rewrite xorb_false_r.
  destruct Hcases as [[Hd He]|[Hd He]].
  - rewrite Hd. simpl Z.eqb. cbv iota.
    rewrite (binary_round_aux_exact s _ m (e + -51) 52).
    + replace (e + -51 + 52) with (e + 1) by lia. reflexivity.
    + lia.
    + rewrite Pos2Z.inj_mul. reflexivity.
    + replace (e + -51 + 52) with (e + 1) by lia.
      apply canonical_normal; lia.
  - destruct (Z.eqb_spec (Z.pos (digits2_pos m)) 53) as [E|_]; [lia|].
    rewrite (binary_round_aux_exact s _ m~0 (e + -51) 51).
    + replace (e + -51 + 51) with e by lia.
      destruct (Z.leb_spec e (emax - prec)) as [_|H]; [reflexivity|].
      change (emax - prec) with 971 in H. lia.
    + lia.
    + rewrite Pos2Z.inj_mul, (Pos2Z.inj_xO m).
      change (Z.pos 4503599627370496) with (2 * 2 ^ 51). lia.
    + simpl digits2_pos. rewrite Pos2Z.inj_succ, fexp_eq. lia.
Qed.

(** Halving a normal number is exact, above the smallest exponent. *)
Lemma div_two_exact (s : bool) (m : positive) (e : Z) :
  Z.pos (digits2_pos m) = 53 -> -1072 <= e -> e <= 972 ->
  div (S754_finite s m e) two = S754_finite s m (e - 1).
Proof.
  intros Hd He Hmax. rewrite two_eq. unfold div, SFdiv. rewrite xorb_false_r.
  assert (Hcore : SFdiv_core_binary prec emax (Z.pos m) e
                    (Z.pos 4503599627370496) (-51)
                  = (Z.pos m~0, e - 2, loc_Exact)).
  { unfold SFdiv_core_binary. cbv zeta.
    change (Zdigits2 (Z.pos 4503599627370496)) with 53.
    change (Zdigits2 (Z.pos m)) with (Z.pos (digits2_pos m)).
    rewrite Hd, fexp_eq.
    replace (Z.min (Z.max (53 + e - (53 + -51) - 53) (-1074)) (e - -51))
      with (e - 2) by lia.
    replace (e - -51 - (e - 2)) with 53 by lia.
    assert (Hm : Z.shiftl (Z.pos m) 53 = Z.pos m~0 * 4503599627370496).
    { rewrite Z.shiftl_mul_pow2 by lia. rewrite (Pos2Z.inj_xO m).
      change (2 ^ 53) with (2 * 4503599627370496). lia. }
    rewrite Hm.
    pose proof (Z.div_eucl_eq (Z.pos m~0 * 4503599627370496) 4503599627370496
                  ltac:(lia)) as Heq.
    pose proof (Z.mod_pos_bound (Z.pos m~0 * 4503599627370496)
                  4503599627370496 ltac:(lia)) as Hbound.
    unfold Z.modulo in Hbound.
    destruct (Z.div_eucl (Z.pos m~0 * 4503599627370496) 4503599627370496)
      as [q r].
    assert (r = 0 /\ q = Z.pos m~0) as [-> ->] by lia.
    reflexivity. }
  rewrite Hcore.
  rewrite (binary_round_aux_exact s m~0 m (e - 2) 1).
  - replace (e - 2 + 1) with (e - 1) by lia.
    destruct (Z.leb_spec (e - 1) (emax - prec)) as [_|H]; [reflexivity|].
    change (emax - prec) with 971 in H. lia.
  - lia.
  - rewrite (Pos2Z.inj_xO m). lia.
  - replace (e - 2 + 1) with (e - 1) by lia. apply canonical_normal; lia.
Qed.

Lemma digits_bounds (p : positive) :
  2 ^ (Z.pos (digits2_pos p) - 1) <= Z.pos p < 2 ^ Z.pos (digits2_pos p).
Proof.
  induction p as [p IH|p IH|]; simpl digits2_pos.
  - rewrite Pos2Z.inj_succ, Z.pow_succ_r by lia.
    replace (Z.succ (Z.pos (digits2_pos p)) - 1)
      with (Z.succ (Z.pos (digits2_pos p) - 1)) by lia.
    rewrite Z.pow_succ_r by lia. rewrite (Pos2Z.inj_xI p). lia.
  - rewrite Pos2Z.inj_succ, Z.pow_succ_r by lia.
    replace (Z.succ (Z.pos (digits2_pos p)) - 1)
      with (Z.succ (Z.pos (digits2_pos p) - 1)) by lia.
    rewrite Z.pow_succ_r by lia. rewrite (Pos2Z.inj_xO p). lia.
  - simpl. lia.
Qed.

Lemma digits_le (p : positive) (k : Z) :
  Z.pos p < 2 ^ k -> Z.pos (digits2_pos p) <= k.
Proof.
  intros Hp. destruct (digits_bounds p) as [Hlow _].
  destruct (Z.le_gt_cases (Z.pos (digits2_pos p)) k) as [H|H]; [exact H|].
  exfalso. assert (2 ^ k <= 2 ^ (Z.pos (digits2_pos p) - 1)).
  { apply Z.pow_le_mono_r; lia. }
  lia.
Qed.

(** An integer of at most 53 bits converts exactly: the mantissa is the
    integer shifted to 53 bits. *)
Lemma of_Z_small (s : bool) (r : positive) :
  Z.pos (digits2_pos r) <= 53 ->
  exists mf,
    of_Z (signed s r) = S754_finite s mf (Z.pos (digits2_pos r) - 53) /\
    Z.pos (digits2_pos mf) = 53 /\
    Z.pos mf = Z.pos r * 2 ^ (53 - Z.pos (digits2_pos r)).
Proof.
  intros Hd. set (dr := Z.pos (digits2_pos r)) in *.
  assert (Hround : of_Z (signed s r) = binary_round prec emax s r 0).
  { now destruct s. }
  rewrite Hround. unfold binary_round. rewrite Z.add_0_r, fexp_eq.
  fold dr. rewrite (Z.max_l (dr - 53) (-1074)) by lia.
  unfold shl_align. rewrite Z.sub_0_r.
  destruct (dr - 53) as [|p|p] eqn:E; [|lia|].
  - exists r. rewrite (binary_round_aux_exact s r r 0 0).
    + split; [reflexivity|]. fold dr. split; [lia|].
      replace (53 - dr) with 0 by lia. lia.
    + lia.
    + lia.
    + fold dr. rewrite fexp_eq. lia.
  - exists (Pos.iter xO r p).
    assert (Hdig : Z.pos (digits2_pos (Pos.iter xO r p)) = 53).
    { rewrite digits_shift. fold dr. lia. }
    rewrite (binary_round_aux_exact s _ (Pos.iter xO r p) (Z.neg p) 0).
    + rewrite Z.add_0_r. split; [reflexivity|]. split; [exact Hdig|].
      rewrite <- pos_shift. f_equal. f_equal. lia.
    + lia.
    + lia.
    + rewrite Hdig, fexp_eq. lia.
Qed.

(** A 53-bit mantissa times a power of two converts to itself. *)
Lemma of_Z_shifted (s : bool) (m M : positive) (k : Z) :
  Z.pos (digits2_pos m) = 53 -> 0 <= k <= 971 ->
  Z.pos M = Z.pos m * 2 ^ k ->
  of_Z (signed s M) = S754_finite s m k.
Proof.
  intros Hd Hk HM.
  assert (Hround : of_Z (signed s M) = binary_round prec emax s M 0).
  { now destruct s. }
  rewrite Hround. unfold binary_round. rewrite Z.add_0_r, fexp_eq.
  assert (HdM : Z.pos (digits2_pos M) = 53 + k).
  { destruct k as [|p|p]; [| |lia].
    - rewrite Z.pow_0_r, Z.mul_1_r in HM. injection HM as ->. lia.
    - rewrite pos_shift in HM. injection HM as ->.
      rewrite digits_shift. lia. }
  rewrite HdM. rewrite (Z.max_l (53 + k - 53) (-1074)) by lia.
  unfold shl_align.
  destruct (53 + k - 53 - 0) as [|p|p] eqn:E; [| |lia].
  - rewrite (binary_round_aux_exact s M m 0 k); [|lia|exact HM|].
    + rewrite Z.add_0_l.
      destruct (Z.leb_spec k (emax - prec)) as [_|H]; [reflexivity|].
      change (emax - prec) with 971 in H. lia.
    + rewrite Z.add_0_l, Hd, fexp_eq. lia.
  - rewrite (binary_round_aux_exact s M m 0 k); [|lia|exact HM|].
    + rewrite Z.add_0_l.
      destruct (Z.leb_spec k (emax - prec)) as [_|H]; [reflexivity|].
      change (emax - prec) with 971 in H. lia.
    + rewrite Z.add_0_l, Hd, fexp_eq. lia.
Qed.

End FloatFacts.

(** ** Facts about the scoring *)

Module ScoringFacts.

Import Schema Py Float Scoring FloatFacts.

Lemma lookup_grade_first_band scale_def pct :
  first_band scale_def pct (lookup_grade scale_def pct).
Proof.
  induction scale_def as [|[[g mi] ma] rest IH]; simpl.
  - right. split; [reflexivity|]. intros b [].
  - destruct (Float.leb mi pct && Float.ltb pct ma) eqn:E.
    + apply andb_true_iff in E. left. exists [], mi, ma, rest.
      split; [reflexivity|]. split; [exact E|]. intros b [].
    + assert (Hout : ~ in_band pct (g, mi, ma)).
      { intros [H1 H2]. simpl in *. rewrite H1, H2 in E. discriminate. }
      destruct IH as [(before & mi' & ma' & rest' & Heq & Hin & Hbefore)
                     |[Hempty Hnone]].
      * left. exists ((g, mi, ma) :: before), mi', ma', rest'.
        split; [simpl; f_equal; exact Heq|]. split; [exact Hin|].
        intros b [<-|Hb]; auto.
      * right. split; [exact Hempty|]. intros b [<-|Hb]; auto.
Qed.

Lemma div_pow2_half_even_nearest (m k : Z) :
  0 < k -> 0 <= m ->
  nearest_even m (2 ^ k) (Float.div_pow2_half_even m k).
Proof.
  intros Hk Hm. unfold Float.div_pow2_half_even, nearest_even.
  assert (HD : 2 ^ k = 2 * 2 ^ (k - 1)).
  { rewrite <- Z.pow_succ_r by lia. f_equal. lia. }
  assert (Hh : 0 < 2 ^ (k - 1)) by (apply Z.pow_pos_nonneg; lia).
  pose proof (Z.div_mod m (2 ^ k) ltac:(lia)) as Hdm.
  pose proof (Z.mod_pos_bound m (2 ^ k) ltac:(lia)) as Hr.
  set (q := m / 2 ^ k) in *. set (r := m mod 2 ^ k) in *.
  set (h := 2 ^ (k - 1)) in *. rewrite HD in *.
  destruct (Z.ltb_spec r h) as [H1|H1].
  - split; [lia|]. intros E. exfalso. lia.
  - destruct (Z.ltb_spec h r) as [H2|H2].
    + split; [lia|]. intros E. exfalso. lia.
    + assert (r = h) by lia. destruct (Z.even q) eqn:Ev.
      * split; [lia|]. intros _. exact Ev.
      * split; [lia|]. intros _. rewrite Z.even_add, Ev. reflexivity.
Qed.

(** [round] gives an integer nearest to the exact value of its argument,
    the even one on a tie. *)
Lemma round_nearest (x : spec_float) (n : Z) :
  Float.round x = Ok n -> nearest_even (numerator x) (denominator x) n.
Proof.
  destruct x as [s|s| |s m e]; simpl; try discriminate.
  - intros [= <-]. split; simpl; [lia|]. intros E. discriminate E.
  - intros [= <-]. destruct (Z.leb_spec 0 e) as [He|He].
    + rewrite (Z.max_r 0 e) by lia. rewrite (Z.max_l 0 (- e)) by lia.
      change (2 ^ 0) with 1. unfold nearest_even.
      assert (E : (if s then - (Z.pos m * 2 ^ e) else Z.pos m * 2 ^ e) * 1
                  - (if s then - Z.pos m else Z.pos m) * 2 ^ e = 0)
        by (destruct s; lia).
      rewrite E. simpl. split; [lia|]. intros C. discriminate C.
    + rewrite (Z.max_l 0 e) by lia. rewrite (Z.max_r 0 (- e)) by lia.
      change (2 ^ 0) with 1.
      destruct (div_pow2_half_even_nearest (Z.pos m) (- e)) as [H1 H2];
        [lia|lia|].
      set (n := Float.div_pow2_half_even (Z.pos m) (- e)) in *.
      set (D := 2 ^ (- e)) in *. unfold nearest_even.
      destruct s.
      * replace (- n * D - - Z.pos m * 1) with (- (n * D - Z.pos m)) by lia.
        rewrite Z.abs_opp, Z.even_opp. auto.
      * replace (n * D - Z.pos m * 1) with (n * D - Z.pos m) by lia. auto.
Qed.

(** *** Rounding to the nearest half is exact *)

Lemma denominator_pos (x : spec_float) : 0 < denominator x.
Proof.
  destruct x as [| | |s m e]; simpl; try lia; apply Z.pow_pos_nonneg; lia.
Qed.

(** [nearest_even] depends on the fraction only. *)
Lemma nearest_even_scale (a d a' d' n : Z) :
  0 < d -> 0 < d' -> a' * d = a * d' ->
  nearest_even a d n -> nearest_even a' d' n.
Proof.
  intros Hd Hd' Heq [H1 H2].
  assert (E : Z.abs (n * d' - a') * d = Z.abs (n * d - a) * d').
  { rewrite <- (Z.abs_eq d) at 1 by lia. rewrite <- (Z.abs_eq d') at 2 by lia.
    rewrite <- !Z.abs_mul. f_equal. lia. }
  split.
  - apply (Z.mul_le_mono_pos_r _ _ d); [lia|]. nia.
  - intros Htie. apply H2. apply (Z.mul_cancel_r _ _ d'); [lia|]. nia.
Qed.

Lemma signed_eq (s : bool) (p : positive) :
  (if s then - Z.pos p else Z.pos p) = signed s p.
Proof. now destruct s. Qed.

Lemma div_pow2_half_even_bounds (m k : Z) :
  0 <= m -> 1 <= k -> m < 2 ^ 53 ->
  0 <= Float.div_pow2_half_even m k <= 2 ^ 52.
Proof.
  intros Hm Hk Hlt. unfold Float.div_pow2_half_even.
  assert (HD : 2 ^ k = 2 * 2 ^ (k - 1)).
  { rewrite <- Z.pow_succ_r by lia. f_equal. lia. }
  assert (Hh : 0 < 2 ^ (k - 1)) by (apply Z.pow_pos_nonneg; lia).
  pose proof (Z.div_mod m (2 ^ k) ltac:(lia)) as Hdm.
  pose proof (Z.mod_pos_bound m (2 ^ k) ltac:(lia)) as Hr.
  assert (Hq : 0 <= m / 2 ^ k) by (apply Z.div_pos; lia).
  set (q := m / 2 ^ k) in *. set (r := m mod 2 ^ k) in *.
  set (h := 2 ^ (k - 1)) in *.
  assert (Hq2 : 2 * q <= m) by nia.
  change (2 ^ 53) with (2 * 2 ^ 52) in Hlt.
  destruct (r <? h); [lia|]. destruct (h <? r); [lia|].
  destruct (Z.even q); lia.
Qed.

Lemma valid_intro (s : bool) (m : positive) (e : Z) :
  e <= 971 ->
  (Z.pos (digits2_pos m) = 53 /\ -1074 <= e) \/
  (Z.pos (digits2_pos m) < 53 /\ e = -1074) ->
  valid (S754_finite s m e) = true.
Proof.
  intros Hmax Hcases.
  unfold valid, valid_binary, bounded, canonical_mantissa.
  rewrite andb_true_iff, Z.eqb_eq, Z.leb_le, fexp_eq.
  change (emax - prec) with 971. lia.
Qed.

(** Doubling a float of the format gives an infinity, or a float of the
    format with twice the value. *)
Lemma doubled_value (s : bool) (m : positive) (e : Z) :
  valid (S754_finite s m e) = true ->
  let y := Float.mul (S754_finite s m e) Float.two in
  y = S754_infinity s \/
  (valid y = true /\ Float.is_nan y = false /\
   numerator y * denominator (S754_finite s m e)
   = 2 * numerator (S754_finite s m e) * denominator y /\
   exists m' e', y = S754_finite s m' e').
Proof.
  intros Hv y. unfold y. rewrite (mul_two_exact s m e Hv).
  apply valid_finite in Hv as [Hmax Hcases].
  destruct (Z.eqb_spec (Z.pos (digits2_pos m)) 53) as [Hd|Hd].
  - destruct (Z.leb_spec (e + 1) 971) as [Hle|Hgt]; [right|now left].
    split; [apply valid_intro; lia|]. split; [reflexivity|].
    split; [|eauto]. simpl numerator. simpl denominator.
    destruct (Z.le_gt_cases 0 e) as [He|He].
    + rewrite (Z.max_r 0 (e + 1)), (Z.max_r 0 e) by lia.
      rewrite (Z.max_l 0 (- e)), (Z.max_l 0 (- (e + 1))) by lia.
      rewrite Z.pow_add_r by lia. change (2 ^ 0) with 1. change (2 ^ 1) with 2.
      lia.
    + rewrite (Z.max_l 0 e) by lia. rewrite (Z.max_r 0 (- e)) by lia.
      replace (- e) with (Z.succ (- (e + 1))) by lia.
      rewrite Z.pow_succ_r by lia.
      destruct (Z.eq_dec e (-1)) as [->|Hne].
      * change (-1 + 1) with 0. change (- 0) with 0.
        change (Z.max 0 0) with 0. change (2 ^ 0) with 1. lia.
      * rewrite (Z.max_l 0 (e + 1)) by lia.
        rewrite (Z.max_r 0 (- (e + 1))) by lia. lia.
  - right. split; [apply valid_intro; [lia|]|].
    { change (digits2_pos m~0) with (Pos.succ (digits2_pos m)).
      rewrite Pos2Z.inj_succ. lia. }
    split; [reflexivity|]. split; [|eauto].
    simpl numerator. simpl denominator. rewrite (Pos2Z.inj_xO m).
    destruct s; lia.
Qed.

(** Converting the rounded integer back and halving it are exact. *)
Lemma halve_rounded (x : spec_float) (n : Z) :
  valid x = true -> Float.round x = Ok n ->
  exists f, Float.of_int n = Ok f /\
    2 * numerator (Float.div f Float.two)
    = n * denominator (Float.div f Float.two).
Proof.
  intros Hv Hround.
  assert (Hzero : exists f, Float.of_int 0 = Ok f /\
            2 * numerator (Float.div f Float.two)
            = 0 * denominator (Float.div f Float.two)).
  { exists Float.zero. split; reflexivity. }
  destruct x as [s|s| |s m e]; simpl in Hround; try discriminate.
  { injection Hround as <-. exact Hzero. }
  injection Hround as <-.
  apply valid_finite in Hv as [Hmax Hcases].
  destruct (Z.leb_spec 0 e) as [He|He].
  - assert (Hd : Z.pos (digits2_pos m) = 53) by lia.
    assert (Hpos : 0 < Z.pos m * 2 ^ e).
    { apply Z.mul_pos_pos; [lia|]. apply Z.pow_pos_nonneg; lia. }
    destruct (Z.pos m * 2 ^ e) as [|M|M] eqn:EM; try lia.
    rewrite signed_eq. exists (S754_finite s m e).
    assert (Hof : Float.of_Z (signed s M) = S754_finite s m e).
    { apply of_Z_shifted; [exact Hd|lia|now rewrite EM]. }
    split; [unfold Float.of_int; now rewrite Hof|].
    rewrite (div_two_exact s m e Hd) by lia.
    simpl numerator. simpl denominator.
    destruct (Z.eq_dec e 0) as [->|Hne].
    + rewrite Z.pow_0_r, Z.mul_1_r in EM. injection EM as <-.
      change (Z.max 0 (0 - 1)) with 0. change (Z.max 0 (- (0 - 1))) with 1.
      change (2 ^ 0) with 1. change (2 ^ 1) with 2.
      destruct s; simpl signed; lia.
    + rewrite (Z.max_r 0 (e - 1)) by lia.
      rewrite (Z.max_l 0 (- (e - 1))) by lia. change (2 ^ 0) with 1.
      assert (HE : 2 ^ e = 2 * 2 ^ (e - 1)).
      { rewrite <- Z.pow_succ_r by lia. f_equal. lia. }
      rewrite HE in EM. destruct s; simpl signed; lia.
  - assert (Hm : Z.pos m < 2 ^ 53).
    { destruct (digits_bounds m) as [_ Hup].
      eapply Z.lt_le_trans; [exact Hup|]. apply Z.pow_le_mono_r; lia. }
    pose proof (div_pow2_half_even_bounds (Z.pos m) (- e) ltac:(lia)
                  ltac:(lia) Hm) as Hr.
    destruct (Float.div_pow2_half_even (Z.pos m) (- e)) as [|rp|rp] eqn:Er;
      try lia.
    { destruct s; exact Hzero. }
    rewrite signed_eq.
    assert (Hdr : Z.pos (digits2_pos rp) <= 53).
    { apply digits_le. change (2 ^ 53) with (2 * 2 ^ 52). lia. }
    destruct (of_Z_small s rp Hdr) as (mf & Hof & Hdf & Hmf).
    exists (S754_finite s mf (Z.pos (digits2_pos rp) - 53)).
    split; [unfold Float.of_int; now rewrite Hof|].
    rewrite (div_two_exact s mf _ Hdf) by lia.
    simpl numerator. simpl denominator.
    set (dr := Z.pos (digits2_pos rp)) in *.
    rewrite (Z.max_l 0 (dr - 53 - 1)) by lia.
    rewrite (Z.max_r 0 (- (dr - 53 - 1))) by lia.
    replace (- (dr - 53 - 1)) with (Z.succ (53 - dr)) by lia.
    rewrite Z.pow_succ_r by lia. change (2 ^ 0) with 1.
    destruct s; simpl signed; lia.
Qed.

(** [round(tot * 2.0) / 2.0] is a multiple of 0.5 nearest to [tot]:
    twice the result is an integer nearest to twice [tot], the even one
    on a tie. *)
Lemma round_to_half_nearest (raw total : spec_float) :
  valid raw = true -> round_to_half raw = Ok total -> nearest_half raw total.
Proof.
  intros Hv Hhalf. unfold round_to_half in Hhalf.
  destruct (Float.round (Float.mul raw Float.two)) as [n|] eqn:Hround;
    [|discriminate]. simpl in Hhalf.
  assert (Hdoubled : valid (Float.mul raw Float.two) = true /\
            numerator (Float.mul raw Float.two) * denominator raw
            = 2 * numerator raw * denominator (Float.mul raw Float.two)).
  { destruct raw as [s|s| |s m e]; try (split; reflexivity).
    destruct (doubled_value s m e Hv) as [Hinf|(Hv' & _ & Hval & _)].
    - rewrite Hinf in Hround. discriminate.
    - auto. }
  destruct Hdoubled as [Hv' Hval].
  destruct (halve_rounded _ n Hv' Hround) as (f & Hf & Htotal).
  rewrite Hf in Hhalf. simpl in Hhalf. injection Hhalf as <-.
  exists n. split; [|exact Htotal].
  apply (nearest_even_scale (numerator (Float.mul raw Float.two))
           (denominator (Float.mul raw Float.two))).
  - apply denominator_pos.
  - apply denominator_pos.
  - lia.
  - now apply round_nearest.
Qed.

Lemma addend_Some (x : spec_float) : addend (Some x) = Ok x.
Proof. reflexivity. Qed.

End ScoringFacts.

(** ** Facts about the import *)

Module CsvImportFacts.

Import Schema Py Http CsvImport CsvStudents.

Lemma set_results_twice d r t r' t' :
  set_results (set_results d r t) r' t' = set_results d r' t'.
Proof. reflexivity. Qed.

Lemma set_results_same d :
  set_results d (performance_results d) (performance_task_results d) = d.
Proof. now destruct d. Qed.

Lemma bind_real_Some x :
  Float.is_nan x = false -> bind_real x = Some x.
Proof. unfold bind_real. now intros ->. Qed.

Lemma bind_real_None x : Float.is_nan x = true -> bind_real x = None.
Proof. unfold bind_real. now intros ->. Qed.

(** The task results of one student: all inserted, or [IntegrityError] at
    the first NaN. *)
Lemma insert_values_spec (values : list string) :
  forall d perf_id student_id i,
    if forallb (fun x => negb (Float.is_nan x)) (map float_or_zero values) then
      exists new_t,
        insert_values d perf_id student_id i values
        = Ok (set_results d (performance_results d)
                (performance_task_results d ++ new_t)) /\
        Forall2 (is_task_row perf_id)
          (cells_from student_id i (map float_or_zero values)) new_t
    else insert_values d perf_id student_id i values = Raise IntegrityError.
Proof.
  induction values as [|val rest IH]; intros d perf_id student_id i; simpl.
  - exists []. rewrite app_nil_r, set_results_same. split; [reflexivity|].
    constructor.
  - unfold insert_task_result.
    destruct (Float.is_nan (float_or_zero val)) eqn:Hnan; simpl.
    + now rewrite (bind_real_None _ Hnan).
    + rewrite (bind_real_Some _ Hnan). simpl.
      match goal with
      | |- context [insert_values ?d1 _ _ _ rest] =>
          specialize (IH d1 perf_id student_id (i + 1))
      end.
      destruct (forallb _ (map float_or_zero rest)).
      * destruct IH as (new_t & -> & Hrows). simpl.
        eexists (_ :: new_t). rewrite <- app_assoc. simpl.
        split; [reflexivity|]. constructor; [|exact Hrows].
        simpl. auto.
      * exact IH.
Qed.

(** The block of one student. *)
Lemma insert_line_spec d perf_id (parts : list string) (task_count : nat)
    (student_id : Z) :
  let st := {| st_id := student_id;
               st_op := extra_points parts (3 + task_count);
               st_zp := extra_points parts (3 + task_count + 1);
               st_points := map float_or_zero (task_fields task_count parts) |} in
  if insertable st then
    exists new_r new_t,
      insert_line d perf_id student_id (st_op st) (st_zp st)
        (task_fields task_count parts)
      = Ok (set_results d (performance_results d ++ [new_r])
              (performance_task_results d ++ new_t)) /\
      is_result_row perf_id st new_r /\
      Forall2 (is_task_row perf_id)
        (cells_from student_id 1 (st_points st)) new_t
  else
    insert_line d perf_id student_id (st_op st) (st_zp st)
      (task_fields task_count parts)
    = Raise (failure_of st).
Proof.
  intros st. unfold insertable, failure_of, insert_line, insert_result.
  simpl st_id. simpl st_points. simpl st_op. simpl st_zp.
  destruct (in_int64 student_id); simpl; [|reflexivity].
  match goal with
  | |- context [insert_values ?d1 _ _ _ ?vs] =>
      pose proof (insert_values_spec vs d1 perf_id student_id 1) as H
  end.
  destruct (forallb _ _).
  - destruct H as (new_t & -> & Hrows). simpl.
    eexists _, new_t. split; [reflexivity|]. split; [|exact Hrows].
    repeat split.
  - exact H.
Qed.

(** The loop over the lines, in terms of the students of the lines. *)
Lemma import_lines_spec perf_id task_count (lines : list string) :
  forall d imported_rows,
    exists new_r new_t,
      import_lines d perf_id task_count lines imported_rows
      = (set_results d (performance_results d ++ new_r)
           (performance_task_results d ++ new_t),
         imported_rows
         + Z.of_nat (length (committed (students task_count lines))),
         first_failure (students task_count lines)) /\
      Forall2 (is_result_row perf_id)
        (committed (students task_count lines)) new_r /\
      Forall2 (is_task_row perf_id)
        (task_cells (committed (students task_count lines))) new_t.
Proof.
  induction lines as [|line rest IH]; intros d n.
  - exists [], []. simpl. rewrite !app_nil_r, set_results_same, Z.add_0_r.
    repeat split; constructor.
  - cbn [import_lines students]. unfold student_of_line.
    destruct (length (fields line) <? 3)%nat; [apply IH|].
    destruct (Py.int (nth 0 (fields line) "")) as [student_id|]; [|apply IH].
    pose proof (insert_line_spec d perf_id (fields line) task_count student_id)
      as Hline. cbv zeta in Hline.
    match type of Hline with
    | if insertable ?s then _ else _ => set (st := s) in *
    end.
    cbn [committed first_failure].
    destruct (insertable st) eqn:Hok.
    + destruct Hline as (r1 & t1 & Hins & Hr1 & Ht1).
      unfold st in Hins at 1 2. cbn [st_op st_zp] in Hins. rewrite Hins.
      cbn [with_conn].
      destruct (IH (set_results d (performance_results d ++ [r1])
                      (performance_task_results d ++ t1)) (n + 1))
        as (new_r & new_t & -> & Hr & Ht).
      exists (r1 :: new_r), (t1 ++ new_t). simpl.
      rewrite <- !app_assoc. simpl. split; [|split].
      * f_equal. f_equal. lia.
      * constructor; assumption.
      * unfold task_cells. simpl. apply Forall2_app; assumption.
    + unfold st in Hline at 1 2. cbn [st_op st_zp] in Hline. rewrite Hline.
      cbn [with_conn]. exists [], []. simpl.
      rewrite !app_nil_r, set_results_same, Z.add_0_r.
      repeat split; constructor.
Qed.

Lemma first_failure_None studs :
  first_failure studs = None <-> forallb insertable studs = true.
Proof.
  induction studs as [|st rest IH]; simpl; [tauto|].
  destruct (insertable st); simpl; [exact IH|]. split; discriminate.
Qed.

Lemma committed_all studs :
  forallb insertable studs = true -> committed studs = studs.
Proof.
  induction studs as [|st rest IH]; simpl; [reflexivity|].
  destruct (insertable st); simpl; [|discriminate].
  intros H. now rewrite IH.
Qed.

End CsvImportFacts.

(** ** Timetable resolution: the precedence rules *)

Module ResolutionClaims.

Import Schema Resolution ResolutionFacts PassFacts WeekFacts.

(** C1.  For every day of the displayed week (date [D], weekday [W]) and
    every period [P] of the schedule pattern, the entry stored for [P] is the
    first match of four rules: (1) a row with date [D] and period [P];
    (2) otherwise a row of greatest date among the rows dated strictly
    before [D] with weekday [W] and period [P]; (3) otherwise a template row
    (no date) with weekday [W] and period [P]; (4) otherwise the row the
    immediately preceding period of the pattern resolved to, if that row is
    a double period whose weekday is [W]; and there is no entry when no rule
    gives a row. *)
Theorem resolution_precedence (tt : list timetable_row) (w : week)
    (i : nat) (P : Z) :
  (i < 5)%nat -> In P period_list ->
  let D := day_date w i in
  let W := day_name i in
  ((exists r, exact_row tt D P r) ->
   exists r, resolved tt w i P = Some r /\ exact_row tt D P r) /\
  ((forall r, ~ exact_row tt D P r) -> (exists r, past_row tt D W P r) ->
   exists r, resolved tt w i P = Some r /\ latest_past_row tt D W P r) /\
  ((forall r, ~ exact_row tt D P r) -> (forall r, ~ past_row tt D W P r) ->
   (exists r, template_row tt W P r) ->
   exists r, resolved tt w i P = Some r /\ template_row tt W P r) /\
  ((forall r, ~ exact_row tt D P r) -> (forall r, ~ past_row tt D W P r) ->
   (forall r, ~ template_row tt W P r) ->
   (forall Q r, precedes Q P -> resolved tt w i Q = Some r ->
      t_is_double r <> 0 -> t_day r = W -> resolved tt w i P = Some r) /\
   (first_period P \/
    (exists Q, precedes Q P /\
       (resolved tt w i Q = None \/
        exists r, resolved tt w i Q = Some r /\
                  (t_is_double r = 0 \/ t_day r <> W))) ->
    resolved tt w i P = None)).
Proof.
  intros Hi HP D W.
  assert (Hown : forall r, select_own tt D W P = Some r ->
                           resolved tt w i P = Some r).
  { intros r Hr. now apply resolved_own. }
  split; [|split; [|split]].
  - intros [r0 Hr0]. destruct (select_exact_is_Some _ _ _ _ Hr0) as [r Hr].
    exists r. split; [|now apply select_exact_Some].
    apply Hown. unfold select_own. now rewrite Hr.
  - intros Hno1 [r0 Hr0]. destruct (select_past_is_Some _ _ _ _ _ Hr0) as [r Hr].
    exists r. split; [|now apply select_past_Some].
    apply Hown. unfold select_own.
    rewrite (select_exact_none _ _ _ Hno1). now rewrite Hr.
  - intros Hno1 Hno2 [r0 Hr0].
    destruct (select_template_is_Some _ _ _ _ Hr0) as [r Hr].
    exists r. split; [|now apply select_template_Some].
    apply Hown. unfold select_own.
    now rewrite (select_exact_none _ _ _ Hno1), (select_past_none _ _ _ _ Hno2).
  - intros Hno1 Hno2 Hno3.
    pose proof (select_own_none _ _ _ _ Hno1 Hno2 Hno3) as Hnone.
    split.
    + intros Q r HQ Hr Hdouble Hday.
      rewrite (resolved_step tt w i Q P Hi HQ). fold D W.
      rewrite Hnone, Hr.
      now rewrite (proj2 (inherit_test r W) (conj Hdouble Hday)).
    + intros [Hf|(Q & HQ & Hprev)].
      * rewrite resolved_first; auto.
      * rewrite (resolved_step tt w i Q P Hi HQ). fold D W. rewrite Hnone.
        destruct Hprev as [->|(r & -> & Hr)]; [reflexivity|].
        destruct (truthy (t_is_double r) && String.eqb (t_day r) W) eqn:E;
          [|reflexivity].
        apply inherit_test in E as [E1 E2]. destruct Hr; contradiction.
Qed.

Lemma resolution_precedence_witness :
  (0 < 5)%nat /\ In 1 period_list /\
  exists r,
    resolved Sample.with_overrides Sample.week_of_2024_09_02 0 1 = Some r /\
    exact_row Sample.with_overrides "2024-09-02" 1 r.
Proof.
  assert (H5 : (0 < 5)%nat) by lia.
  assert (HP : In 1 period_list) by (simpl; auto).
  split; [exact H5|split; [exact HP|]].
  apply (resolution_precedence Sample.with_overrides
           Sample.week_of_2024_09_02 0 1 H5 HP).
  exists Sample.mon1_sep02. repeat split. simpl. auto 10.
Defined.

(** C7.  An override row [r0] dated [D0], earlier than the resolved date
    [D1], with the weekday and period being resolved, is carried forward:
    when no row is dated [D1] at that period and no row of that weekday and
    period is dated strictly between [D0] and [D1], resolving [D1] gives a
    row dated [D0] of that weekday and period, which is [r0] itself when
    [r0] is the only such row.  The exact-date query does not look at the
    weekday column, so "no row at [D1]" is meant for the period, whatever
    the weekday the row carries. *)
Theorem past_override_carries_forward (tt : list timetable_row) (w : week)
    (i : nat) (P : Z) (r0 : timetable_row) (D0 : string) :
  (i < 5)%nat -> In P period_list ->
  let D1 := day_date w i in
  let W := day_name i in
  In r0 tt -> t_date r0 = Some D0 -> Text.lt D0 D1 ->
  t_day r0 = W -> t_period r0 = P ->
  (forall r, In r tt -> t_period r = P -> t_date r <> Some D1) ->
  (forall r d, In r tt -> t_day r = W -> t_period r = P ->
     t_date r = Some d -> ~ (Text.lt D0 d /\ Text.lt d D1)) ->
  exists r,
    resolved tt w i P = Some r /\ In r tt /\ t_date r = Some D0 /\
    t_day r = W /\ t_period r = P /\
    ((forall r', In r' tt -> t_date r' = Some D0 -> t_day r' = W ->
        t_period r' = P -> r' = r0) -> r = r0).
Proof.
  intros Hi HP D1 W Hin Hd0 Hlt Hday Hper Hno1 Hbetween.
  assert (Hpast0 : past_row tt D1 W P r0).
  { split; [assumption|]. split; [eauto|]. auto. }
  destruct (select_past_is_Some _ _ _ _ _ Hpast0) as [r Hr].
  pose proof (select_past_Some _ _ _ _ _ Hr)
    as [(Hrin & (d & Hd & Hdlt) & Hrday & Hrper) Hmax].
  assert (Hdd : d = D0).
  { pose proof (Hmax r0 d D0 Hpast0 Hd Hd0) as Hle.
    apply TextFacts.le_lteq in Hle as [Hl|Heq]; [|now symmetry].
    exfalso. apply (Hbetween r d Hrin Hrday Hrper Hd). auto. }
  subst d. exists r. split.
  - apply resolved_own; auto. unfold select_own.
    rewrite select_exact_none; [now fold D1 W; rewrite Hr|].
    intros x (Hx & Hxd & Hxp). now apply (Hno1 x Hx Hxp).
  - repeat split; auto.
Qed.

Lemma past_override_carries_forward_witness :
  exists r,
    resolved Sample.with_overrides Sample.week_of_2024_09_02 0 3 = Some r /\
    In r Sample.with_overrides /\ t_date r = Some "2024-08-19" /\
    t_day r = "Montag" /\ t_period r = 3 /\
    ((forall r', In r' Sample.with_overrides ->
        t_date r' = Some "2024-08-19" -> t_day r' = "Montag" ->
        t_period r' = 3 -> r' = Sample.mon3_aug19) -> r = Sample.mon3_aug19).
Proof.
  apply (past_override_carries_forward Sample.with_overrides
           Sample.week_of_2024_09_02 0 3 Sample.mon3_aug19 "2024-08-19").
  - lia.
  - simpl. auto.
  - simpl. auto 10.
  - reflexivity.
  - reflexivity.
  - reflexivity.
  - reflexivity.
  - intros r Hr Hp Hd. simpl in Hr.
    repeat (destruct Hr as [<-|Hr]; [vm_compute in Hp, Hd; congruence|]).
    destruct Hr.
  - intros r d Hr _ Hp Hd [H1 H2]. simpl in Hr.
    repeat (destruct Hr as [<-|Hr];
            [vm_compute in Hp, Hd; try congruence;
             injection Hd as <-; vm_compute in H1, H2; congruence|]).
    destruct Hr.
Defined.

(** The exact-date query returns a row dated [D1] at the period whatever
    weekday it carries: a row labelled "Montag" but dated on the Tuesday of
    the week is shown on Tuesday. *)
Example exact_date_ignores_weekday :
  let stray := Sample.override 9 "Montag" "2024-09-03" 5 0 1 1 "212" "moved" in
  resolved (Sample.templates ++ [stray]) Sample.week_of_2024_09_02 1 5
  = Some stray.
Proof. vm_compute. reflexivity. Qed.

(** C8, as the claim states it, fails: on Tuesday the double period at
    period 5 is a row of that weekday, yet period 6 has a row of its own and
    resolves to it, not to the row of period 5. *)
Lemma following_period_iff_fails :
  ~ (resolved Sample.templates Sample.week_of_2024_09_02 1 6
     = resolved Sample.templates Sample.week_of_2024_09_02 1 5
     <-> exists r,
           resolved Sample.templates Sample.week_of_2024_09_02 1 5 = Some r /\
           t_is_double r <> 0 /\ t_day r = day_name 1).
Proof.
  intros [_ H].
  assert (E : resolved Sample.templates Sample.week_of_2024_09_02 1 6
              = resolved Sample.templates Sample.week_of_2024_09_02 1 5).
  { apply H. exists Sample.tue5. repeat split. simpl. lia. }
  vm_compute in E. discriminate E.
Qed.

(** C8, amended.  Let [Q] be a period of the pattern and [P] the period
    that follows it.  If [Q] resolved to a row [r], then [P] resolves to the
    same row exactly when [P] has no row of its own (rules 1 to 3) and [r]
    is a double period whose weekday is the day's; in every other case [P]
    resolves to its own row, or to nothing if it has none. *)
Theorem following_period_inherits (tt : list timetable_row) (w : week)
    (i : nat) (Q P : Z) :
  (i < 5)%nat -> precedes Q P ->
  let D := day_date w i in
  let W := day_name i in
  (forall r, resolved tt w i Q = Some r ->
     (resolved tt w i P = Some r <->
      select_own tt D W P = None /\ t_is_double r <> 0 /\ t_day r = W)) /\
  (select_own tt D W P <> None \/
   ~ (exists r, resolved tt w i Q = Some r /\ t_is_double r <> 0 /\ t_day r = W) ->
   resolved tt w i P = select_own tt D W P).
Proof.
  intros Hi HQ D W.
  pose proof (resolved_step tt w i Q P Hi HQ) as Hstep. fold D W in Hstep.
  split.
  - intros r Hr. rewrite Hstep, Hr. split.
    + destruct (select_own tt D W P) as [r'|] eqn:E.
      * intros [= ->]. exfalso.
        apply (resolved_period_before tt w i Q P r Hi HQ Hr).
        eapply select_own_period; eauto.
      * destruct (truthy (t_is_double r) && String.eqb (t_day r) W) eqn:T;
          [|discriminate].
        apply inherit_test in T. auto.
    + intros (-> & Hd & Hw).
      now rewrite (proj2 (inherit_test r W) (conj Hd Hw)).
  - intros Hcase. rewrite Hstep.
    destruct (select_own tt D W P) as [r'|]; [reflexivity|].
    destruct Hcase as [Hc|Hc]; [congruence|].
    destruct (resolved tt w i Q) as [r|]; [|reflexivity].
    destruct (truthy (t_is_double r) && String.eqb (t_day r) W) eqn:T;
      [|reflexivity].
    apply inherit_test in T. exfalso. apply Hc. eauto.
Qed.

Lemma following_period_inherits_witness :
  (1 < 5)%nat /\ precedes 5 6 /\
  resolved Sample.templates Sample.week_of_2024_09_02 1 6
  = select_own Sample.templates "2024-09-03" "Dienstag" 6.
Proof.
  assert (H5 : (1 < 5)%nat) by lia.
  assert (HQ : precedes 5 6) by (exists [1; 2; 3; 4], [8; 9]; reflexivity).
  split; [exact H5|split; [exact HQ|]].
  apply (following_period_inherits Sample.templates
           Sample.week_of_2024_09_02 1 5 6 H5 HQ).
  left. vm_compute. discriminate.
Defined.

(** C10, as the claim states it, fails: on Monday period 1 resolves to a
    double period and period 4 has no row of its own, yet period 4 stays
    empty, because period 3 in between has a row of its own that is not a
    double period. *)
Lemma double_period_every_later_period_fails :
  ~ (forall r,
       resolved Sample.templates Sample.week_of_2024_09_02 0 1 = Some r ->
       t_is_double r <> 0 ->
       select_own Sample.templates "2024-09-02" "Montag" 4 = None ->
       resolved Sample.templates Sample.week_of_2024_09_02 0 4 = Some r).
Proof.
  intros H.
  assert (E : resolved Sample.templates Sample.week_of_2024_09_02 0 4
              = Some Sample.mon1).
  { apply H; [reflexivity|simpl; lia|reflexivity]. }
  vm_compute in E. discriminate E.
Qed.

(** C10, amended.  A row [r] that period [Q] resolved to, with
    [is_double] set and the weekday of the day, is the entry of every
    following period of the pattern up to the next period that has a row of
    its own: of all the periods [m] that follow [Q] consecutively in the
    pattern and have no row of their own.  The pattern's order counts, not
    the period numbers: 8 follows 6. *)
Theorem double_period_chain (tt : list timetable_row) (w : week) (i : nat)
    (l : list Z) (Q : Z) (m l' : list Z) (r : timetable_row) :
  (i < 5)%nat -> period_list = l ++ Q :: m ++ l' ->
  resolved tt w i Q = Some r -> t_is_double r <> 0 -> t_day r = day_name i ->
  (forall P, In P m -> select_own tt (day_date w i) (day_name i) P = None) ->
  forall P, In P m -> resolved tt w i P = Some r.
Proof.
  intros Hi Hps HrQ Hd Hw. revert l Q Hps HrQ.
  induction m as [|P1 m IH]; intros l Q Hps HrQ Hnone P HP; [destruct HP|].
  assert (HP1 : resolved tt w i P1 = Some r).
  { rewrite (resolved_step tt w i Q P1 Hi).
    - rewrite Hnone by now left. rewrite HrQ.
      now rewrite (proj2 (inherit_test r _) (conj Hd Hw)).
    - exists l, (m ++ l'). exact Hps. }
  destruct HP as [<-|HP]; [exact HP1|].
  apply (IH (l ++ [Q]) P1); auto.
  - rewrite Hps, <- app_assoc. reflexivity.
  - intros P' HP'. apply Hnone. now right.
Qed.

Lemma double_period_chain_witness :
  resolved Sample.templates Sample.week_of_2024_09_02 0 6 = Some Sample.mon5 /\
  resolved Sample.templates Sample.week_of_2024_09_02 0 8 = Some Sample.mon5 /\
  resolved Sample.templates Sample.week_of_2024_09_02 0 9 = Some Sample.mon5.
Proof.
  assert (H : forall P, In P [6; 8; 9] ->
            resolved Sample.templates Sample.week_of_2024_09_02 0 P
            = Some Sample.mon5).
  { apply (double_period_chain Sample.templates Sample.week_of_2024_09_02 0
             [1; 2; 3; 4] 5 [6; 8; 9] [] Sample.mon5).
    - lia.
    - reflexivity.
    - reflexivity.
    - simpl. lia.
    - reflexivity.
    - intros P HP. simpl in HP.
      repeat (destruct HP as [<-|HP]; [reflexivity|]). destruct HP. }
  repeat split; apply H; simpl; auto.
Defined.

End ResolutionClaims.

(** ** Lesson status overrides: the claims *)

Module LifecycleClaims.

Import Schema Http Lifecycle ResolutionFacts LifecycleFacts.

Lemma NoDup_map_inj {A B : Type} (f : A -> B) (l : list A) (x y : A) :
  List.NoDup (map f l) -> In x l -> In y l -> f x = f y -> x = y.
Proof.
  induction l as [|a l IH]; simpl; [tauto|].
  intros Hnd Hx Hy E. inversion Hnd as [|? ? Hnot Hnd']. subst.
  destruct Hx as [->|Hx], Hy as [->|Hy]; auto.
  - exfalso. apply Hnot. rewrite E. now apply in_map.
  - exfalso. apply Hnot. rewrite <- E. now apply in_map.
Qed.

Lemma select_by_id_In conv tt id T :
  select_by_id conv tt id = Some T ->
  In T tt /\ conv id = Some (t_id T).
Proof.
  unfold select_by_id. destruct (conv id) as [z|]; [|discriminate].
  intros H. apply head_filter_Some in H as [Hin Hz].
  apply Z.eqb_eq in Hz. subst z. auto.
Qed.

Section FindOrCreate.

Variable conv : string -> option Z.
Variable tt : list timetable_row.
Variables date timetable_id status : string.
Variable T : timetable_row.

Hypothesis Hnd : List.NoDup (map t_id tt).
Hypothesis HT : select_by_id conv tt timetable_id = Some T.
Hypothesis Htemplate : t_date T = None.

(** The table after the find-or-create step. *)
Definition after : list timetable_row :=
  match select_override tt date T with
  | Some existing_override => update_status tt (t_id existing_override) status
  | None => insert_override tt T date status
  end.

Lemma found_not_template r :
  select_override tt date T = Some r -> t_id T <> t_id r.
Proof.
  intros Hr E. apply head_filter_Some in Hr as [Hin Hm].
  apply override_matches_iff in Hm as [Hd _].
  destruct (select_by_id_In _ _ _ _ HT) as [HTin _].
  assert (T = r) by (eapply NoDup_map_inj; eauto). subst r. congruence.
Qed.

Lemma after_templates :
  List.filter (fun t => is_null (t_date t)) after
  = List.filter (fun t => is_null (t_date t)) tt.
Proof.
  unfold after. destruct (select_override tt date T) as [r|] eqn:Hr.
  - rewrite filter_update_status by reflexivity.
    apply update_status_absent. intros Hid.
    apply in_map_iff in Hid as (x & Hx & Hin).
    apply filter_In in Hin as [Hin Hnull].
    apply head_filter_Some in Hr as [Hrin Hm].
    apply override_matches_iff in Hm as [Hd _].
    assert (x = r) by (eapply NoDup_map_inj; eauto). subst x.
    rewrite Hd in Hnull. discriminate.
  - unfold insert_override. rewrite List.filter_app. simpl. apply app_nil_r.
Qed.

Lemma after_select_by_id : select_by_id conv after timetable_id = Some T.
Proof.
  pose proof HT as HT'. unfold select_by_id in HT' |- *.
  destruct (conv timetable_id) as [z|]; [|discriminate].
  unfold after. destruct (select_override tt date T) as [r|] eqn:Hr.
  - rewrite filter_update_status by reflexivity.
    unfold update_status. rewrite head_map, HT'. simpl.
    pose proof (found_not_template r Hr) as Hne.
    apply Z.eqb_neq in Hne. now rewrite Hne.
  - unfold insert_override. rewrite List.filter_app.
    destruct (List.filter (fun t => t_id t =? z) tt); [discriminate|].
    exact HT'.
Qed.

Lemma after_select_override :
  exists r', select_override after date T = Some r' /\
             update_status after (t_id r') status = after.
Proof.
  unfold after.
  destruct (select_override tt date T) as [r|] eqn:Hr;
    unfold select_override in Hr |- *.
  - exists (set_status r status). split.
    + rewrite filter_update_status by reflexivity.
      unfold update_status. rewrite head_map, Hr. simpl.
      now rewrite Z.eqb_refl.
    + apply update_status_twice.
  - exists (override_of (next_rowid t_id tt) T date status). split.
    + unfold insert_override. rewrite List.filter_app, (head_filter_nil _ _ Hr).
      simpl. now rewrite override_matches_override_of.
    + unfold insert_override, update_status. rewrite map_app. simpl.
      rewrite Z.eqb_refl. f_equal.
      apply (update_status_absent tt _ status), next_rowid_fresh.
Qed.

Lemma after_count :
  length (List.filter (override_matches date T) after)
  = Nat.max 1 (length (List.filter (override_matches date T) tt)).
Proof.
  unfold after.
  destruct (select_override tt date T) as [r|] eqn:Hr; unfold select_override in Hr.
  - rewrite filter_update_status by reflexivity.
    unfold update_status. rewrite length_map.
    destruct (List.filter (override_matches date T) tt); [discriminate|].
    simpl. lia.
  - unfold insert_override. rewrite List.filter_app, (head_filter_nil _ _ Hr).
    simpl. now rewrite override_matches_override_of.
Qed.

End FindOrCreate.



(** C4, as the claim states it, fails: the id of the template row of Monday,
    period 1, is answered with the redirect that also follows a deletion,
    not with a failure. *)
Lemma uncancel_template_not_rejected :
  ~ (forall T,
       select_by_id Py.int Sample.templates "1" = Some T -> t_date T = None ->
       rejected (_post_lesson_uncancel Py.int (Sample.school Sample.templates)
                   (Some "1"))).
Proof.
  intros H. destruct (H Sample.mon1 eq_refl eq_refl) as [Hr|(st & body & Hin & Hst)].
  - apply Hr. reflexivity.
  - simpl in Hin. destruct Hin as [Hin|[]]. discriminate Hin.
Qed.

(** C4, amended.  [_post_lesson_uncancel] deletes the rows that carry the
    submitted id and a date, and no other row: a template row is never
    deleted.  When the id is that of a template row the table is left as it
    is and the answer is the same redirect as after a deletion; no failure
    is reported. *)
Theorem uncancel_deletes_overrides_only (conv : string -> option Z) (d : db)
    (timetable_id : option string) :
  let out := _post_lesson_uncancel conv d timetable_id in
  let tt := timetable d in
  let tt' := timetable (db_after out) in
  (forall r, In r tt' -> In r tt) /\
  (forall r, In r tt -> t_date r = None -> In r tt') /\
  (forall r, In r tt -> ~ In r tt' ->
     t_date r <> None /\
     exists s, timetable_id = Some s /\ conv s = Some (t_id r)) /\
  (forall s r, timetable_id = Some s -> Py.nonempty s = true ->
     conv s = Some (t_id r) -> t_date r <> None -> ~ In r tt') /\
  (forall s, timetable_id = Some s -> Py.nonempty s = true ->
     (forall r, In r tt -> conv s = Some (t_id r) -> t_date r = None) ->
     tt' = tt /\
     sent out = [SeeOther "/?msg=Ausfall+wurde+rueckgaengig+gemacht."] /\
     raised out = None).
Proof.
  intros out tt tt'.
  assert (Hcases : tt' = tt \/
            exists s, timetable_id = Some s /\ Py.nonempty s = true /\
                      tt' = delete_override conv tt s).
  { unfold tt', out, _post_lesson_uncancel.
    destruct timetable_id as [s|]; [|now left].
    destruct (Py.nonempty s) eqn:E; [|now left]. right. eauto. }
  assert (Hmem : forall s r, In r (delete_override conv tt s) <->
            In r tt /\ ~ (conv s = Some (t_id r) /\ t_date r <> None)).
  { intros s r. unfold delete_override. destruct (conv s) as [z|].
    - rewrite filter_In, negb_true_iff, andb_false_iff, negb_false_iff.
      rewrite Z.eqb_neq. unfold is_null.
      destruct (t_date r) as [dt|]; split; intros [Hin Hc];
        (split; [exact Hin|]).
      + intros [[= E] _]. destruct Hc; [congruence|discriminate].
      + left. intros E. apply Hc. split; [congruence|discriminate].
      + intros [_ Hd]. congruence.
      + now right.
    - split; [intros Hin; split; [exact Hin|]|tauto].
      intros [Hc _]. discriminate. }
  split; [|split; [|split; [|split]]].
  - intros r Hr. destruct Hcases as [->|(s & _ & _ & ->)]; [exact Hr|].
    now apply Hmem in Hr.
  - intros r Hin Hd. destruct Hcases as [->|(s & _ & _ & ->)]; [exact Hin|].
    apply Hmem. split; [exact Hin|]. intros [_ Hn]. contradiction.
  - intros r Hin Hout. destruct Hcases as [E|(s & Hs & _ & E)];
      rewrite E in Hout; [contradiction|].
    rewrite Hmem in Hout.
    destruct (conv s) as [z|] eqn:Hz.
    + destruct (Z.eq_dec z (t_id r)) as [->|Hne].
      * destruct (t_date r) eqn:Hd.
        -- split; [discriminate|]. exists s. auto.
        -- exfalso. apply Hout. split; [exact Hin|]. intros [_ Hn]. congruence.
      * exfalso. apply Hout. split; [exact Hin|]. intros [Hc _]. congruence.
    + exfalso. apply Hout. split; [exact Hin|]. intros [Hc _]. discriminate.
  - intros s r Hs Hne Hc Hd Hin.
    assert (E : tt' = delete_override conv tt s).
    { unfold tt', out, _post_lesson_uncancel. rewrite Hs, Hne. reflexivity. }
    rewrite E in Hin. apply Hmem in Hin as [_ Hn]. apply Hn. auto.
  - intros s Hs Hne Hall.
    unfold tt', out, _post_lesson_uncancel. rewrite Hs, Hne. simpl.
    split; [|split; reflexivity].
    unfold delete_override. destruct (conv s) as [z|] eqn:Hz; [|reflexivity].
    fold tt. rewrite <- (map_id tt) at 2. rewrite <- (map_id (List.filter _ _)).
    clear Hcases Hmem. induction tt as [|a l IH]; [reflexivity|].
    simpl. assert (Ha : negb ((t_id a =? z) && negb (is_null (t_date a))) = true).
    { destruct (Z.eqb_spec (t_id a) z) as [E|_]; [|reflexivity].
      rewrite (Hall a); [reflexivity|now left|congruence]. }
    rewrite Ha. simpl. f_equal. apply IH.
    intros r Hr. apply Hall. now right.
Qed.

(** C6.  Neither lesson status handler writes to [change_log], whatever the
    request; the claim asks for a log entry after each of their writes.
    The admin delete of a timetable row does write one. *)
Theorem lesson_status_handlers_write_no_log (conv : string -> option Z)
    (d : db) (date period timetable_id status : option string) :
  change_log
    (db_after (_post_lesson_update_status conv d date period timetable_id status))
  = change_log d /\
  change_log (db_after (_post_lesson_uncancel conv d timetable_id))
  = change_log d.
Proof.
  split.
  - unfold _post_lesson_update_status.
    destruct date as [date|], period as [period|],
      timetable_id as [timetable_id|], status as [status|]; try reflexivity.
    destruct (Py.nonempty date && Py.nonempty period
              && Py.nonempty timetable_id && Py.nonempty status);
      [|reflexivity].
    destruct (select_by_id conv (timetable d) timetable_id); reflexivity.
  - unfold _post_lesson_uncancel.
    destruct timetable_id as [s|]; [|reflexivity].
    destruct (Py.nonempty s); reflexivity.
Qed.

(** Cancelling Monday's first lesson for 2024-09-09 adds an override row and
    leaves the log empty. *)
Example cancel_lesson_unlogged :
  let out := _post_lesson_update_status Py.int (Sample.school Sample.templates)
               (Some "2024-09-09") (Some "1") (Some "1") (Some "cancelled") in
  timetable (db_after out)
  = Sample.templates ++
    [Sample.override 6 "Montag" "2024-09-09" 1 1 1 1 "212" "cancelled"] /\
  change_log (db_after out) = [].
Proof. split; reflexivity. Qed.

(** The sibling path: deleting a timetable row from the admin page appends
    a row to [change_log]. *)
Lemma admin_delete_writes_log (d : db) (now : string) (id : string) (tid : Z) :
  Py.nonempty id = true -> Py.int id = Some tid -> 0 < tid ->
  in_int64 tid = true ->
  exists entry,
    change_log (db_after (_post_admin_timetable_delete d now (Some id)))
    = change_log d ++ [entry] /\
    cl_table_name entry = Some "timetable" /\ cl_record_id entry = Some tid /\
    cl_field_name entry = Some "delete" /\ cl_action entry = Some "manual".
Proof.
  intros Hne Hint Hpos Hrange. unfold _post_admin_timetable_delete.
  rewrite Hne, Hint, Hrange. destruct (Z.leb_spec tid 0) as [Hle|_]; [lia|].
  simpl. eexists. split; [reflexivity|]. simpl. auto.
Qed.

End LifecycleClaims.

(** ** Assessment scoring: the claims *)

Module ScoringClaims.

Import Schema Py Float Scoring ScoringFacts.




End ScoringClaims.

(** ** CSV import: the claims *)

Module CsvImportClaims.

Import Schema Py Http CsvImport CsvStudents CsvImportFacts.




End CsvImportClaims.

(** ** Lesson overrides: the handlers together *)

Module OverrideFacts.

Import Schema Http Resolution ResolutionFacts Lifecycle LifecycleFacts.

Lemma select_by_id_found conv tt id T :
  select_by_id conv tt id = Some T -> In T tt /\ conv id = Some (t_id T).
Proof.
  unfold select_by_id. destruct (conv id) as [z|]; [|discriminate].
  intros H. apply head_filter_Some in H as [Hin Hid].
  apply Z.eqb_eq in Hid. split; [exact Hin|congruence].
Qed.

Lemma set_timetable_same d : set_timetable d (timetable d) = d.
Proof. now destruct d. Qed.

Lemma set_timetable_twice d t t' :
  set_timetable (set_timetable d t) t' = set_timetable d t'.
Proof. reflexivity. Qed.

(** The request of [_post_lesson_update_status] with its four fields given
    and the entry found. *)
Lemma update_status_found conv d date period timetable_id status T :
  Py.nonempty date = true -> Py.nonempty period = true ->
  Py.nonempty timetable_id = true -> Py.nonempty status = true ->
  select_by_id conv (timetable d) timetable_id = Some T ->
  _post_lesson_update_status conv d (Some date) (Some period)
    (Some timetable_id) (Some status)
  = {| db_after :=
         set_timetable d
           match select_override (timetable d) date T with
           | Some existing_override =>
               update_status (timetable d) (t_id existing_override) status
           | None => insert_override (timetable d) T date status
           end;
       sent := [SeeOther ("/?msg=Stunde+am+" ++ date ++ "+aktualisiert")];
       raised := None |}.
Proof.
  intros H1 H2 H3 H4 HT. unfold _post_lesson_update_status.
  now rewrite H1, H2, H3, H4, HT.
Qed.

Lemma filter_all {A : Type} (p : A -> bool) (l : list A) :
  (forall x, In x l -> p x = true) -> List.filter p l = l.
Proof.
  induction l as [|a l IH]; intros H; [reflexivity|]. simpl.
  rewrite (H a) by now left. f_equal. apply IH. intros x Hx. apply H. now right.
Qed.

Lemma filter_none {A : Type} (p : A -> bool) (l : list A) :
  (forall x, In x l -> p x = false) -> List.filter p l = [].
Proof.
  induction l as [|a l IH]; intros H; [reflexivity|]. simpl.
  rewrite (H a) by now left. apply IH. intros x Hx. apply H. now right.
Qed.

End OverrideFacts.

Module OverrideExtras.

Import Schema Http Resolution ResolutionFacts WeekFacts Lifecycle LifecycleFacts.
Import Conflict OverrideFacts.

(** X1.  Setting a status and undoing it is a round trip.  When the lesson
    has no override on the date yet, [_post_lesson_update_status] appends
    one row, and [_post_lesson_uncancel] called with the id of that row
    gives back the data base as it was before the two requests. *)
Theorem status_then_undo_restores (conv : string -> option Z) (d : db)
    (date period timetable_id status id_text : string) (T : timetable_row) :
  Py.nonempty date = true -> Py.nonempty period = true ->
  Py.nonempty timetable_id = true -> Py.nonempty status = true ->
  Py.nonempty id_text = true ->
  select_by_id conv (timetable d) timetable_id = Some T ->
  select_override (timetable d) date T = None ->
  conv id_text = Some (next_rowid t_id (timetable d)) ->
  let out := _post_lesson_update_status conv d (Some date) (Some period)
               (Some timetable_id) (Some status) in
  let back := _post_lesson_uncancel conv (db_after out) (Some id_text) in
  timetable (db_after out)
  = timetable d ++ [override_of (next_rowid t_id (timetable d)) T date status] /\
  raised out = None /\ raised back = None /\
  db_after back = d.
Proof.
  intros H1 H2 H3 H4 H5 HT Hnone Hid out back.
  unfold back, out. rewrite (update_status_found _ _ _ _ _ _ T) by assumption.
  rewrite Hnone. unfold _post_lesson_uncancel. rewrite H5. simpl.
  split; [reflexivity|]. split; [reflexivity|]. split; [reflexivity|].
  rewrite set_timetable_twice.
  unfold delete_override, insert_override. rewrite Hid.
  rewrite List.filter_app. simpl. rewrite Z.eqb_refl. simpl.
  rewrite app_nil_r, filter_all; [apply set_timetable_same|].
  intros x Hx.
  pose proof (next_rowid_above t_id (timetable d) x Hx) as Hlt.
  destruct (Z.eqb_spec (t_id x) (next_rowid t_id (timetable d))); [lia|].
  reflexivity.
Qed.

Lemma status_then_undo_restores_witness :
  let d := Sample.school Sample.templates in
  let out := _post_lesson_update_status Py.int d (Some "2024-09-09") (Some "1")
               (Some "1") (Some "cancelled") in
  db_after (_post_lesson_uncancel Py.int (db_after out) (Some "6")) = d.
Proof.
  intros d out.
  apply (status_then_undo_restores Py.int d "2024-09-09" "1" "1" "cancelled"
           "6" Sample.mon1); reflexivity.
Defined.

(** X2.  A status that was set shows in the week view.  When every row
    dated on the day at the lesson's period belongs to the lesson (same
    subject, class and course), the week view of a week that holds the day
    resolves the lesson's period to a row of that date, with the requested
    status and the lesson's subject, class and course. *)
Theorem status_shows_in_week_view (conv : string -> option Z) (d : db)
    (w : week) (i : nat) (period timetable_id status : string)
    (T : timetable_row) :
  (i < 5)%nat -> In (t_period T) period_list ->
  Py.nonempty (day_date w i) = true -> Py.nonempty period = true ->
  Py.nonempty timetable_id = true -> Py.nonempty status = true ->
  select_by_id conv (timetable d) timetable_id = Some T ->
  (forall r, In r (timetable d) -> t_date r = Some (day_date w i) ->
     t_period r = t_period T ->
     t_subject_id r = t_subject_id T /\ t_class_id r = t_class_id T /\
     t_course_id r = t_course_id T) ->
  let out := _post_lesson_update_status conv d (Some (day_date w i))
               (Some period) (Some timetable_id) (Some status) in
  exists r,
    resolved (timetable (db_after out)) w i (t_period T) = Some r /\
    t_date r = Some (day_date w i) /\ t_status r = Some status /\
    t_period r = t_period T /\ t_subject_id r = t_subject_id T /\
    t_class_id r = t_class_id T /\ t_course_id r = t_course_id T.
Proof.
  intros Hi HP H1 H2 H3 H4 HT Hown out.
  set (D := day_date w i) in *. set (P := t_period T) in *.
  set (exact := fun t => eq_text (t_date t) D && (t_period t =? P)%Z).
  assert (Hsame : List.filter exact (timetable d)
                  = List.filter (override_matches D T) (timetable d)).
  { apply filter_ext_in. intros r Hr. unfold exact.
    destruct (override_matches D T r) eqn:Hm.
    - apply override_matches_iff in Hm as (Hd & Hp & _).
      apply exact_filter. auto.
    - destruct (eq_text (t_date r) D && (t_period r =? P)%Z) eqn:He;
        [|reflexivity].
      apply exact_filter in He as [Hd Hp].
      destruct (Hown r Hr Hd Hp) as (Hs & Hc & Hk).
      assert (override_matches D T r = true)
        by (apply override_matches_iff; auto).
      congruence. }
  assert (Hexact : exists r,
            select_exact (timetable (db_after out)) D P = Some r /\
            t_date r = Some D /\ t_status r = Some status /\
            t_period r = P /\ t_subject_id r = t_subject_id T /\
            t_class_id r = t_class_id T /\ t_course_id r = t_course_id T).
  { unfold out. rewrite (update_status_found _ _ _ _ _ _ T) by assumption.
    cbn [db_after timetable set_timetable]. unfold select_exact. fold exact.
    destruct (select_override (timetable d) D T) as [E|] eqn:Hov.
    - rewrite filter_update_status by reflexivity. rewrite Hsame.
      unfold select_override in Hov. unfold update_status.
      rewrite head_map, Hov. cbn [option_map]. rewrite Z.eqb_refl.
      exists (set_status E status). split; [reflexivity|].
      apply head_filter_Some in Hov as [_ Hm].
      apply override_matches_iff in Hm as (Hd & Hp & Hs & Hc & Hk).
      simpl. auto 10.
    - unfold insert_override. rewrite List.filter_app, Hsame.
      unfold select_override in Hov. rewrite (head_filter_nil _ _ Hov).
      cbn [app List.filter]. unfold exact at 1. cbn [override_of t_date t_period].
      unfold eq_text. rewrite String.eqb_refl. fold P. rewrite Z.eqb_refl.
      cbn [andb head]. eexists. split; [reflexivity|]. simpl. auto 10. }
  destruct Hexact as (r & Hr & Hfacts). exists r. split; [|exact Hfacts].
  apply resolved_own; [exact Hi|exact HP|].
  unfold select_own. fold D. now rewrite Hr.
Qed.

Lemma status_shows_in_week_view_witness :
  let out := _post_lesson_update_status Py.int
               (Sample.school Sample.templates) (Some "2024-09-02") (Some "1")
               (Some "1") (Some "cancelled") in
  exists r,
    resolved (timetable (db_after out)) Sample.week_of_2024_09_02 0 1 = Some r /\
    t_status r = Some "cancelled".
Proof.
  intros out.
  destruct (status_shows_in_week_view Py.int (Sample.school Sample.templates)
              Sample.week_of_2024_09_02 0 "1" "1" "cancelled" Sample.mon1)
    as (r & Hr & _ & Hs & _).
  - lia.
  - simpl. auto.
  - reflexivity.
  - reflexivity.
  - reflexivity.
  - reflexivity.
  - reflexivity.
  - intros r Hr Hd. simpl in Hr.
    repeat (destruct Hr as [<-|Hr]; [discriminate Hd|]). destruct Hr.
  - exists r. split; [exact Hr|exact Hs].
Defined.

(** X3.  An override stands in the way of its own template.  Once a status
    has been set for a lesson of a class on a date that had no override,
    [_check_timetable_conflict] for the lesson's own day, period and class
    reports a conflict even when the lesson itself is excluded, as the
    update of a timetable entry asks: the override row carries the
    lesson's day, period and class, and the check does not look at dates.
    In the sample timetable the check passes before the request. *)
Theorem override_blocks_template_slot (conv : string -> option Z) (d : db)
    (date period timetable_id status class_text : string)
    (course_id : option string) (T : timetable_row) (c : Z) :
  Py.nonempty date = true -> Py.nonempty period = true ->
  Py.nonempty timetable_id = true -> Py.nonempty status = true ->
  Py.nonempty class_text = true ->
  select_by_id conv (timetable d) timetable_id = Some T ->
  conv period = Some (t_period T) ->
  t_class_id T = Some c -> conv class_text = Some c ->
  select_override (timetable d) date T = None ->
  let check := fun tt =>
    _check_timetable_conflict conv tt (Some (t_day T)) (Some period)
      (Some class_text) course_id (Some timetable_id) in
  let out := _post_lesson_update_status conv d (Some date) (Some period)
               (Some timetable_id) (Some status) in
  check (timetable (db_after out)) = true.
Proof.
  intros H1 H2 H3 H4 H5 HT Hp Hc Hconv Hnone check out.
  unfold out. rewrite (update_status_found _ _ _ _ _ _ T) by assumption.
  rewrite Hnone. cbn [db_after timetable set_timetable].
  unfold check, _check_timetable_conflict. cbn [Py.present]. rewrite H5.
  cbn [negb andb].
  destruct (select_by_id_found _ _ _ _ HT) as [HTin Hid].
  set (O := override_of (next_rowid t_id (timetable d)) T date status).
  assert (HO : conflicts conv (Some (t_day T)) (Some period) (Some class_text)
                 course_id (Some timetable_id) O = true).
  { unfold conflicts, clause, excluded, eq_param. cbn [O override_of t_day
      t_period t_class_id t_id]. rewrite String.eqb_refl, Hp, H5, Hconv, H3, Hid.
    rewrite Hc. cbn [eq_int]. rewrite !Z.eqb_refl. cbn [andb orb].
    pose proof (next_rowid_above t_id (timetable d) T HTin) as Hlt.
    destruct (Z.eqb_spec (next_rowid t_id (timetable d)) (t_id T)); [lia|].
    reflexivity. }
  unfold insert_override. fold O.
  destruct (head_filter_is_Some
              (conflicts conv (Some (t_day T)) (Some period) (Some class_text)
                 course_id (Some timetable_id))
              (timetable d ++ [O]) O) as [y ->]; [|exact HO|reflexivity].
  apply in_or_app. right. now left.
Qed.

Lemma override_blocks_template_slot_witness :
  let d := Sample.school Sample.templates in
  let out := _post_lesson_update_status Py.int d (Some "2024-09-09") (Some "1")
               (Some "1") (Some "cancelled") in
  _check_timetable_conflict Py.int (timetable d) (Some "Montag") (Some "1")
    (Some "1") None (Some "1") = false /\
  _check_timetable_conflict Py.int (timetable (db_after out)) (Some "Montag")
    (Some "1") (Some "1") None (Some "1") = true.
Proof.
  intros d out. split; [reflexivity|].
  apply (override_blocks_template_slot Py.int d "2024-09-09" "1" "1"
           "cancelled" "1" None Sample.mon1 1); reflexivity.
Defined.

End OverrideExtras.

(** ** Facts about the order of the floats *)

Module FloatOrderFacts.

Import FloatOrder.

Lemma compare_key (x y : spec_float) :
  Float.is_nan x = false -> Float.is_nan y = false ->
  exists c, SFcompare x y = Some c /\
    (c = Lt <-> lt3 (key x) (key y)) /\
    (c = Gt <-> lt3 (key y) (key x)) /\
    (c = Eq <-> key x = key y).
Proof.
  intros Hx Hy.
  destruct x as [sx|sx| |sx mx ex]; try discriminate Hx;
    destruct y as [sy|sy| |sy my ey]; try discriminate Hy;
    cbn [SFcompare key]; try destruct sx; try destruct sy;
    try (eexists; split; [reflexivity|]; unfold lt3;
         repeat split; intros H; try discriminate H; try lia;
         try (injection H as; lia); fail).
  - eexists. split; [reflexivity|]. unfold lt3.
    change (Pos.compare_cont Eq mx my) with (Pos.compare mx my).
    destruct (Z.compare_spec ex ey) as [E|E|E];
      [destruct (Pos.compare_spec mx my) as [M|M|M]| |]; cbn [CompOpp];
      repeat split; intros H; try discriminate H; try lia;
      try (injection H as; lia); try (subst; reflexivity).
  - eexists. split; [reflexivity|]. unfold lt3.
    change (Pos.compare_cont Eq mx my) with (Pos.compare mx my).
    destruct (Z.compare_spec ex ey) as [E|E|E];
      [destruct (Pos.compare_spec mx my) as [M|M|M]| |];
      repeat split; intros H; try discriminate H; try lia;
      try (injection H as; lia); try (subst; reflexivity).
Qed.

Lemma lt3_irrefl k : ~ lt3 k k.
Proof. destruct k as [[a b] c]. unfold lt3. lia. Qed.

Lemma lt3_asym k k' : lt3 k k' -> ~ lt3 k' k.
Proof. destruct k as [[a b] c], k' as [[a' b'] c']. unfold lt3. lia. Qed.

Lemma lt3_trans k1 k2 k3 : lt3 k1 k2 -> lt3 k2 k3 -> lt3 k1 k3.
Proof.
  destruct k1 as [[a1 b1] c1], k2 as [[a2 b2] c2], k3 as [[a3 b3] c3].
  unfold lt3. lia.
Qed.

Lemma lt3_total k k' : lt3 k k' \/ k = k' \/ lt3 k' k.
Proof.
  destruct k as [[a b] c], k' as [[a' b'] c']. unfold lt3.
  destruct (Z.lt_trichotomy a a') as [?|[->|?]]; [lia| |lia].
  destruct (Z.lt_trichotomy b b') as [?|[->|?]]; [lia| |lia].
  destruct (Z.lt_trichotomy c c') as [?|[->|?]]; [lia| |lia].
  right. now left.
Qed.

Lemma le3_lt3_trans k1 k2 k3 : ~ lt3 k2 k1 -> lt3 k2 k3 -> lt3 k1 k3.
Proof.
  intros H12 H23. destruct (lt3_total k1 k2) as [H|[->|H]];
    [eapply lt3_trans; eauto|exact H23|contradiction].
Qed.

Lemma ltb_not_nan x y :
  Float.ltb x y = true -> Float.is_nan x = false /\ Float.is_nan y = false.
Proof. destruct x, y; try discriminate; auto. Qed.

Lemma leb_not_nan x y :
  Float.leb x y = true -> Float.is_nan x = false /\ Float.is_nan y = false.
Proof. destruct x, y; try discriminate; auto. Qed.

Lemma eqb_not_nan x y :
  Float.eqb x y = true -> Float.is_nan x = false /\ Float.is_nan y = false.
Proof. destruct x, y; try discriminate; auto. Qed.

Lemma ltb_key x y :
  Float.is_nan x = false -> Float.is_nan y = false ->
  (Float.ltb x y = true <-> lt3 (key x) (key y)).
Proof.
  intros Hx Hy. destruct (compare_key x y Hx Hy) as (c & Hc & HLt & HGt & HEq).
  unfold Float.ltb, SFltb. rewrite Hc. rewrite <- HLt.
  destruct c; split; congruence.
Qed.

Lemma leb_key x y :
  Float.is_nan x = false -> Float.is_nan y = false ->
  (Float.leb x y = true <-> ~ lt3 (key y) (key x)).
Proof.
  intros Hx Hy. destruct (compare_key x y Hx Hy) as (c & Hc & HLt & HGt & HEq).
  unfold Float.leb, SFleb. rewrite Hc. rewrite <- HGt.
  destruct c; split; congruence.
Qed.

Lemma eqb_key x y :
  Float.is_nan x = false -> Float.is_nan y = false ->
  (Float.eqb x y = true <-> key x = key y).
Proof.
  intros Hx Hy. destruct (compare_key x y Hx Hy) as (c & Hc & HLt & HGt & HEq).
  unfold Float.eqb, SFeqb. rewrite Hc. rewrite <- HEq.
  destruct c; split; congruence.
Qed.

End FloatOrderFacts.

(** ** Facts about scales listed from the top down *)

Module ScaleFacts.

Import Schema Py Scoring Defaults FloatOrder FloatOrderFacts.

Lemma in_band_iff pct g lo hi :
  in_band pct (g, lo, hi) <->
  Float.leb lo pct = true /\ Float.ltb pct hi = true.
Proof. reflexivity. Qed.

Lemma lookup_grade_none bands pct :
  (forall b, In b bands -> ~ in_band pct b) -> lookup_grade bands pct = "".
Proof.
  induction bands as [|[[g lo] hi] rest IH]; intros Hno; [reflexivity|].
  simpl. destruct (Float.leb lo pct && Float.ltb pct hi) eqn:E.
  - exfalso. apply (Hno (g, lo, hi)); [now left|].
    now apply andb_true_iff in E.
  - apply IH. intros b Hb. apply Hno. now right.
Qed.

(** No upper bound of the list lies above the first one. *)
Lemma descending_below_ceiling bands :
  descending bands = true -> forall top, ceiling bands = Some top ->
  forall g lo hi, In (g, lo, hi) bands ->
    Float.is_nan hi = false /\ ~ lt3 (key top) (key hi).
Proof.
  induction bands as [|[[g0 lo0] hi0] rest IH]; intros Hd top Htop g lo hi Hin;
    [destruct Hin|].
  cbn [descending] in Hd. apply andb_true_iff in Hd as [Hd Hrest].
  apply andb_true_iff in Hd as [Hlt Hlink].
  injection Htop as <-.
  destruct (ltb_not_nan _ _ Hlt) as [Hlo0 Hhi0].
  apply (ltb_key _ _ Hlo0 Hhi0) in Hlt.
  destruct Hin as [[= <- <- <-]|Hin].
  - split; [exact Hhi0|apply lt3_irrefl].
  - destruct rest as [|[[g1 lo1] hi1] rest']; [destruct Hin|].
    destruct (eqb_not_nan _ _ Hlink) as [Hhi1 _].
    apply (eqb_key _ _ Hhi1 Hlo0) in Hlink.
    destruct (IH Hrest hi1 eq_refl g lo hi Hin) as [Hnan Hle].
    split; [exact Hnan|]. intros H. apply Hle. rewrite Hlink.
    eapply lt3_trans; eauto.
Qed.

(** The lowest bound lies below the first upper bound. *)
Lemma descending_floor_below bands :
  descending bands = true -> forall top bottom,
  ceiling bands = Some top -> floor bands = Some bottom ->
  Float.is_nan bottom = false /\ lt3 (key bottom) (key top).
Proof.
  induction bands as [|[[g0 lo0] hi0] rest IH]; intros Hd top bottom Htop Hbot;
    [discriminate|].
  cbn [descending] in Hd. apply andb_true_iff in Hd as [Hd Hrest].
  apply andb_true_iff in Hd as [Hlt Hlink].
  injection Htop as <-.
  destruct (ltb_not_nan _ _ Hlt) as [Hlo0 Hhi0].
  apply (ltb_key _ _ Hlo0 Hhi0) in Hlt.
  destruct rest as [|[[g1 lo1] hi1] rest'].
  - injection Hbot as <-. auto.
  - destruct (eqb_not_nan _ _ Hlink) as [Hhi1 _].
    apply (eqb_key _ _ Hhi1 Hlo0) in Hlink.
    destruct (IH Hrest hi1 bottom eq_refl Hbot) as [Hnan Hb].
    split; [exact Hnan|]. rewrite Hlink in Hb. eapply lt3_trans; eauto.
Qed.

(** A percentage below the first upper bound: in exactly one band when it
    is not below the lowest bound, in none otherwise. *)
Lemma descending_lookup bands :
  descending bands = true -> forall top bottom pct,
  ceiling bands = Some top -> floor bands = Some bottom ->
  Float.ltb pct top = true ->
  (Float.leb bottom pct = true ->
   exists g lo hi,
     In (g, lo, hi) bands /\ in_band pct (g, lo, hi) /\
     lookup_grade bands pct = g /\
     forall b, In b bands -> in_band pct b -> b = (g, lo, hi)) /\
  (Float.leb bottom pct = false ->
   lookup_grade bands pct = "" /\ forall b, In b bands -> ~ in_band pct b).
Proof.
  induction bands as [|[[g0 lo0] hi0] rest IH];
    intros Hd top bottom pct Htop Hbot Hpct; [discriminate|].
  pose proof Hd as Hd0.
  cbn [descending] in Hd. apply andb_true_iff in Hd as [Hd Hrest].
  apply andb_true_iff in Hd as [Hlt Hlink].
  injection Htop as <-.
  destruct (ltb_not_nan _ _ Hlt) as [Hlo0 Hhi0].
  destruct (ltb_not_nan _ _ Hpct) as [Hp _].
  cbn [lookup_grade]. rewrite Hpct, andb_true_r.
  destruct rest as [|[[g1 lo1] hi1] rest'].
  - injection Hbot as <-. split; intros Hle; rewrite Hle.
    + exists g0, lo0, hi0. split; [now left|]. split; [split; assumption|].
      split; [reflexivity|]. intros b [<-|[]] _. reflexivity.
    + split; [reflexivity|]. intros b [<-|[]] [H _]. congruence.
  - destruct (eqb_not_nan _ _ Hlink) as [Hhi1 _].
    pose proof Hlink as Hlink'. apply (eqb_key _ _ Hhi1 Hlo0) in Hlink'.
    change (floor ((g0, lo0, hi0) :: (g1, lo1, hi1) :: rest'))
      with (floor ((g1, lo1, hi1) :: rest')) in Hbot.
    destruct (descending_floor_below _ Hrest hi1 bottom eq_refl Hbot)
      as [Hb Hbelow].
    destruct (Float.leb lo0 pct) eqn:Hle.
    + assert (Hbot_le : Float.leb bottom pct = true).
      { apply (leb_key _ _ Hb Hp). apply (leb_key _ _ Hlo0 Hp) in Hle.
        intros H. apply Hle. rewrite <- Hlink'.
        eapply lt3_trans; eauto. }
      split; intros Hcase; [|congruence].
      exists g0, lo0, hi0. split; [now left|]. split; [split; assumption|].
      split; [reflexivity|]. intros [[g lo] hi] [Hin|Hin] [_ Hhi];
        [now symmetry|].
      exfalso.
      destruct (descending_below_ceiling _ Hrest hi1 eq_refl g lo hi Hin)
        as [Hnan Hup].
      apply (ltb_key _ _ Hp Hnan) in Hhi.
      apply (leb_key _ _ Hlo0 Hp) in Hle. apply Hle.
      rewrite <- Hlink'.
      destruct (lt3_total (key hi) (key hi1)) as [H|[H|H]];
        [eapply lt3_trans; eauto|now rewrite <- H|contradiction].
    + assert (Hnext : Float.ltb pct hi1 = true).
      { apply (ltb_key _ _ Hp Hhi1). rewrite Hlink'.
        destruct (lt3_total (key pct) (key lo0)) as [H|[H|H]]; [exact H| |].
        - assert (Float.leb lo0 pct = true)
            by (apply (leb_key _ _ Hlo0 Hp); rewrite H; apply lt3_irrefl).
          congruence.
        - assert (Float.leb lo0 pct = true)
            by (apply (leb_key _ _ Hlo0 Hp); now apply lt3_asym).
          congruence. }
      destruct (IH Hrest hi1 bottom pct eq_refl Hbot Hnext) as [IH1 IH2].
      split; intros Hcase.
      * destruct (IH1 Hcase) as (g & lo & hi & Hin & Hband & Hlook & Huniq).
        exists g, lo, hi. split; [now right|]. split; [exact Hband|].
        split; [exact Hlook|]. intros b [<-|Hb'] Hb''.
        -- destruct Hb'' as [H _]. congruence.
        -- now apply Huniq.
      * destruct (IH2 Hcase) as [Hlook Hno]. split; [exact Hlook|].
        intros b [<-|Hb'].
        -- intros [H _]. congruence.
        -- now apply Hno.
Qed.

End ScaleFacts.

(** ** Scales without gaps, and the default scale *)

Module ScaleExtras.

Import Schema Py Scoring Defaults FloatOrder FloatOrderFacts ScaleFacts.

(** X4.  A scale whose bands are listed from the top down, each band
    starting where the next one ends, sorts every percentage between its
    lowest and its highest bound into exactly one band, and the grade is
    that band's label; a percentage outside these bounds, or NaN, gets the
    empty grade.  The default scale of [ensure_schema_migrations] is such a
    scale: its eleven bands cover the percentages from 0 up to, not
    including, 100.1. *)
Theorem descending_scale_partitions :
  (forall (bands : list band) (top bottom pct : spec_float),
     descending bands = true ->
     ceiling bands = Some top -> floor bands = Some bottom ->
     (Float.leb bottom pct = true -> Float.ltb pct top = true ->
      exists g lo hi,
        In (g, lo, hi) bands /\ in_band pct (g, lo, hi) /\
        lookup_grade bands pct = g /\
        forall b, In b bands -> in_band pct b -> b = (g, lo, hi)) /\
     (Float.leb bottom pct && Float.ltb pct top = false ->
      lookup_grade bands pct = "" /\
      forall b, In b bands -> ~ in_band pct b)) /\
  let bands := parse_scale default_def in
  descending bands = true /\
  ceiling bands = Float.of_string "100.1" /\
  floor bands = Some Float.zero /\
  map (fun b : band => fst (fst b)) bands
  = ["1.0"; "1.5"; "2.0"; "2.5"; "3.0"; "3.5"; "4.0"; "4.5"; "5.0"; "5.5";
     "6.0"].
Proof.
  split; [|repeat split; vm_compute; reflexivity].
  intros bands top bottom pct Hd Htop Hbot. split.
  - intros Hle Hlt.
    now apply (descending_lookup bands Hd top bottom pct Htop Hbot Hlt).
  - intros Hout. destruct (Float.ltb pct top) eqn:Hlt.
    + rewrite andb_true_r in Hout.
      now apply (descending_lookup bands Hd top bottom pct Htop Hbot Hlt).
    + assert (Hno : forall b, In b bands -> ~ in_band pct b).
      { intros [[g lo] hi] Hin [_ Hhi].
        destruct (descending_below_ceiling bands Hd top Htop g lo hi Hin)
          as [Hnan Hup].
        destruct (ltb_not_nan _ _ Hhi) as [Hp _].
        destruct (descending_floor_below bands Hd top bottom Htop Hbot)
          as [_ Hbt].
        assert (Htn : Float.is_nan top = false).
        { destruct top; try reflexivity.
          destruct bands as [|[[g0 lo0] hi0] rest]; [discriminate|].
          injection Htop as ->. cbn [descending] in Hd.
          apply andb_true_iff in Hd as [Hd _].
          apply andb_true_iff in Hd as [Hd _].
          now destruct (ltb_not_nan _ _ Hd). }
        apply (ltb_key _ _ Hp Hnan) in Hhi.
        assert (Float.ltb pct top = true); [|congruence].
        apply (ltb_key _ _ Hp Htn).
        destruct (lt3_total (key hi) (key top)) as [H|[H|H]];
          [eapply lt3_trans; eauto|now rewrite <- H|contradiction]. }
      split; [now apply lookup_grade_none|exact Hno].
Qed.

Lemma descending_scale_partitions_witness :
  lookup_grade (parse_scale default_def) (Float.of_Z 85) = "2.0" /\
  lookup_grade (parse_scale default_def) (Float.of_Z 101) = "".
Proof.
  destruct descending_scale_partitions as [Hgeneral (Hd & Htop & Hbot & _)].
  assert (Htop' : ceiling (parse_scale default_def)
                  = Some (S754_finite false 7043911292184166 (-46)))
    by (vm_compute; reflexivity).
  destruct (Hgeneral (parse_scale default_def) _ Float.zero (Float.of_Z 85)
              Hd Htop' Hbot) as [Hin _].
  destruct (Hgeneral (parse_scale default_def) _ Float.zero (Float.of_Z 101)
              Hd Htop' Hbot) as [_ Hout].
  destruct Hin as (g & lo & hi & _ & _ & Hlook & _);
    [reflexivity|reflexivity|].
  destruct Hout as [Hlook' _]; [reflexivity|].
  split; [|exact Hlook'].
  rewrite Hlook. vm_compute in Hlook. congruence.
Defined.

End ScaleExtras.

(** ** Facts about the assessment handlers *)

Module AssessmentFacts.

Import Schema Py Http Scoring CsvImport Assessments ResolutionFacts.

Lemma map_unmatched {A : Type} (p : A -> bool) (f : A -> A) (l : list A) :
  (forall x, In x l -> p x = false) ->
  map (fun x => if p x then f x else x) l = l.
Proof.
  induction l as [|a l IH]; intros H; [reflexivity|]. simpl.
  rewrite (H a) by now left. f_equal. apply IH. intros x Hx. apply H. now right.
Qed.

Lemma filter_map_if {A : Type} (p : A -> bool) (f : A -> A) (l : list A) :
  (forall x, p (f x) = p x) ->
  List.filter p (map (fun x => if p x then f x else x) l)
  = map f (List.filter p l).
Proof.
  intros Hp. induction l as [|a l IH]; [reflexivity|]. simpl.
  destruct (p a) eqn:E; simpl.
  - rewrite Hp, E. simpl. now rewrite IH.
  - rewrite E. exact IH.
Qed.

(** The score is computed from the assessment, its tasks, the scales, the
    student's result row and the student's task results. *)
Lemma score_regraded d d' pid sid r x c :
  performance_queries d' = performance_queries d ->
  performance_tasks d' = performance_tasks d ->
  grade_scales d' = grade_scales d ->
  performance_task_results d' = performance_task_results d ->
  select_result d pid sid = Some r ->
  select_result d' pid sid = Some (set_override r (Some x) c) ->
  _calculate_student_performance_grade d' pid sid
  = match _calculate_student_performance_grade d pid sid with
    | Ok (Some s) => Ok (Some (with_grade (Override x) s))
    | other => other
    end.
Proof.
  intros Hq Ht Hs Htr Hr Hr'.
  unfold _calculate_student_performance_grade, select_performance,
    select_tasks, select_scale, select_task_results.
  rewrite Hq, Ht, Hs, Htr, Hr, Hr'.
  destruct (in_int64 pid); [|reflexivity]. cbn [negb].
  destruct (head (List.filter _ (performance_queries d))) as [p|];
    [|reflexivity].
  destruct (pq_grade_scale_id p) as [gid|]; [|reflexivity].
  destruct (negb (truthy gid)); [reflexivity|].
  destruct (Float.eqb _ Float.zero); [reflexivity|].
  destruct (head (List.filter _ (grade_scales d))) as [scale_row|];
    [|reflexivity].
  destruct (parse_scale (gs_definition scale_row)) as [|b bands];
    [reflexivity|].
  destruct (in_int64 sid); [|reflexivity]. cbn [negb set_override
    pr_op_points pr_zp_points pr_grade_override].
  destruct (addend (pr_op_points r)) as [op|e]; [|reflexivity].
  destruct (addend (pr_zp_points r)) as [zp|e]; [|reflexivity].
  cbn [bind].
  destruct (round_to_half _) as [tot|e]; [|reflexivity].
  cbn [bind]. now destruct (pr_grade_override r).
Qed.

Lemma score_unchanged d d' pid sid :
  performance_queries d' = performance_queries d ->
  performance_tasks d' = performance_tasks d ->
  grade_scales d' = grade_scales d ->
  performance_results d' = performance_results d ->
  performance_task_results d' = performance_task_results d ->
  _calculate_student_performance_grade d' pid sid
  = _calculate_student_performance_grade d pid sid.
Proof.
  intros Hq Ht Hs Hr Htr.
  unfold _calculate_student_performance_grade, select_performance, select_tasks,
    select_scale, select_result, select_task_results.
  now rewrite Hq, Ht, Hs, Hr, Htr.
Qed.

End AssessmentFacts.

(** ** Grade overrides and scale assignment *)

Module AssessmentExtras.

Import Schema Py Http Scoring CsvImport Assessments ResolutionFacts.
Import AssessmentFacts.







End AssessmentExtras.

(** ** Facts about the rows an import leaves *)

Module ImportLookupFacts.

Import Schema Py Http Scoring CsvImport CsvStudents CsvImportFacts.
Import ResolutionFacts OverrideFacts.

(** The tables after an import in which every student can be inserted. *)
Lemma import_all_inserted (d : db) (now : string)
    (performance_id csv_data : option string) (perf_id : Z)
    (header : string) (body : list string) :
  Py.int (or_text performance_id "0") = Some perf_id ->
  in_int64 perf_id = true ->
  nonempty (strip (or_text csv_data "")) = true ->
  csv_lines (or_text csv_data "") = header :: body ->
  let studs := students (header_task_count header) body in
  forallb insertable studs = true ->
  let out := _post_performance_import d now performance_id csv_data in
  exists new_r new_t,
    performance_results (db_after out)
    = List.filter (fun r => negb (pr_performance_id r =? perf_id))
        (performance_results d) ++ new_r /\
    performance_task_results (db_after out)
    = List.filter (fun r => negb (ptr_performance_id r =? perf_id))
        (performance_task_results d) ++ new_t /\
    Forall2 (is_result_row perf_id) studs new_r /\
    Forall2 (is_task_row perf_id) (task_cells studs) new_t /\
    raised out = None.
Proof.
  intros Hid Hrange Hcsv Hlines studs Hall out.
  unfold out, _post_performance_import.
  rewrite Hid, Hcsv, Hlines. cbn [negb]. cbv iota.
  unfold delete_results. rewrite Hrange. cbn [with_conn].
  match goal with
  | |- context [import_lines ?d1 _ _ _ _] =>
      destruct (import_lines_spec perf_id (header_task_count header) body d1 0)
        as (new_r & new_t & -> & Hr & Ht)
  end.
  fold studs in Hr, Ht |- *.
  rewrite (committed_all studs Hall) in Hr, Ht.
  apply first_failure_None in Hall. rewrite Hall.
  exists new_r, new_t. cbn. auto.
Qed.

(** Such an import is answered with the redirect to the assessment. *)
Lemma import_all_redirect (d : db) (now : string)
    (performance_id csv_data : option string) (perf_id : Z)
    (header : string) (body : list string) :
  Py.int (or_text performance_id "0") = Some perf_id ->
  in_int64 perf_id = true ->
  nonempty (strip (or_text csv_data "")) = true ->
  csv_lines (or_text csv_data "") = header :: body ->
  forallb insertable (students (header_task_count header) body) = true ->
  sent (_post_performance_import d now performance_id csv_data)
  = [SeeOther (String.append "/performance?id=" (str_of_int perf_id))].
Proof.
  intros Hid Hrange Hcsv Hlines Hall.
  unfold _post_performance_import.
  rewrite Hid, Hcsv, Hlines. cbn [negb]. cbv iota.
  unfold delete_results. rewrite Hrange. cbn [with_conn].
  match goal with
  | |- context [import_lines ?d1 _ _ _ _] =>
      destruct (import_lines_spec perf_id (header_task_count header) body d1 0)
        as (new_r & new_t & -> & Hr & Ht)
  end.
  apply first_failure_None in Hall. rewrite Hall. reflexivity.
Qed.

(** Among the rows of students with distinct ids, the first row of a
    student is that student's row. *)
Lemma result_row_of perf_id studs rows st :
  Forall2 (is_result_row perf_id) studs rows ->
  List.NoDup (map st_id studs) -> In st studs ->
  exists r,
    head (List.filter (fun r => (pr_performance_id r =? perf_id)
                                && (pr_student_id r =? st_id st)) rows)
    = Some r /\ is_result_row perf_id st r.
Proof.
  intros HF. induction HF as [|st0 r0 studs rows H0 HF IH];
    intros Hnd Hin; [destruct Hin|].
  cbn [map] in Hnd. apply NoDup_cons_iff in Hnd as [Hnot Hnd].
  cbn [List.filter]. destruct H0 as (Hp & Hs & Hrest).
  rewrite Hp, Hs, Z.eqb_refl. cbn [andb].
  destruct Hin as [<-|Hin].
  - rewrite Z.eqb_refl. exists r0. split; [reflexivity|]. repeat split; tauto.
  - destruct (Z.eqb_spec (st_id st0) (st_id st)) as [E|_].
    + exfalso. apply Hnot. rewrite E. now apply in_map.
    + now apply IH.
Qed.

Lemma cells_rows perf_id sid i points rows :
  Forall2 (is_task_row perf_id) (cells_from sid i points) rows ->
  map ptr_points rows = points /\
  forall s, List.filter (fun r => (ptr_performance_id r =? perf_id)
                                  && (ptr_student_id r =? s)) rows
            = if sid =? s then rows else [].
Proof.
  revert i rows. induction points as [|x points IH]; intros i rows HF.
  - inversion HF. subst. split; [reflexivity|]. intros s.
    now destruct (sid =? s).
  - inversion HF as [|c r cs rows' Hr HF' E1 E2]. subst.
    destruct (IH _ _ HF') as [Hpts Hfilter].
    destruct Hr as (Hp & Hs & _ & Hx & _).
    split; [cbn; now rewrite Hx, Hpts|].
    intros s. cbn [List.filter]. rewrite Hp, Hs, Z.eqb_refl, Hfilter.
    cbn [andb]. now destruct (sid =? s).
Qed.

(** The task results of a student, among the rows of students with
    distinct ids, are the points of that student's line. *)
Lemma task_rows_of perf_id studs rows st :
  Forall2 (is_task_row perf_id) (task_cells studs) rows ->
  List.NoDup (map st_id studs) -> In st studs ->
  map ptr_points
    (List.filter (fun r => (ptr_performance_id r =? perf_id)
                           && (ptr_student_id r =? st_id st)) rows)
  = st_points st.
Proof.
  revert rows. induction studs as [|st0 studs IH]; intros rows HF Hnd Hin;
    [destruct Hin|].
  unfold task_cells in HF. cbn [flat_map] in HF.
  apply Forall2_app_inv_l in HF as (rows0 & rows1 & H0 & H1 & ->).
  cbn [map] in Hnd. apply NoDup_cons_iff in Hnd as [Hnot Hnd].
  destruct (cells_rows _ _ _ _ _ H0) as [Hpts Hfilter].
  rewrite List.filter_app, Hfilter.
  destruct Hin as [<-|Hin].
  - rewrite Z.eqb_refl.
    assert (Hnone : List.filter
                      (fun r => (ptr_performance_id r =? perf_id)
                                && (ptr_student_id r =? st_id st0)) rows1 = []).
    { clear - H1 Hnot. revert rows1 H1.
      induction studs as [|s1 studs IH]; intros rows1 H1.
      - inversion H1. reflexivity.
      - unfold task_cells in H1. cbn [flat_map] in H1.
        apply Forall2_app_inv_l in H1 as (ra & rb & Ha & Hb & ->).
        destruct (cells_rows _ _ _ _ _ Ha) as [_ Hf].
        rewrite List.filter_app, Hf.
        destruct (Z.eqb_spec (st_id s1) (st_id st0)) as [E|_].
        + exfalso. apply Hnot. left. exact E.
        + apply IH; [|exact Hb]. intros H. apply Hnot. now right. }
    now rewrite Hnone, app_nil_r.
  - destruct (Z.eqb_spec (st_id st0) (st_id st)) as [E|_].
    + exfalso. apply Hnot. rewrite E. now apply in_map.
    + now apply IH.
Qed.

End ImportLookupFacts.

(** ** Import and scoring together *)

Module ImportLookupExtras.

Import Schema Py Http Scoring CsvImport CsvStudents CsvImportFacts.
Import ResolutionFacts OverrideFacts ImportLookupFacts.



End ImportLookupExtras.

(** ** Facts about texts *)

Module StringFacts.

Import Py Markup.

Lemma append_cons (c : ascii) (s t : string) :
  String.append (String c s) t = String c (String.append s t).
Proof. reflexivity. Qed.

Lemma append_nil_r (s : string) : String.append s "" = s.
Proof.
  induction s as [|c s IH]; [reflexivity|]. now rewrite append_cons, IH.
Qed.

Lemma append_assoc (a b c : string) :
  String.append (String.append a b) c = String.append a (String.append b c).
Proof.
  induction a as [|x a IH]; [reflexivity|]. now rewrite !append_cons, IH.
Qed.

Lemma all_chars_app p a b :
  all_chars p (String.append a b) = all_chars p a && all_chars p b.
Proof.
  induction a as [|c a IH]; [reflexivity|].
  rewrite append_cons. cbn [all_chars]. now rewrite IH, andb_assoc.
Qed.

Lemma all_chars_impl (p q : ascii -> bool) s :
  (forall c, p c = true -> q c = true) ->
  all_chars p s = true -> all_chars q s = true.
Proof.
  intros Hpq. induction s as [|c s IH]; simpl; [reflexivity|].
  intros H. apply andb_true_iff in H as [Hc Hs].
  now rewrite (Hpq c Hc), IH.
Qed.

Lemma replace_app old new a b :
  replace old new (String.append a b)
  = String.append (replace old new a) (replace old new b).
Proof.
  induction a as [|c a IH]; [reflexivity|].
  rewrite append_cons. cbn [replace].
  destruct (Ascii.eqb c old); rewrite IH; [|reflexivity].
  now rewrite append_assoc.
Qed.

Lemma replace_absent old new s :
  all_chars (fun c => negb (Ascii.eqb c old)) s = true ->
  replace old new s = s.
Proof.
  induction s as [|c s IH]; simpl; [reflexivity|].
  intros H. apply andb_true_iff in H as [Hc Hs].
  apply negb_true_iff in Hc. now rewrite Hc, IH.
Qed.

End StringFacts.

(** ** Facts about [html_escape] *)

Module MarkupFacts.

Import Py Markup StringFacts.

(** The five replacements, character by character. *)
Lemma escape_cons c s :
  escape (String c s) = String.append (entity c) (escape s).
Proof.
  unfold escape, entity. cbn [replace].
  destruct (Ascii.eqb_spec c amp) as [->|Hamp].
  { rewrite !replace_app. reflexivity. }
  cbn [replace].
  destruct (Ascii.eqb_spec c lt) as [->|Hlt].
  { rewrite !replace_app. reflexivity. }
  cbn [replace].
  destruct (Ascii.eqb_spec c gt) as [->|Hgt].
  { rewrite !replace_app. reflexivity. }
  cbn [replace].
  destruct (Ascii.eqb_spec c quot) as [->|Hquot].
  { rewrite !replace_app. reflexivity. }
  cbn [replace].
  destruct (Ascii.eqb_spec c apos) as [->|Hapos]; reflexivity.
Qed.

Lemma escape_entities s : escape s = entities s.
Proof.
  induction s as [|c s IH]; [reflexivity|].
  now rewrite escape_cons, IH.
Qed.

Lemma entity_plain c : all_chars (fun x => negb (special x)) (entity c) = true.
Proof.
  unfold entity.
  destruct (Ascii.eqb_spec c amp); [reflexivity|].
  destruct (Ascii.eqb c lt) eqn:E1; [reflexivity|].
  destruct (Ascii.eqb c gt) eqn:E2; [reflexivity|].
  destruct (Ascii.eqb c quot) eqn:E3; [reflexivity|].
  destruct (Ascii.eqb c apos) eqn:E4; [reflexivity|].
  simpl. unfold special. now rewrite E1, E2, E3, E4.
Qed.

Lemma entities_plain s :
  all_chars (fun x => negb (special x)) (entities s) = true.
Proof.
  induction s as [|c s IH]; [reflexivity|]. simpl.
  now rewrite all_chars_app, entity_plain, IH.
Qed.

(** The first character of what replaces a character tells whether it was
    replaced, and the entity tells by what. *)
Lemma entities_cons_inj c s d t :
  String.append (entity c) (entities s) = String.append (entity d) (entities t) ->
  c = d /\ entities s = entities t.
Proof.
  unfold entity.
  destruct (Ascii.eqb_spec c amp) as [->|Hc1];
    [|destruct (Ascii.eqb_spec c lt) as [->|Hc2];
      [|destruct (Ascii.eqb_spec c gt) as [->|Hc3];
        [|destruct (Ascii.eqb_spec c quot) as [->|Hc4];
          [|destruct (Ascii.eqb_spec c apos) as [->|Hc5]]]]];
  (destruct (Ascii.eqb_spec d amp) as [->|Hd1];
    [|destruct (Ascii.eqb_spec d lt) as [->|Hd2];
      [|destruct (Ascii.eqb_spec d gt) as [->|Hd3];
        [|destruct (Ascii.eqb_spec d quot) as [->|Hd4];
          [|destruct (Ascii.eqb_spec d apos) as [->|Hd5]]]]]);
  intros H; rewrite ?append_cons in H;
  first
    [ discriminate H
    | exfalso; injection H as H1 _; subst;
      match goal with Hn : _ <> _ |- _ => apply Hn; reflexivity end
    | split; [reflexivity|]; repeat (injection H as H); exact H
    | injection H as H1 H2; split; [exact H1|exact H2] ].
Qed.

Lemma entities_inj s t : entities s = entities t -> s = t.
Proof.
  revert t. induction s as [|c s IH]; intros [|d t] H.
  - reflexivity.
  - exfalso. cbn in H. unfold entity in H.
    repeat destruct (Ascii.eqb _ _); discriminate H.
  - exfalso. cbn in H. unfold entity in H.
    repeat destruct (Ascii.eqb _ _); discriminate H.
  - cbn in H. apply entities_cons_inj in H as [-> H]. f_equal. now apply IH.
Qed.

End MarkupFacts.

(** ** [html_escape]: nothing of the text is left as markup *)

Module MarkupExtras.

Import Py Markup StringFacts MarkupFacts.

(** X9.  [html_escape] replaces each of the five characters ampersand,
    less-than, greater-than, double quote and apostrophe by its entity and
    copies every other character.  The result holds no less-than, no
    greater-than and no quote character; the final replacement of the
    apostrophe never finds one, since [html.escape] has replaced them
    already; and two different texts have different results. *)
Theorem html_escape_neutralises (t : string) :
  html_escape (Some t) = entities t /\
  html_escape (Some t) = escape t /\
  all_chars (fun c => negb (special c)) (html_escape (Some t)) = true /\
  (forall t', html_escape (Some t) = html_escape (Some t') -> t = t').
Proof.
  assert (H : forall s, html_escape (Some s) = entities s).
  { intros s. unfold html_escape. rewrite escape_entities.
    apply replace_absent.
    apply (all_chars_impl (fun c => negb (special c))); [|apply entities_plain].
    intros c Hc. apply negb_true_iff in Hc. unfold special in Hc.
    apply orb_false_iff in Hc as [_ Hc]. now rewrite Hc. }
  split; [apply H|]. split; [now rewrite H, escape_entities|].
  split; [rewrite H; apply entities_plain|].
  intros t' E. rewrite !H in E. now apply entities_inj.
Qed.

End MarkupExtras.

(** ** Facts about stripping and upper case *)

Module GroupFacts.

Import Schema Py Markup Groups StringFacts ResolutionFacts.

Lemma lstrip_head s :
  lstrip s = "" \/ exists c r, lstrip s = String c r /\ isspace c = false.
Proof.
  induction s as [|c s IH]; [now left|]. simpl.
  destruct (isspace c) eqn:E; [exact IH|]. right. eauto.
Qed.

Lemma lstrip_fixed c r : isspace c = false -> lstrip (String c r) = String c r.
Proof. intros H. simpl. now rewrite H. Qed.

Lemma rstrip_head c r :
  isspace c = false -> exists r', rstrip (String c r) = String c r'.
Proof.
  intros H. simpl. destruct (rstrip r); [rewrite H|]; eauto.
Qed.

Lemma rstrip_idem s : rstrip (rstrip s) = rstrip s.
Proof.
  induction s as [|c s IH]; [reflexivity|]. simpl.
  destruct (rstrip s) as [|c' s'] eqn:E.
  - destruct (isspace c) eqn:Hc; [reflexivity|]. simpl. now rewrite Hc.
  - simpl. simpl in IH. now rewrite IH.
Qed.

(** [strip] leaves a stripped text as it is. *)
Lemma strip_idem s : strip (strip s) = strip s.
Proof.
  unfold strip. destruct (lstrip_head s) as [E|(c & r & E & Hc)]; rewrite E.
  - reflexivity.
  - destruct (rstrip_head c r Hc) as [r' E']. rewrite E'.
    rewrite (lstrip_fixed c r' Hc), <- E'. apply rstrip_idem.
Qed.

Lemma lstrip_map f s :
  (forall c, isspace (f c) = isspace c) ->
  lstrip (map_chars f s) = map_chars f (lstrip s).
Proof.
  intros Hf. induction s as [|c s IH]; [reflexivity|]. simpl.
  rewrite Hf. now destruct (isspace c).
Qed.

Lemma rstrip_map f s :
  (forall c, isspace (f c) = isspace c) ->
  rstrip (map_chars f s) = map_chars f (rstrip s).
Proof.
  intros Hf. induction s as [|c s IH]; [reflexivity|]. simpl.
  rewrite IH, Hf. destruct (rstrip s); simpl; [|reflexivity].
  now destruct (isspace c).
Qed.

Lemma strip_map f s :
  (forall c, isspace (f c) = isspace c) ->
  strip (map_chars f s) = map_chars f (strip s).
Proof. intros Hf. unfold strip. now rewrite lstrip_map, rstrip_map. Qed.

Lemma map_chars_ext f g s :
  (forall c, f c = g c) -> map_chars f s = map_chars g s.
Proof.
  intros H. induction s as [|c s IH]; simpl; [reflexivity|].
  now rewrite H, IH.
Qed.

Lemma map_chars_map f g s :
  map_chars f (map_chars g s) = map_chars (fun c => f (g c)) s.
Proof. induction s as [|c s IH]; simpl; [reflexivity|now rewrite IH]. Qed.

Lemma map_chars_app f a b :
  map_chars f (String.append a b)
  = String.append (map_chars f a) (map_chars f b).
Proof.
  induction a as [|c a IH]; [reflexivity|].
  rewrite append_cons. cbn [map_chars]. now rewrite IH, append_cons.
Qed.

Lemma map_chars_fixed f p s :
  (forall c, p c = true -> f c = c) -> all_chars p s = true ->
  map_chars f s = s.
Proof.
  intros H. induction s as [|c s IH]; [reflexivity|]. simpl.
  intros Hs. apply andb_true_iff in Hs as [Hc Hs]. now rewrite (H c Hc), IH.
Qed.

Lemma map_chars_nonempty f s : nonempty (map_chars f s) = nonempty s.
Proof. now destruct s. Qed.

Lemma lowercase_map s : Float.lowercase s = map_chars Float.lower s.
Proof. induction s as [|c s IH]; simpl; [reflexivity|now rewrite IH]. Qed.

Ltac by_code c :=
  destruct c as [b0 b1 b2 b3 b4 b5 b6 b7];
  destruct b0, b1, b2, b3, b4, b5, b6, b7; reflexivity.

Lemma upper_space c : isspace (upper c) = isspace c.
Proof. by_code c. Qed.

Lemma upper_upper c : upper (upper c) = upper c.
Proof. by_code c. Qed.

Lemma lower_upper c : Float.lower (upper c) = Float.lower c.
Proof. by_code c. Qed.

Lemma upper_digit c : is_digit c = true -> upper c = c.
Proof. revert c. intros c. destruct c as [b0 b1 b2 b3 b4 b5 b6 b7].
  destruct b0, b1, b2, b3, b4, b5, b6, b7; intros H;
    try reflexivity; discriminate H.
Qed.

Lemma upper_or_keep c : (if is_letter c then upper c else c) = upper c.
Proof. by_code c. Qed.

Lemma span_spec p s :
  let '(a, b) := span p s in
  s = String.append a b /\ all_chars p a = true.
Proof.
  induction s as [|c s IH]; simpl; [split; reflexivity|].
  destruct (p c) eqn:E.
  - destruct (span p s) as [a b]. destruct IH as [-> Ha].
    split; [reflexivity|]. simpl. now rewrite E.
  - split; reflexivity.
Qed.

(** [_normalize_group_name] puts the stripped name in upper case: the
    branch for a grade followed by letters gives no other result. *)
Lemma normalize_upper name :
  _normalize_group_name name = uppercase (strip name).
Proof.
  unfold _normalize_group_name.
  destruct (nonempty (strip name)) eqn:Hne; cbn [negb].
  - rewrite strip_idem. unfold match_grade_suffix.
    pose proof (span_spec is_digit (strip name)) as Hspan.
    destruct (span is_digit (strip name)) as [grade suffix].
    destruct Hspan as [Hs Hdigits].
    destruct (nonempty grade && nonempty suffix
              && all_chars is_letter suffix).
    + rewrite Hs. unfold uppercase. rewrite map_chars_app.
      now rewrite (map_chars_fixed upper is_digit grade upper_digit Hdigits).
    + unfold uppercase. apply map_chars_ext. apply upper_or_keep.
  - destruct (strip name); [reflexivity|discriminate].
Qed.

Lemma normalize_idem name :
  _normalize_group_name (_normalize_group_name name)
  = _normalize_group_name name.
Proof.
  rewrite !normalize_upper. unfold uppercase.
  rewrite (strip_map upper _ upper_space), strip_idem, map_chars_map.
  apply map_chars_ext. apply upper_upper.
Qed.

Lemma normalize_lower name :
  Float.lowercase (_normalize_group_name name) = Float.lowercase (strip name).
Proof.
  rewrite normalize_upper, !lowercase_map. unfold uppercase.
  rewrite map_chars_map. apply map_chars_ext. apply lower_upper.
Qed.

Lemma normalize_nonempty name :
  nonempty (_normalize_group_name name) = nonempty (strip name).
Proof. rewrite normalize_upper. apply map_chars_nonempty. Qed.

Lemma lower_eq_refl a : lower_eq a a = true.
Proof. apply String.eqb_refl. Qed.

Lemma set_classes_same d : set_classes d (classes d) = d.
Proof. now destruct d. Qed.

End GroupFacts.

(** ** Names of classes: one class per name *)

Module GroupExtras.

Import Schema Py Markup Groups StringFacts GroupFacts ResolutionFacts.
Import LifecycleFacts OverrideFacts.

(** X10.  For an ASCII name, [_normalize_group_name] is the stripped name
    in upper case, whether or not the name is a grade followed by
    letters: the branch for that pattern changes no result.  Normalizing
    twice is normalizing once, and the normalized name differs from the
    stripped name in case only. *)
Theorem normalize_group_name_upper (name : string) :
  is_ascii name = true ->
  _normalize_group_name name = uppercase (strip name) /\
  _normalize_group_name (_normalize_group_name name)
  = _normalize_group_name name /\
  lower_eq (_normalize_group_name name) (strip name) = true.
Proof.
  intros _. split; [apply normalize_upper|]. split; [apply normalize_idem|].
  unfold lower_eq. rewrite normalize_lower. apply String.eqb_refl.
Qed.

Lemma normalize_group_name_upper_witness :
  _normalize_group_name " 10f " = "10F" /\
  _normalize_group_name "7sw" = uppercase (strip "7sw").
Proof.
  split; [reflexivity|].
  apply (normalize_group_name_upper "7sw"). reflexivity.
Defined.



(** X12.  [get_or_create_subject] can raise where [get_or_create_class]
    cannot.  For ASCII texts and a name that no subject carries, up to
    case, the insert fails with [IntegrityError] exactly when the short
    name it derives (the given one stripped and in upper case, or else the
    first eight characters of the name in upper case) is the short name of
    a stored subject; the name itself never collides.  Otherwise one
    subject is appended with a fresh id. *)
Theorem get_or_create_subject_short_taken (d : db) (name : string)
    (short : option string) :
  is_ascii name = true ->
  (forall s, short = Some s -> is_ascii s = true) ->
  nonempty (strip name) = true ->
  (forall s, In s (subjects d) -> lower_eq (s_name s) (strip name) = false) ->
  let derived :=
    match short with
    | Some s => if nonempty (uppercase (strip s)) then uppercase (strip s)
                else take 8 (uppercase (strip name))
    | None => take 8 (uppercase (strip name))
    end in
  (get_or_create_subject d (Some name) short = Raise IntegrityError <->
   exists s, In s (subjects d) /\ s_short s = Some derived) /\
  ((forall s, In s (subjects d) -> s_short s <> Some derived) ->
   get_or_create_subject d (Some name) short
   = Ok (Groups.set_subjects d
           (subjects d ++ [{| s_id := next_rowid s_id (subjects d);
                              s_name := strip name;
                              s_short := Some derived |}]),
         Some (next_rowid s_id (subjects d)))).
Proof.
  intros _ _ Hne Hnew derived.
  assert (Hnone : head (List.filter (fun s => lower_eq (s_name s) (strip name))
                          (subjects d)) = None).
  { rewrite (filter_none _ _ Hnew). reflexivity. }
  assert (Hname : existsb (fun s => String.eqb (s_name s) (strip name))
                    (subjects d) = false).
  { apply not_true_iff_false. intros H.
    apply existsb_exists in H as (s & Hs & E). apply String.eqb_eq in E.
    specialize (Hnew s Hs). rewrite E, lower_eq_refl in Hnew. discriminate. }
  assert (Hshort :
    match
      match short with
      | Some s =>
          if nonempty s then
            if nonempty (uppercase (strip s)) then Some (uppercase (strip s))
            else None
          else None
      | None => None
      end
    with
    | Some u => u
    | None => take 8 (uppercase (strip name))
    end = derived).
  { unfold derived. destruct short as [s|]; [|reflexivity].
    destruct s; [reflexivity|]. cbn [nonempty].
    now destruct (nonempty (uppercase (strip (String a s)))). }
  assert (Hcall : get_or_create_subject d (Some name) short
            = if existsb (fun s => eq_text (s_short s) derived) (subjects d)
              then Raise IntegrityError
              else Ok (Groups.set_subjects d
                         (subjects d ++
                          [{| s_id := next_rowid s_id (subjects d);
                              s_name := strip name;
                              s_short := Some derived |}]),
                       Some (next_rowid s_id (subjects d)))).
  { unfold get_or_create_subject. rewrite Hne. cbn [negb].
    rewrite Hnone, Hname. cbv zeta. rewrite strip_idem, Hshort. reflexivity. }
  assert (Hex : existsb (fun s => eq_text (s_short s) derived) (subjects d)
                = true <->
                exists s, In s (subjects d) /\ s_short s = Some derived).
  { rewrite existsb_exists. split; intros (s & Hs & E); exists s;
      (split; [exact Hs|]); unfold eq_text in *;
      destruct (s_short s) as [x|]; try discriminate.
    - apply String.eqb_eq in E. now subst.
    - injection E as ->. apply String.eqb_refl. }
  rewrite Hcall. clear Hcall Hname.
  destruct (existsb (fun s => eq_text (s_short s) derived) (subjects d)) eqn:E.
  - destruct Hex as [Hex _]. destruct (Hex eq_refl) as (s & Hs & Hs').
    split.
    + split; [intros _; eauto|reflexivity].
    + intros Hfree. now apply Hfree in Hs'.
  - split; [|reflexivity].
    split; [discriminate|]. intros H. apply Hex in H. discriminate.
Qed.

Lemma get_or_create_subject_short_taken_witness :
  get_or_create_subject (Sample.assessment None "") (Some "Philosophie")
    (Some "ph") = Raise IntegrityError.
Proof.
  apply (get_or_create_subject_short_taken (Sample.assessment None "")
           "Philosophie" (Some "ph")).
  - reflexivity.
  - intros s [= <-]. reflexivity.
  - reflexivity.
  - intros s [<-|[]]. reflexivity.
  - eexists. split; [left; reflexivity|reflexivity].
Defined.

End GroupExtras.

(** ** [int(str(n))] *)

Module DigitFacts.

Import Py Markup Digits StringFacts GroupFacts.

Lemma digit_cases d :
  is_digit_value d ->
  d = 0 \/ d = 1 \/ d = 2 \/ d = 3 \/ d = 4 \/ d = 5 \/ d = 6 \/ d = 7 \/
  d = 8 \/ d = 9.
Proof. unfold is_digit_value. lia. Qed.

Ltac by_digit d H :=
  destruct (digit_cases d H) as [->|[->|[->|[->|[->|[->|[->|[->|[->| ->]]]]]]]]];
  reflexivity.

Lemma digit_value_char d :
  is_digit_value d -> digit_value (digit_char d) = Some d.
Proof. intros H. by_digit d H. Qed.

Lemma digit_char_plain d : is_digit_value d -> plain_char (digit_char d) = true.
Proof. intros H. by_digit d H. Qed.

Lemma text_of_plain ds :
  Forall is_digit_value ds -> all_chars plain_char (text_of ds) = true.
Proof.
  induction 1 as [|d ds Hd _ IH]; [reflexivity|]. simpl.
  now rewrite (digit_char_plain d Hd), IH.
Qed.

Lemma text_of_snoc ds d acc :
  String.append (text_of (ds ++ [d])) acc
  = String.append (text_of ds) (String (digit_char d) acc).
Proof.
  induction ds as [|x ds IH]; [reflexivity|].
  cbn [app text_of]. now rewrite !append_cons, IH.
Qed.

Lemma decimal_snoc ds d : decimal (ds ++ [d]) = 10 * decimal ds + d.
Proof. unfold decimal. now rewrite fold_left_app. Qed.

Lemma decimal_digits_step f n acc :
  decimal_digits (S f) n acc
  = if n / 10 =? 0 then String (ascii_of_N (Z.to_N (48 + n mod 10))) acc
    else decimal_digits f (n / 10)
           (String (ascii_of_N (Z.to_N (48 + n mod 10))) acc).
Proof. reflexivity. Qed.

(** The digits [decimal_digits] writes, with enough fuel. *)
Lemma decimal_digits_spec (f : nat) :
  forall n acc, 0 <= n -> n < 10 ^ Z.of_nat (S f) ->
  exists ds,
    ds <> [] /\ Forall is_digit_value ds /\ decimal ds = n /\
    decimal_digits (S f) n acc = String.append (text_of ds) acc.
Proof.
  induction f as [|f IH]; intros n acc Hn Hlt.
  - exists [n]. change (10 ^ Z.of_nat 1) with 10 in Hlt.
    assert (Hmod : n mod 10 = n) by (apply Z.mod_small; lia).
    split; [discriminate|]. split; [constructor; [unfold is_digit_value; lia|constructor]|].
    split; [unfold decimal; simpl; lia|].
    rewrite decimal_digits_step, Hmod.
    now destruct (n / 10 =? 0).
  - rewrite decimal_digits_step.
    assert (Hm : 0 <= n mod 10 < 10) by (apply Z.mod_pos_bound; lia).
    pose proof (Z.div_mod n 10 ltac:(lia)) as Hdm.
    destruct (Z.eqb_spec (n / 10) 0) as [Hz|Hnz].
    + exists [n mod 10]. split; [discriminate|].
      split; [constructor; [unfold is_digit_value; lia|constructor]|].
      split; [unfold decimal; simpl; lia|reflexivity].
    + assert (Hq : 0 <= n / 10) by (apply Z.div_pos; lia).
      assert (Hqlt : n / 10 < 10 ^ Z.of_nat (S f)).
      { apply Z.div_lt_upper_bound; [lia|].
        replace (Z.of_nat (S (S f))) with (Z.succ (Z.of_nat (S f))) in Hlt by lia.
        rewrite Z.pow_succ_r in Hlt by lia. exact Hlt. }
      destruct (IH (n / 10)
                  (String (ascii_of_N (Z.to_N (48 + n mod 10))) acc) Hq Hqlt)
        as (ds & Hne & Hds & Hdec & Heq).
      exists (ds ++ [n mod 10]). split; [now destruct ds|].
      split.
      { apply Forall_app. split; [exact Hds|].
        constructor; [unfold is_digit_value; lia|constructor]. }
      split; [rewrite decimal_snoc; lia|].
      rewrite Heq, text_of_snoc. reflexivity.
Qed.

Lemma str_of_nonneg n :
  0 <= n ->
  exists ds, ds <> [] /\ Forall is_digit_value ds /\ decimal ds = n /\
             decimal_digits (S (Z.to_nat (Z.log2 n))) n "" = text_of ds.
Proof.
  intros Hn.
  assert (Hlt : n < 10 ^ Z.of_nat (S (Z.to_nat (Z.log2 n)))).
  { pose proof (Z.log2_nonneg n) as Hl.
    replace (Z.of_nat (S (Z.to_nat (Z.log2 n)))) with (Z.succ (Z.log2 n))
      by lia.
    destruct (Z.eq_dec n 0) as [->|Hnz]; [reflexivity|].
    destruct (Z.log2_spec n ltac:(lia)) as [_ Hup].
    eapply Z.lt_le_trans; [exact Hup|].
    apply Z.pow_le_mono_l. lia. }
  destruct (decimal_digits_spec _ n "" Hn Hlt) as (ds & H1 & H2 & H3 & H4).
  exists ds. rewrite H4, append_nil_r. auto.
Qed.

Lemma read_digits_text ds :
  Forall is_digit_value ds -> read_digits (text_of ds) = (ds, EmptyString).
Proof.
  induction 1 as [|d ds Hd _ IH]; [reflexivity|].
  cbn [text_of read_digits]. now rewrite (digit_value_char d Hd), IH.
Qed.

Lemma lstrip_plain s :
  all_chars (fun c => negb (isspace c)) s = true -> lstrip s = s.
Proof.
  destruct s as [|c s]; [reflexivity|]. simpl.
  intros H. apply andb_true_iff in H as [Hc _].
  apply negb_true_iff in Hc. now rewrite Hc.
Qed.

Lemma rstrip_plain s :
  all_chars (fun c => negb (isspace c)) s = true -> rstrip s = s.
Proof.
  induction s as [|c s IH]; [reflexivity|]. simpl.
  intros H. apply andb_true_iff in H as [Hc Hs].
  apply negb_true_iff in Hc. rewrite (IH Hs), Hc. now destruct s.
Qed.

(** A text without white space is stripped. *)
Lemma strip_plain s :
  all_chars (fun c => negb (isspace c)) s = true -> strip s = s.
Proof. intros H. unfold strip. now rewrite (lstrip_plain s H), rstrip_plain. Qed.

Lemma plain_no_space s :
  all_chars plain_char s = true ->
  all_chars (fun c => negb (isspace c)) s = true.
Proof.
  apply all_chars_impl. intros c H. unfold plain_char in H.
  repeat (apply andb_true_iff in H as [H _]). exact H.
Qed.

Lemma int_digits ds :
  ds <> [] -> Forall is_digit_value ds ->
  Py.int (text_of ds) = Some (decimal ds) /\
  Py.int (String.append "-" (text_of ds)) = Some (- decimal ds).
Proof.
  intros Hne Hds. pose proof (text_of_plain ds Hds) as Hplain.
  destruct ds as [|d ds]; [congruence|].
  inversion Hds as [|x l Hd Hrest]; subst.
  pose proof (digit_char_plain d Hd) as Hc. unfold plain_char in Hc.
  repeat (apply andb_true_iff in Hc as [Hc ?]).
  split.
  - unfold Py.int. rewrite (strip_plain _ (plain_no_space _ Hplain)).
    cbn [text_of read_sign].
    destruct (code (digit_char d) =? 45)%N; [discriminate|].
    destruct (code (digit_char d) =? 43)%N; [discriminate|].
    cbn [read_digitpart]. rewrite (digit_value_char d Hd).
    now rewrite (read_digits_text ds Hrest).
  - unfold Py.int. rewrite strip_plain.
    + change (String.append "-" (text_of (d :: ds)))
        with (String (ascii_of_N 45) (text_of (d :: ds))).
      cbn [read_sign]. change (code (ascii_of_N 45) =? 45)%N with true.
      cbv iota. cbn [text_of read_digitpart]. rewrite (digit_value_char d Hd).
      now rewrite (read_digits_text ds Hrest).
    + change (String.append "-" (text_of (d :: ds)))
        with (String (ascii_of_N 45) (text_of (d :: ds))).
      cbn [all_chars]. now rewrite (plain_no_space _ Hplain).
Qed.

(** The text [str] writes for an integer is read back by [int]. *)
Lemma int_str_of_int n : Py.int (str_of_int n) = Some n.
Proof.
  unfold str_of_int. destruct (Z.ltb_spec n 0) as [Hneg|Hpos].
  - destruct (str_of_nonneg (- n) ltac:(lia)) as (ds & Hne & Hds & Hdec & ->).
    destruct (int_digits ds Hne Hds) as [_ ->]. f_equal. lia.
  - destruct (str_of_nonneg n Hpos) as (ds & Hne & Hds & Hdec & ->).
    destruct (int_digits ds Hne Hds) as [-> _]. now f_equal.
Qed.

(** The characters of that text: digits, after a minus sign or not. *)
Lemma str_of_int_chars n :
  all_chars (fun c => negb (isspace c) && negb (is_linebreak c)
                      && negb (Ascii.eqb c ";") && (code c <? 128)%N)
    (str_of_int n) = true /\
  nonempty (str_of_int n) = true.
Proof.
  assert (Himpl : forall s, all_chars plain_char s = true ->
            all_chars (fun c => negb (isspace c) && negb (is_linebreak c)
                                && negb (Ascii.eqb c ";") && (code c <? 128)%N)
              s = true).
  { intros s. apply all_chars_impl. intros c H. unfold plain_char in H.
    apply andb_true_iff in H as [H H6]. apply andb_true_iff in H as [H _].
    apply andb_true_iff in H as [H _]. now rewrite H, H6. }
  unfold str_of_int. destruct (Z.ltb_spec n 0) as [Hneg|Hpos].
  - destruct (str_of_nonneg (- n) ltac:(lia)) as (ds & Hne & Hds & _ & ->).
    split; [|reflexivity].
    change (String.append "-" (text_of ds))
      with (String (ascii_of_N 45) (text_of ds)).
    cbn [all_chars]. rewrite (Himpl _ (text_of_plain ds Hds)). reflexivity.
  - destruct (str_of_nonneg n Hpos) as (ds & Hne & Hds & _ & ->).
    split; [apply Himpl, text_of_plain, Hds|].
    destruct ds; [congruence|reflexivity].
Qed.

End DigitFacts.

(** ** Facts about joining and splitting texts *)

Module CsvTextFacts.

Import Schema Py Markup Digits Defaults StringFacts GroupFacts DigitFacts.

Lemma join_cons sep x y l :
  join sep (x :: y :: l)
  = String.append x (String.append sep (join sep (y :: l))).
Proof. reflexivity. Qed.

Lemma join_snoc sep l x :
  l <> [] ->
  join sep (l ++ [x]) = String.append (join sep l) (String.append sep x).
Proof.
  induction l as [|a l IH]; [congruence|]. intros _.
  destruct l as [|b l]; [reflexivity|].
  change ((a :: b :: l) ++ [x]) with (a :: (b :: l) ++ [x]).
  change ((b :: l) ++ [x]) with (b :: (l ++ [x])) at 1.
  rewrite join_cons. change (b :: l ++ [x]) with ((b :: l) ++ [x]).
  rewrite IH by discriminate. rewrite join_cons.
  now rewrite !append_assoc.
Qed.

Lemma all_chars_join p sep l :
  all_chars p sep = true -> Forall (fun x => all_chars p x = true) l ->
  all_chars p (join sep l) = true.
Proof.
  intros Hsep. induction 1 as [|x l Hx Hl IH]; [reflexivity|].
  destruct l as [|y l]; [exact Hx|].
  rewrite join_cons, !all_chars_app, Hx, Hsep, IH. reflexivity.
Qed.

Lemma split_app_sep sep a b :
  all_chars (fun c => negb (Ascii.eqb c sep)) a = true ->
  split sep (String.append a (String sep b)) = a :: split sep b.
Proof.
  induction a as [|c a IH]; intros H.
  - change (String.append "" (String sep b)) with (String sep b).
    cbn [split]. now rewrite Ascii.eqb_refl.
  - cbn [all_chars] in H. apply andb_true_iff in H as [Hc Ha].
    apply negb_true_iff in Hc. rewrite append_cons. cbn [split].
    now rewrite Hc, (IH Ha).
Qed.

Lemma split_whole sep a :
  all_chars (fun c => negb (Ascii.eqb c sep)) a = true -> split sep a = [a].
Proof.
  induction a as [|c a IH]; intros H; [reflexivity|].
  cbn [all_chars] in H. apply andb_true_iff in H as [Hc Ha].
  apply negb_true_iff in Hc. cbn [split]. now rewrite Hc, (IH Ha).
Qed.

(** Splitting at the separator undoes joining with it, for fields that do
    not hold the separator. *)
Lemma split_join sep fs :
  fs <> [] ->
  Forall (fun f => all_chars (fun c => negb (Ascii.eqb c sep)) f = true) fs ->
  split sep (join (String sep "") fs) = fs.
Proof.
  intros Hne HF. induction HF as [|x l Hx Hl IH]; [congruence|].
  destruct l as [|y l]; [now apply split_whole|].
  rewrite join_cons.
  change (String.append (String sep "") (join (String sep "") (y :: l)))
    with (String sep (join (String sep "") (y :: l))).
  rewrite (split_app_sep sep x _ Hx). f_equal. apply IH. discriminate.
Qed.

Lemma splitlines_app_newline a b :
  all_chars (fun c => negb (is_linebreak c)) a = true ->
  splitlines (String.append a (String.append newline b)) = a :: splitlines b.
Proof.
  induction a as [|c a IH]; intros H; [reflexivity|].
  cbn [all_chars] in H. apply andb_true_iff in H as [Hc Ha].
  apply negb_true_iff in Hc. rewrite append_cons. cbn [splitlines].
  now rewrite Hc, (IH Ha).
Qed.

Lemma splitlines_whole a :
  nonempty a = true ->
  all_chars (fun c => negb (is_linebreak c)) a = true -> splitlines a = [a].
Proof.
  induction a as [|c a IH]; intros Hne H; [discriminate|].
  cbn [all_chars] in H. apply andb_true_iff in H as [Hc Ha].
  apply negb_true_iff in Hc. cbn [splitlines]. rewrite Hc.
  destruct a as [|c' a]; [reflexivity|]. now rewrite (IH eq_refl Ha).
Qed.

(** The lines of a text joined by line feeds. *)
Lemma splitlines_join ls :
  ls <> [] ->
  Forall (fun l => all_chars (fun c => negb (is_linebreak c)) l = true /\
                   nonempty l = true) ls ->
  splitlines (join newline ls) = ls.
Proof.
  intros Hne HF. induction HF as [|x l [Hx Hx'] Hl IH]; [congruence|].
  destruct l as [|y l]; [now apply splitlines_whole|].
  rewrite join_cons, (splitlines_app_newline x _ Hx). f_equal.
  apply IH. discriminate.
Qed.

Lemma ends_well_nonempty s : ends_well s = true -> nonempty s = true.
Proof. now destruct s. Qed.

Lemma ends_well_app a b :
  nonempty b = true -> ends_well (String.append a b) = ends_well b.
Proof.
  intros Hb. induction a as [|c a IH]; [reflexivity|].
  rewrite append_cons. cbn [ends_well]. rewrite IH.
  destruct (String.append a b) eqn:E; [|reflexivity].
  destruct a; [|discriminate E].
  change (String.append "" b) with b in E. now rewrite E in Hb.
Qed.

Lemma rstrip_ends_well s : ends_well s = true -> rstrip s = s.
Proof.
  induction s as [|c s IH]; [discriminate|]. intros H. cbn [rstrip].
  destruct s as [|c' s].
  - cbn in H. apply negb_true_iff in H. cbn. now rewrite H.
  - now rewrite (IH H).
Qed.

(** A text that begins and ends with other characters than white space is
    stripped. *)
Lemma strip_fixed c t :
  isspace c = false -> ends_well (String c t) = true ->
  strip (String c t) = String c t.
Proof.
  intros Hc He. unfold strip. rewrite (lstrip_fixed c t Hc).
  now apply rstrip_ends_well.
Qed.

Lemma ends_well_join ls :
  ls <> [] -> Forall (fun l => ends_well l = true) ls ->
  ends_well (join newline ls) = true.
Proof.
  intros Hne HF. induction HF as [|x l Hx Hl IH]; [congruence|].
  destruct l as [|y l]; [exact Hx|].
  rewrite join_cons.
  assert (Hrest : ends_well (join newline (y :: l)) = true)
    by (apply IH; discriminate).
  pose proof (ends_well_nonempty _ Hrest) as Hn.
  rewrite ends_well_app.
  - rewrite ends_well_app; [exact Hrest|exact Hn].
  - unfold newline. now rewrite append_cons.
Qed.

End CsvTextFacts.

(** ** Facts about the CSV template *)

Module TemplateFacts.

Import Schema Py Http Markup Digits Defaults Roster Templates.
Import CsvImport CsvStudents.
Import StringFacts GroupFacts DigitFacts CsvTextFacts.

Lemma range_from_length a n : length (range_from a n) = n.
Proof.
  revert a. induction n as [|n IH]; intros a; [reflexivity|].
  simpl. now rewrite IH.
Qed.

Lemma number_text i :
  no_semicolon (str_of_int i) = true /\ no_break (str_of_int i) = true /\
  no_space (str_of_int i) = true /\ nonempty (str_of_int i) = true.
Proof.
  destruct (str_of_int_chars i) as [H Hne].
  repeat split; try exact Hne;
    (eapply all_chars_impl; [|exact H]); intros c Hc;
    repeat (apply andb_true_iff in Hc as [Hc ?]); assumption.
Qed.

Lemma task_label i :
  let label := String.append "Aufgabe" (str_of_int i) in
  no_semicolon label = true /\ no_break label = true /\
  no_space label = true /\ startswith "Aufgabe" label = true.
Proof.
  destruct (number_text i) as (H1 & H2 & H3 & _). cbv zeta.
  unfold no_semicolon, no_break, no_space in *.
  rewrite !all_chars_app, H1, H2, H3. repeat split; try reflexivity.
  unfold startswith. now destruct (str_of_int i).
Qed.

(** The header: its fields come back from the line, and as many of them
    begin with "Aufgabe" as there are tasks. *)
Lemma header_fields n :
  fields (join ";" (template_header n)) = template_header n /\
  header_task_count (join ";" (template_header n)) = n.
Proof.
  assert (Hlabels : forall l,
            Forall (fun f => no_semicolon f = true /\ no_space f = true /\
                             startswith "Aufgabe" f = true)
              (map (fun i => String.append "Aufgabe" (str_of_int i)) l)).
  { intros l. induction l as [|i l IH]; constructor; [|exact IH].
    destruct (task_label i) as (H1 & _ & H3 & H4). auto. }
  assert (Hall : Forall (fun f => no_semicolon f = true /\ no_space f = true)
                   (template_header n)).
  { unfold template_header. repeat (apply Forall_app; split).
    - repeat constructor.
    - eapply Forall_impl; [apply Hlabels|]. intros f (H1 & H2 & _). auto.
    - repeat constructor. }
  assert (Hfields : fields (join ";" (template_header n)) = template_header n).
  { unfold fields. rewrite (split_join ";").
    - rewrite <- (map_id (template_header n)) at 2. apply map_ext_in.
      intros f Hf. rewrite List.Forall_forall in Hall.
      destruct (Hall f Hf) as [_ Hs]. now apply strip_plain.
    - discriminate.
    - eapply Forall_impl; [exact Hall|]. now intros f [H _]. }
  split; [exact Hfields|].
  unfold header_task_count. rewrite Hfields. unfold template_header.
  rewrite !List.filter_app.
  change (List.filter (startswith "Aufgabe") ["StudentID"; "Nachname"; "Vorname"])
    with (@nil string).
  change (List.filter (startswith "Aufgabe") ["OP"; "ZP"]) with (@nil string).
  cbn [app]. rewrite app_nil_r, OverrideFacts.filter_all.
  - now rewrite length_map, range_from_length.
  - intros f Hf. specialize (Hlabels (range_from 1 n)).
    rewrite List.Forall_forall in Hlabels. now destruct (Hlabels f Hf) as (_ & _ & H).
Qed.

Lemma header_line n :
  let h := join ";" (template_header n) in
  strip h = h /\ nonempty h = true /\ no_break h = true /\
  ends_well h = true /\ exists t, h = String "S" t.
Proof.
  cbv zeta.
  assert (Hstart : exists t, join ";" (template_header n) = String "S" t).
  { unfold template_header. cbn [app]. rewrite join_cons.
    eexists. reflexivity. }
  assert (Hend : ends_well (join ";" (template_header n)) = true).
  { unfold template_header.
    change ["OP"; "ZP"] with (["OP"] ++ ["ZP"]). rewrite !app_assoc.
    rewrite join_snoc by (cbn; discriminate).
    now rewrite ends_well_app. }
  assert (Hbreak : no_break (join ";" (template_header n)) = true).
  { unfold no_break. apply all_chars_join; [reflexivity|].
    unfold template_header. repeat (apply Forall_app; split).
    - repeat constructor.
    - apply List.Forall_forall. intros f Hf. apply in_map_iff in Hf as (i & <- & _).
      now destruct (task_label i) as (_ & H & _).
    - repeat constructor. }
  destruct Hstart as [t Ht]. rewrite Ht in *.
  split; [now apply strip_fixed|]. split; [reflexivity|].
  split; [exact Hbreak|]. split; [exact Hend|]. eauto.
Qed.

Lemma plain_name_chars s :
  plain_name s = true -> no_semicolon s = true /\ no_break s = true.
Proof.
  intros H. split; (eapply all_chars_impl; [|exact H]); intros c Hc;
    apply andb_true_iff in Hc as [Hc H2];
    apply andb_true_iff in Hc as [_ H1]; assumption.
Qed.

Lemma repeat_Forall {A : Type} (P : A -> Prop) x n :
  P x -> Forall P (repeat x n).
Proof. intros H. induction n; simpl; constructor; auto. Qed.

(** The row of a student whose names are plain. *)
Lemma row_line n (s : student_row) :
  plain_name (stu_last_name s) = true ->
  plain_name (stu_first_name s) = true ->
  let line := join ";" (template_row n s) in
  strip line = line /\ nonempty line = true /\ no_break line = true /\
  ends_well line = true /\
  student_of_line n line = Some (blank n s).
Proof.
  intros Hlast Hfirst. cbv zeta.
  destruct (plain_name_chars _ Hlast) as [Hl1 Hl2].
  destruct (plain_name_chars _ Hfirst) as [Hf1 Hf2].
  destruct (number_text (stu_id s)) as (Hi1 & Hi2 & Hi3 & Hi4).
  assert (Hsemi : Forall (fun f => no_semicolon f = true) (template_row n s)).
  { unfold template_row. repeat (apply Forall_app; split).
    - repeat constructor; assumption.
    - now apply repeat_Forall.
    - repeat constructor. }
  assert (Hbreak : no_break (join ";" (template_row n s)) = true).
  { unfold no_break. apply all_chars_join; [reflexivity|].
    unfold template_row. repeat (apply Forall_app; split).
    - repeat constructor; assumption.
    - now apply repeat_Forall.
    - repeat constructor. }
  assert (Hend : ends_well (join ";" (template_row n s)) = true).
  { unfold template_row.
    change [""; ""] with ([""] ++ [""]). rewrite !app_assoc.
    rewrite join_snoc by (cbn; discriminate).
    now rewrite ends_well_app. }
  assert (Hstart : exists c t, join ";" (template_row n s) = String c t /\
                               isspace c = false).
  { unfold template_row. cbn [app].
    destruct (str_of_int (stu_id s)) as [|c t] eqn:E; [discriminate|].
    assert (Hc : isspace c = false).
    { unfold no_space in Hi3. cbn [all_chars] in Hi3.
      apply andb_true_iff in Hi3 as [Hc _]. now apply negb_true_iff in Hc. }
    destruct (repeat "" n ++ [""; ""]) eqn:E'.
    - rewrite join_cons, append_cons. eauto.
    - rewrite join_cons, append_cons. eauto. }
  destruct Hstart as (c & t & Hline & Hc).
  assert (Hstrip : strip (join ";" (template_row n s))
                   = join ";" (template_row n s)).
  { rewrite Hline in *. now apply strip_fixed. }
  split; [exact Hstrip|]. split; [now rewrite Hline|].
  split; [exact Hbreak|]. split; [exact Hend|].
  assert (Hparts : fields (join ";" (template_row n s))
                   = [strip (str_of_int (stu_id s)); strip (stu_last_name s);
                      strip (stu_first_name s)]
                     ++ repeat "" n ++ [""; ""]).
  { unfold fields. rewrite (split_join ";"); [|discriminate|exact Hsemi].
    unfold template_row. rewrite !map_app. cbn [map]. f_equal. f_equal.
    clear. induction n as [|n IH]; [reflexivity|]. cbn [repeat map].
    now rewrite IH. }
  unfold student_of_line. rewrite Hparts.
  assert (Hlen : length ([strip (str_of_int (stu_id s));
                          strip (stu_last_name s); strip (stu_first_name s)]
                         ++ repeat "" n ++ [""; ""]) = (3 + n + 2)%nat).
  { rewrite !length_app, repeat_length. simpl. lia. }
  rewrite Hlen. destruct (Nat.ltb_spec (3 + n + 2) 3) as [Hlt|_]; [lia|].
  cbn [app nth]. rewrite (strip_plain _ Hi3), int_str_of_int.
  unfold blank. f_equal. f_equal.
  - unfold extra_points. cbn [length]. rewrite length_app, repeat_length.
    cbn [length]. destruct (Nat.leb_spec (3 + n + 1) (S (S (S (n + 2)))));
      [|lia].
    change (3 + n)%nat with (S (S (S n))). cbn [nth].
    rewrite app_nth2 by (rewrite repeat_length; lia).
    rewrite repeat_length, Nat.sub_diag. reflexivity.
  - unfold extra_points. cbn [length]. rewrite length_app, repeat_length.
    cbn [length].
    destruct (Nat.leb_spec (3 + n + 1 + 1) (S (S (S (n + 2))))); [|lia].
    replace (3 + n + 1)%nat with (S (S (S (n + 1)))) by lia. cbn [nth].
    rewrite app_nth2 by (rewrite repeat_length; lia).
    rewrite repeat_length. replace (n + 1 - n)%nat with 1%nat by lia.
    reflexivity.
  - unfold task_fields. cbn [skipn]. rewrite drop_0.
    rewrite firstn_app, repeat_length, Nat.sub_diag. cbn [firstn].
    rewrite app_nil_r, firstn_all2 by (rewrite repeat_length; lia).
    clear. induction n as [|n IH]; [reflexivity|]. cbn [repeat map].
    now rewrite IH.
Qed.

(** The lines of the template, and the students the import reads from
    them. *)
Lemma template_lines n (stu_rows : list student_row) :
  (forall s, In s stu_rows ->
     plain_name (stu_last_name s) = true /\
     plain_name (stu_first_name s) = true) ->
  let csv := template_csv n stu_rows in
  nonempty (strip csv) = true /\
  exists body,
    csv_lines csv = join ";" (template_header n) :: body /\
    students n body = map (blank n) stu_rows.
Proof.
  intros Hplain. cbv zeta.
  set (h := join ";" (template_header n)).
  set (rows := map (fun s => join ";" (template_row n s)) stu_rows).
  destruct (header_line n) as (Hh1 & Hh2 & Hh3 & Hh4 & th & Hh5). fold h in Hh1, Hh2, Hh3, Hh4, Hh5.
  assert (Hrows : Forall (fun l => strip l = l /\ nonempty l = true /\
                                   no_break l = true /\ ends_well l = true)
                    rows).
  { unfold rows. apply List.Forall_forall. intros l Hl.
    apply in_map_iff in Hl as (s & <- & Hs).
    destruct (Hplain s Hs) as [Ha Hb].
    destruct (row_line n s Ha Hb) as (H1 & H2 & H3 & H4 & _). auto. }
  assert (Hlines : Forall (fun l => strip l = l /\ nonempty l = true /\
                                    no_break l = true /\ ends_well l = true)
                     (h :: rows)) by (constructor; auto).
  assert (Hcsv : template_csv n stu_rows = join newline (h :: rows))
    by reflexivity.
  assert (Hstart : exists t, join newline (h :: rows) = String "S" t).
  { destruct rows as [|r rows']; [now exists th|].
    rewrite join_cons, Hh5, append_cons. eauto. }
  assert (Hend : ends_well (join newline (h :: rows)) = true).
  { apply ends_well_join; [discriminate|].
    eapply Forall_impl; [exact Hlines|]. now intros l (_ & _ & _ & H). }
  assert (Hstrip : strip (join newline (h :: rows)) = join newline (h :: rows)).
  { destruct Hstart as [t Ht]. rewrite Ht in *. now apply strip_fixed. }
  assert (Hsplit : splitlines (join newline (h :: rows)) = h :: rows).
  { apply splitlines_join; [discriminate|].
    eapply Forall_impl; [exact Hlines|]. now intros l (_ & H1 & H2 & _). }
  rewrite Hcsv, Hstrip. split.
  - destruct Hstart as [t ->]. reflexivity.
  - exists rows. split.
    + unfold csv_lines. rewrite Hstrip, Hsplit.
      rewrite OverrideFacts.filter_all.
      * rewrite <- (map_id (h :: rows)) at 2. apply map_ext_in.
        intros l Hl. rewrite List.Forall_forall in Hlines.
        now destruct (Hlines l Hl) as [H _].
      * intros l Hl. rewrite List.Forall_forall in Hlines.
        destruct (Hlines l Hl) as (H1 & H2 & _). now rewrite H1.
    + unfold rows. clear - Hplain.
      induction stu_rows as [|s l IH]; [reflexivity|].
      cbn [map students].
      destruct (Hplain s (or_introl eq_refl)) as [Ha Hb].
      destruct (row_line n s Ha Hb) as (_ & _ & _ & _ & ->).
      f_equal. apply IH. intros x Hx. apply Hplain. now right.
Qed.

Lemma blank_insertable n (stu_rows : list student_row) :
  (forall s, In s stu_rows -> in_int64 (stu_id s) = true) ->
  forallb insertable (map (blank n) stu_rows) = true.
Proof.
  intros H. apply forallb_forall. intros st Hst.
  apply in_map_iff in Hst as (s & <- & Hs).
  unfold insertable, blank. cbn [st_id st_points]. rewrite (H s Hs).
  cbn [andb]. clear. induction n as [|n IH]; [reflexivity|]. exact IH.
Qed.

End TemplateFacts.

(** ** The template and the import together *)

Module TemplateExtras.

Import Schema Py Http Scoring Markup Digits Defaults Roster Templates.
Import CsvImport CsvStudents.
Import StringFacts GroupFacts DigitFacts CsvTextFacts TemplateFacts.
Import ImportLookupFacts.



End TemplateExtras.

(** ** Creating an assessment *)

Module CreateFacts.

Import Schema Py Http Scoring CsvImport Assessments Roster Templates.
Import LifecycleFacts.

Lemma fold_max_le {A : Type} (key : A -> Z) (b m : Z) (rest : list A) :
  b <= m -> (forall x, In x rest -> key x <= m) ->
  fold_right Z.max b (map key rest) <= m.
Proof.
  intros Hb. induction rest as [|y rest IH]; intros H; simpl; [exact Hb|].
  assert (key y <= m) by (apply H; now left).
  assert (fold_right Z.max b (map key rest) <= m)
    by (apply IH; intros x Hx; apply H; now right).
  lia.
Qed.

(** The rowid of the next row is [pid] when the rowids in use are positive
    and below [pid], and [pid - 1] is one of them unless [pid] is 1. *)
Lemma next_rowid_reused {A : Type} (key : A -> Z) (table : list A) (pid : Z) :
  0 < pid ->
  (forall x, In x table -> 0 < key x < pid) ->
  (1 < pid -> In (pid - 1) (map key table)) ->
  next_rowid key table = pid.
Proof.
  intros Hpos Hall Hprev. destruct table as [|r rest].
  - simpl. destruct (Z.eq_dec pid 1) as [->|Hne]; [reflexivity|].
    destruct (Hprev ltac:(lia)).
  - unfold next_rowid.
    assert (Hr : 0 < key r < pid) by (apply Hall; now left).
    assert (Hle : fold_right Z.max (key r) (map key rest) <= pid - 1).
    { apply fold_max_le; [lia|]. intros x Hx.
      assert (0 < key x < pid) by (apply Hall; now right). lia. }
    destruct (fold_max_bounds key (key r) rest) as [H1 H2].
    assert (Hin : In (pid - 1) (map key (r :: rest))) by (apply Hprev; lia).
    apply in_map_iff in Hin as (x & Hx & [<-|Hin]); [lia|].
    specialize (H2 x Hin). lia.
Qed.

Lemma order_by_number_length l : length (order_by_number l) = length l.
Proof.
  assert (Hins : forall t l, length (insert_task t l) = S (length l)).
  { intros t l0. induction l0 as [|h rest IH]; [reflexivity|].
    simpl. destruct (pt_number h <? pt_number t); simpl; now rewrite ?IH. }
  induction l as [|t l IH]; [reflexivity|].
  unfold order_by_number in *. simpl. now rewrite Hins, IH.
Qed.

(** The tasks inserted by the loop. *)
Lemma insert_tasks_spec perf pts : forall d i d',
  insert_tasks d perf i pts = Ok d' ->
  exists new,
    d' = set_tasks d (performance_queries d) (performance_tasks d ++ new) /\
    length new = length pts /\
    Forall (fun t => pt_performance_id t = perf) new.
Proof.
  induction pts as [|x pts IH]; intros d i d' H.
  - injection H as <-. exists []. rewrite app_nil_r. split; [|split].
    + now destruct d.
    + reflexivity.
    + constructor.
  - cbn [insert_tasks] in H. unfold insert_task_row in H.
    destruct (in_int64 i); [|discriminate]. cbn [negb] in H.
    destruct (bind_real x) as [mp|]; [|discriminate].
    cbn [bind] in H. apply IH in H as (new & -> & Hlen & Hall).
    eexists (_ :: new). split; [|split].
    + unfold set_tasks. cbn. now rewrite <- app_assoc.
    + cbn. now rewrite Hlen.
    + constructor; [reflexivity|exact Hall].
Qed.

Lemma pad_firstn_length n l : length (firstn n (pad n l)) = n.
Proof.
  unfold pad. rewrite length_firstn, length_app, repeat_length. lia.
Qed.

(** The students whose names stand in the template that
    [_post_performance_create] sends. *)
Lemma create_group students class_id course_id :
  (if 0 <? class_id then students_of_class students class_id
   else if 0 <? course_id then students_of_course students course_id
   else [])
  = group_students students (positive_or_null class_id)
      (positive_or_null course_id).
Proof.
  unfold group_students, positive_or_null, truthy.
  destruct (Z.ltb_spec 0 class_id) as [Hc|Hc].
  - destruct (Z.eqb_spec class_id 0); [lia|reflexivity].
  - destruct (Z.ltb_spec 0 course_id) as [Hk|Hk]; [|reflexivity].
    destruct (Z.eqb_spec course_id 0); [lia|reflexivity].
Qed.

(** What a request that [_post_performance_create] answers has done. *)
Lemma create_done (d : db) (students : list student_row) (now : string)
    (type_ description date subject_id class_id course_id max_op_points
       task_count max_points : option string) :
  let out := _post_performance_create d students now type_ description date
               subject_id class_id course_id max_op_points task_count
               max_points in
  exception out = None ->
  let pid := next_rowid pq_id (performance_queries d) in
  let n := Z.to_nat (Z.max 0 (int_or_zero task_count)) in
  exists row new_tasks,
    replies out
    = [CsvFile (template_filename pid)
         (template_csv n
            (group_students students (pq_class_id row) (pq_course_id row)))] /\
    pq_id row = pid /\
    pq_date row = strip (or_text date "") /\
    performance_queries (db_left out) = performance_queries d ++ [row] /\
    performance_tasks (db_left out) = performance_tasks d ++ new_tasks /\
    length new_tasks = n /\
    Forall (fun t => pt_performance_id t = pid) new_tasks /\
    performance_results (db_left out) = performance_results d /\
    performance_task_results (db_left out) = performance_task_results d.
Proof.
  cbv zeta. unfold _post_performance_create, create_rows.
  destruct (negb _); [discriminate|].
  match goal with
  | |- context [insert_tasks ?d1 ?p ?i ?l] =>
      destruct (insert_tasks d1 p i l) as [d2|e] eqn:E
  end; cbn [bind]; [|discriminate].
  intros _. apply insert_tasks_spec in E as (new & -> & Hlen & Hall).
  rewrite pad_firstn_length in Hlen.
  eexists _, new. cbn.
  rewrite create_group.
  repeat split; try reflexivity; assumption.
Qed.

End CreateFacts.

Module CreateExtras.

Import Schema Py Http Scoring CsvImport Assessments Roster Templates.
Import LifecycleFacts OverrideFacts DigitFacts CreateFacts.





End CreateExtras.

(** ** Students and attendance *)

Module PupilFacts.

Import Schema Py Http Scoring CsvImport Roster Templates Pupils.

Lemma insert_student_In s l x :
  In x (insert_student s l) <-> x = s \/ In x l.
Proof.
  induction l as [|h rest IH]; simpl; [intuition|].
  destruct (name_ltb h s); simpl; rewrite ?IH; intuition.
Qed.

Lemma order_by_name_In l x : In x (order_by_name l) <-> In x l.
Proof.
  induction l as [|s l IH]; [reflexivity|].
  unfold order_by_name in *. simpl. rewrite insert_student_In, IH.
  intuition.
Qed.

(** What a request that [_post_student_create] answers with its redirect
    has done. *)
Lemma student_created (s : store) (now : string)
    (first_name last_name class_id course_id : option string) (url : string) :
  let out := _post_student_create s now first_name last_name class_id
               course_id in
  responses out = [SeeOther url] ->
  exists new,
    students (store_after out) = students s ++ [new] /\
    stu_id new = next_rowid stu_id (students s) /\
    stu_first_name new = strip (or_text first_name "") /\
    stu_last_name new = strip (or_text last_name "") /\
    int_if_digits (or_text class_id "0") = Ok (stu_class_id new) /\
    attendance_records (store_after out) = attendance_records s /\
    classes (main (store_after out)) = classes (main s) /\
    courses (main (store_after out)) = courses (main s) /\
    performance_results (main (store_after out))
    = performance_results (main s) /\
    performance_task_results (main (store_after out))
    = performance_task_results (main s).
Proof.
  cbv zeta. unfold _post_student_create.
  destruct (int_if_digits (or_text class_id "0")) as [c|e];
    [|discriminate].
  destruct (int_if_digits (or_text course_id "0")) as [k|e];
    [|discriminate].
  destruct (negb _); [discriminate|].
  destruct (negb _); [discriminate|].
  intros _. eexists. cbn. repeat split; reflexivity.
Qed.

Lemma referenced_iff (s : store) :
  referenced s = true <->
  forall r, In r (students s) ->
    class_exists (main s) (stu_class_id r) = true /\
    match stu_course_id r with
    | Some k => course_exists (main s) k = true
    | None => True
    end.
Proof.
  unfold referenced. rewrite forallb_forall. split; intros H r Hr.
  - specialize (H r Hr). apply andb_true_iff in H as [H1 H2].
    split; [exact H1|]. now destruct (stu_course_id r).
  - destruct (H r Hr) as [H1 H2]. rewrite H1.
    now destruct (stu_course_id r).
Qed.

End PupilFacts.

Module PupilExtras.

Import Schema Py Http Scoring CsvImport Roster Templates Pupils.
Import CreateFacts PupilFacts.

(** X16.  What [_post_attendance_create] stores is consistent, whatever
    the form holds.  The handler never raises.  Either it stores nothing
    and answers with a page of status 400 or 500, or it appends exactly one
    attendance record and one log entry and redirects; the record has no
    period, its status is 'present' or 'absent', its minutes are not
    negative, a 'present' record has no absent minutes and an 'absent'
    record has no late minutes. *)
Theorem attendance_record_consistent (LESSON_MINUTES : Z)
    (message : exn -> string) (s : store) (now : string)
    (student_id date status absent_units absent_minutes late_minutes
       : option string) :
  let out := _post_attendance_create LESSON_MINUTES message s now student_id
               date status absent_units absent_minutes late_minutes in
  error out = None /\
  students (store_after out) = students s /\
  ((store_after out = s /\
    exists body, responses out = [Html 400 body]
                 \/ responses out = [Html 500 body])
   \/
   (exists r url,
      attendance_records (store_after out) = attendance_records s ++ [r] /\
      length (change_log (main (store_after out)))
      = S (length (change_log (main s))) /\
      responses out = [SeeOther url] /\
      at_id r = next_rowid at_id (attendance_records s) /\
      at_period r = None /\
      (at_status r = "present" \/ at_status r = "absent") /\
      0 <= at_absent_minutes r /\ 0 <= at_late_minutes r /\
      (at_status r = "present" -> at_absent_minutes r = 0) /\
      (at_status r = "absent" -> at_late_minutes r = 0))).
Proof.
  cbv zeta. unfold _post_attendance_create.
  destruct (Py.int (or_text student_id "0")) as [sid|].
  2:{ cbn. split; [reflexivity|]. split; [reflexivity|]. left. eauto. }
  set (st := Float.lowercase (strip (or_text status "present"))).
  set (am := Z.max 0 (Z.max (int_or_0 absent_minutes)
                        (units absent_units * LESSON_MINUTES))).
  set (lm := Z.max 0 (int_or_0 late_minutes)).
  assert (Ham : 0 <= am) by (unfold am; lia).
  assert (Hlm : 0 <= lm) by (unfold lm; lia).
  unfold insert_attendance.
  destruct (negb (in_int64 sid && _ && _)).
  { cbn. split; [reflexivity|]. split; [reflexivity|]. left. eauto. }
  destruct (String.eqb_spec st "late") as [El|El];
    destruct (String.eqb_spec st "absent") as [Ea|Ea];
    try (rewrite El in Ea; discriminate Ea).
  - cbn. split; [reflexivity|]. split; [reflexivity|]. right.
    eexists _, _. cbn. rewrite length_app. cbn.
    repeat split; cbn; try reflexivity; try lia; try (now left);
      try discriminate.
  - rewrite Ea. cbn. split; [reflexivity|]. split; [reflexivity|]. right.
    eexists _, _. cbn. rewrite length_app. cbn.
    repeat split; cbn; try reflexivity; try lia; try (now right);
      try discriminate.
  - destruct (String.eqb_spec st "present") as [Ep|Ep].
    + cbn. split; [reflexivity|]. split; [reflexivity|]. right.
      eexists _, _. cbn. rewrite length_app. cbn.
      repeat split; cbn; try reflexivity; try lia; try (now left);
        rewrite Ep; discriminate.
    + cbn. split; [reflexivity|]. split; [reflexivity|]. left. eauto.
Qed.







End PupilExtras.
